(** * Task dashboard: the client-side aggregation and filtering engine

    A shallow embedding of the [TaskOverview] component (summary counts,
    load / create / update / delete handlers, the filtered view) and of the
    draft construction of [NewTaskModal], followed by the properties the
    design document states about them; then of the profile page, the login
    page, [authService] and the application root, with properties of theirs.

    Conventions of the embedding:
    - a task is a JavaScript object: a finite map from property names to
      values, reading an absent property yields [VUndefined];
    - strings are sequences of code units in the Latin-1 range; a number is
      an integer-valued double or an infinity, and NaN occurs only as a
      result of [parseInt], which the code always follows by [||];
    - a handler runs against a [World]: the component state of the render it
      was created in, plus the log of the Transport calls made so far; an
      exception does not roll the state back;
    - the Transport is a record of answers, one per endpoint;
    - the 4 second timer that hides a notification is not modelled. *)

From Stdlib Require Import ZArith String Ascii List Bool Lia.
From Stdlib Require Import DecimalString DecimalZ.
From stdpp Require Import base decidable option list strings gmap fin_maps.

Local Open Scope string_scope.

(** ** JavaScript values and the string primitives the code calls *)

Module JS.

Inductive value : Type :=
  | VUndefined
  | VNull
  | VBool (b : bool)
  | VNum (n : Z)
  | VStr (s : string)
  | VObj (ref : nat)
  | VInfinity (negative : bool).

#[global] Instance value_eq_dec : EqDecision value.
Proof. solve_decision. Defined.

(** An object with string keys; [obj.k] is [prop obj "k"]. *)
Abbreviation object := (gmap string value).

Definition prop (o : object) (k : string) : value :=
  default VUndefined (o !! k).

(** ToBoolean. *)
Definition truthy (v : value) : bool :=
  match v with
  | VUndefined | VNull => false
  | VBool b => b
  | VNum n => negb (n =? 0)%Z
  | VStr s => negb (String.eqb s "")
  | VObj _ => true
  | VInfinity _ => true
  end.

(** A number, as opposed to a value of another type. *)
Definition isNumber (v : value) : Prop :=
  match v with
  | VNum _ | VInfinity _ => True
  | _ => False
  end.

(** [a === b]; without NaN it is equality of values, objects by reference. *)
Definition strict_eq (a b : value) : bool := bool_decide (a = b).

(** [a || b] on values. *)
Definition js_or (a b : value) : value := if truthy a then a else b.

Inductive exn : Type :=
  | TypeError (what : string)
  | Rejection (reason : value).

#[global] Instance exn_eq_dec : EqDecision exn.
Proof. solve_decision. Defined.

Inductive completion (A : Type) : Type :=
  | Normal (a : A)
  | Throw (e : exn).
Arguments Normal {A} a.
Arguments Throw {A} e.

Definition cbind {A B} (c : completion A) (k : A -> completion B) : completion B :=
  match c with
  | Normal a => k a
  | Throw e => Throw e
  end.

(** *** Code units *)

Definition is_upper (c : ascii) : bool :=
  let n := nat_of_ascii c in
  (((65 <=? n) && (n <=? 90)) || ((192 <=? n) && (n <=? 222) && negb (n =? 215)))%nat.

Definition lower_char (c : ascii) : ascii :=
  if is_upper c then ascii_of_nat (nat_of_ascii c + 32)%nat else c.

(** WhiteSpace and LineTerminator code units below 256. *)
Definition is_space (c : ascii) : bool :=
  let n := nat_of_ascii c in
  (((9 <=? n) && (n <=? 13)) || (n =? 32) || (n =? 160))%nat.

Definition is_digit (c : ascii) : bool :=
  let n := nat_of_ascii c in ((48 <=? n) && (n <=? 57))%nat.

(** *** String.prototype methods *)

Fixpoint toLowerCase (s : string) : string :=
  match s with
  | EmptyString => EmptyString
  | String c r => String (lower_char c) (toLowerCase r)
  end.

Fixpoint startsWith (s p : string) {struct p} : bool :=
  match p, s with
  | EmptyString, _ => true
  | String _ _, EmptyString => false
  | String b p', String a s' => Ascii.eqb a b && startsWith s' p'
  end.

Fixpoint includes (s t : string) : bool :=
  startsWith s t ||
  match s with
  | EmptyString => false
  | String _ s' => includes s' t
  end.

Fixpoint trimStart (s : string) : string :=
  match s with
  | EmptyString => EmptyString
  | String c r => if is_space c then trimStart r else s
  end.

Fixpoint trimEnd (s : string) : string :=
  match s with
  | EmptyString => EmptyString
  | String c r =>
      match trimEnd r with
      | EmptyString => if is_space c then EmptyString else String c EmptyString
      | r' => String c r'
      end
  end.

Definition trim (s : string) : string := trimEnd (trimStart s).

(** A method call on a value that may not be a string: reading a method of
    [undefined] or [null], or calling one a non-string does not have, throws
    a TypeError. *)
Definition call_toLowerCase (v : value) : completion string :=
  match v with
  | VStr s => Normal (toLowerCase s)
  | VUndefined | VNull => Throw (TypeError "Cannot read properties of undefined")
  | _ => Throw (TypeError "toLowerCase is not a function")
  end.

(** *** Numbers

    [VNum n] is the double whose value is the integer [n], [VInfinity] one of
    the two infinities. *)

Inductive number : Type :=
  | NaN
  | Finite (n : Z)
  | Infinite (negative : bool).

(** The Number value for a positive integer: the nearest integer with a
    significand of 53 bits, a tie going to the even significand. *)
Definition roundPos (z : Z) : Z :=
  let shift := (Z.log2 z - 52)%Z in
  if (shift <=? 0)%Z then z
  else
    let q := (z / 2 ^ shift)%Z in
    let rest := (z mod 2 ^ shift)%Z in
    let half := (2 ^ (shift - 1))%Z in
    if (half <? rest)%Z || ((rest =? half)%Z && Z.odd q)
    then ((q + 1) * 2 ^ shift)%Z
    else (q * 2 ^ shift)%Z.

Definition roundToDouble (z : Z) : Z :=
  match z with
  | Z0 => 0%Z
  | Zpos _ => roundPos z
  | Zneg p => (- roundPos (Zpos p))%Z
  end.

(** The integers that are doubles. *)
Definition isDouble (n : Z) : Prop := roundToDouble n = n.

(** The Number value for an integer; what rounds to 2^1024 or beyond is an
    infinity. *)
Definition numberFor (z : Z) : number :=
  let r := roundToDouble z in
  if (Z.abs r <? 2 ^ 1024)%Z then Finite r else Infinite (z <? 0)%Z.

(** The decimal digits of an integer. *)
Definition decimal (z : Z) : string := NilEmpty.string_of_int (Z.to_int z).

(** Number::toString picks the decimal [s * 10^p] with the fewest digits [s]
    whose Number value is [x], the closest to [x] when there are two. The
    candidates at scale [10^p] are the multiples of [10^p] next to [x]; the
    scales are tried from the largest down. *)
Fixpoint shortest (p : nat) (x : Z) : Z :=
  match p with
  | O => x
  | S p' =>
      let scale := (10 ^ Z.of_nat p)%Z in
      let lo := (x / scale * scale)%Z in
      let hi := (lo + scale)%Z in
      let okLo := (0 <? lo)%Z && (roundToDouble lo =? x)%Z in
      let okHi := (roundToDouble hi =? x)%Z in
      if okLo && okHi then
        if (x - lo <? hi - x)%Z then lo
        else if (hi - x <? x - lo)%Z then hi
        else if Z.even (x / scale) then lo else hi
      else if okLo then lo
      else if okHi then hi
      else shortest p' x
  end.

Fixpoint stripZeros (s : string) : string :=
  match s with
  | EmptyString => EmptyString
  | String c r =>
      match stripZeros r with
      | EmptyString => if Ascii.eqb c "0" then EmptyString else String c EmptyString
      | r' => String c r'
      end
  end.

(** Below 10^21 the digits are written out, padded with zeros; from 10^21 on
    the number is written as [d.ddde+n]: the first digit, the others up to
    the last that is not zero, and the exponent. *)
Definition positive_toString (x : Z) : string :=
  let c := shortest (String.length (decimal x)) x in
  let digits := decimal c in
  if (c <? 10 ^ 21)%Z then digits
  else
    let e := decimal (Z.of_nat (String.length digits) - 1) in
    match digits with
    | EmptyString => EmptyString
    | String d r =>
        String d
          match stripZeros r with
          | EmptyString => String.append "e+" e
          | m => String.append "." (String.append m (String.append "e+" e))
          end
    end.

(** Number::toString, radix 10, for an integer-valued double. *)
Definition number_toString (n : Z) : string :=
  match n with
  | Z0 => "0"
  | Zpos _ => positive_toString n
  | Zneg p => String "-" (positive_toString (Zpos p))
  end.

(** The double quote character, as a one-character string. *)
Definition dquote : string := String (ascii_of_nat 34) EmptyString.

(** ToString, as a template literal applies it. *)
Definition toString (v : value) : string :=
  match v with
  | VUndefined => "undefined"
  | VNull => "null"
  | VBool true => "true"
  | VBool false => "false"
  | VNum n => number_toString n
  | VStr s => s
  | VObj _ => "[object Object]"
  | VInfinity false => "Infinity"
  | VInfinity true => "-Infinity"
  end.

(** *** parseInt, without a radix argument *)

Fixpoint digits_prefix (s : string) : string :=
  match s with
  | EmptyString => EmptyString
  | String c r => if is_digit c then String c (digits_prefix r) else EmptyString
  end.

Definition parse_digits (s : string) : option Z :=
  match digits_prefix s with
  | EmptyString => None
  | ds => option_map Z.of_uint (NilEmpty.uint_of_string ds)
  end.

Definition hex_digit (c : ascii) : option Z :=
  let n := nat_of_ascii c in
  if ((48 <=? n) && (n <=? 57))%nat then Some (Z.of_nat (n - 48))
  else if ((97 <=? n) && (n <=? 102))%nat then Some (Z.of_nat (n - 87))
  else if ((65 <=? n) && (n <=? 70))%nat then Some (Z.of_nat (n - 55))
  else None.

Fixpoint hex_value (s : string) (acc : Z) : Z :=
  match s with
  | EmptyString => acc
  | String c r =>
      match hex_digit c with
      | Some d => hex_value r (16 * acc + d)%Z
      | None => acc
      end
  end.

Definition parse_hex (s : string) : option Z :=
  match s with
  | EmptyString => None
  | String c _ =>
      match hex_digit c with
      | Some _ => Some (hex_value s 0%Z)
      | None => None
      end
  end.

(** The integer spelled after the sign: hexadecimal after a [0x] or [0X]
    prefix, decimal otherwise; the longest run of digits is read, and [None]
    says there is none. *)
Definition parse_unsigned (r : string) : option Z :=
  match r with
  | String "0" (String "x" h) | String "0" (String "X" h) => parse_hex h
  | _ => parse_digits r
  end.

(** Leading white space is skipped, one sign is read, then the digits; the
    result is the Number value for the integer read, NaN without a digit. *)
Definition parseInt_string (s : string) : number :=
  let '(negative, r) :=
    match trimStart s with
    | String "-" r => (true, r)
    | String "+" r => (false, r)
    | r => (false, r)
    end in
  match parse_unsigned r with
  | None => NaN
  | Some z => numberFor (if negative then - z else z)%Z
  end.

(** [parseInt(v)] converts its argument to a string first. *)
Definition parseInt (v : value) : number := parseInt_string (toString v).

(** [parseInt(v) || d]: NaN and zero are falsy. *)
Definition parseInt_or (v : value) (d : Z) : value :=
  match parseInt v with
  | NaN => VNum d
  | Finite n => if (n =? 0)%Z then VNum d else VNum n
  | Infinite negative => VInfinity negative
  end.

Definition call_trim (v : value) : completion string :=
  match v with
  | VStr s => Normal (trim s)
  | VUndefined | VNull => Throw (TypeError "Cannot read properties of undefined")
  | _ => Throw (TypeError "trim is not a function")
  end.

(** *** Array.prototype.filter with a callback that may throw *)

Fixpoint array_filter {A} (f : A -> completion value) (l : list A)
  : completion (list A) :=
  match l with
  | [] => Normal []
  | x :: r =>
      cbind (f x) (fun keep =>
      cbind (array_filter f r) (fun r' =>
      Normal (if truthy keep then x :: r' else r')))
  end.

End JS.
Export JS.


(** ** Component state (the [useState] cells) and the world a handler runs in *)

Module OverviewHooks.

Record Summary : Type := mkSummary {
  total : nat;
  completed : nat;
  inProgress : nat;
  onHold : nat;
  notStarted : nat
}.

Record Notification : Type := mkNotification {
  show : bool;
  message : string;
  type : string
}.

Record State : Type := mkState {
  tasks : list object;
  summary : Summary;
  showNewTaskModal : bool;
  notification : Notification;
  loading : bool;
  filter : string;
  searchTerm : string
}.

(** The initial values handed to [useState]. *)
Definition initial : State :=
  {| tasks := [];
     summary := mkSummary 0 0 0 0 0;
     showNewTaskModal := false;
     notification := mkNotification false "" "";
     loading := false;
     filter := "all";
     searchTerm := "" |}.

End OverviewHooks.

Module ModalHooks.

Record State : Type := mkState {
  newTask : object;
  loading : bool
}.

Definition blankTask : object :=
  {[ "taskName" := VStr "";
     "responsible" := VStr "";
     "remarks" := VStr "";
     "priority" := VStr "MEDIUM";
     "category" := VStr "Installation";
     "estimatedHours" := VNum 8;
     "department" := VStr "Production";
     "isCritical" := VBool false;
     "startDate" := VStr "";
     "endDate" := VStr "" ]}.

Definition initial : State := {| newTask := blankTask; loading := false |}.

End ModalHooks.

(** The requests [taskService] sends. *)
Inductive Call : Type :=
  | GetAllTasks
  | CreateTask (task : object)
  | UpdateTask (id : value) (task : object)
  | DeleteTask (id : value).

Record Response (A : Type) : Type := mkResponse { data : A }.
Arguments mkResponse {A} data.
Arguments data {A} r.

(** How the remote API answers: a fulfilled promise carries a response, a
    rejected one an error. *)
Record Transport : Type := mkTransport {
  getAllTasks : completion (Response (list object));
  createTask : object -> completion (Response object);
  updateTask : value -> object -> completion (Response object);
  deleteTask : value -> completion (Response value)
}.

Record User : Type := mkUser {
  username : string;
  fullName : string;
  role : value
}.

Record World : Type := mkWorld {
  overview : OverviewHooks.State;
  modal : ModalHooks.State;
  calls : list Call;
  alerts : list string
}.

Definition initialWorld : World :=
  {| overview := OverviewHooks.initial;
     modal := ModalHooks.initial;
     calls := [];
     alerts := [] |}.

(** *** The handler monad: state passing, with exceptions that keep the state *)

Definition M (A : Type) : Type := World -> completion A * World.

#[global] Instance M_ret : MRet M := fun A a w => (Normal a, w).
#[global] Instance M_bind : MBind M := fun A B k m w =>
  match m w with
  | (Normal a, w') => k a w'
  | (Throw e, w') => (Throw e, w')
  end.

Definition throw {A} (e : exn) : M A := fun w => (Throw e, w).

Definition lift {A} (c : completion A) : M A := fun w => (c, w).

Definition try_catch {A} (body : M A) (handler : exn -> M A) : M A := fun w =>
  match body w with
  | (Normal a, w') => (Normal a, w')
  | (Throw e, w') => handler e w'
  end.

Definition try_finally {A} (body : M A) (finalizer : M unit) : M A := fun w =>
  match body w with
  | (r, w') =>
      match finalizer w' with
      | (Normal _, w'') => (r, w'')
      | (Throw e, w'') => (Throw e, w'')
      end
  end.

(** [await] on a Transport promise: the request is logged, then the promise
    settles. *)
Definition await {A} (c : Call) (promise : completion A) : M A := fun w =>
  (promise,
   {| overview := overview w; modal := modal w;
      calls := calls w ++ [c]; alerts := alerts w |}).

Definition alert (msg : string) : M unit := fun w =>
  (Normal tt,
   {| overview := overview w; modal := modal w;
      calls := calls w; alerts := alerts w ++ [msg] |}).

Definition modify_overview (f : OverviewHooks.State -> OverviewHooks.State) : M unit :=
  fun w =>
  (Normal tt,
   {| overview := f (overview w); modal := modal w;
      calls := calls w; alerts := alerts w |}).

Definition modify_modal (f : ModalHooks.State -> ModalHooks.State) : M unit :=
  fun w =>
  (Normal tt,
   {| overview := overview w; modal := f (modal w);
      calls := calls w; alerts := alerts w |}).

(** The values a handler closes over: the state of the render that created it. *)
Definition render_overview : M OverviewHooks.State := fun w => (Normal (overview w), w).
Definition render_modal : M ModalHooks.State := fun w => (Normal (modal w), w).

(** ** TaskOverview *)

Module TaskOverview.
Import OverviewHooks.

Definition setTasks (v : list object) : M unit :=
  modify_overview (fun s =>
    mkState v (summary s) (showNewTaskModal s) (notification s) (loading s)
            (filter s) (searchTerm s)).

Definition setSummary (v : Summary) : M unit :=
  modify_overview (fun s =>
    mkState (tasks s) v (showNewTaskModal s) (notification s) (loading s)
            (filter s) (searchTerm s)).

Definition setShowNewTaskModal (v : bool) : M unit :=
  modify_overview (fun s =>
    mkState (tasks s) (summary s) v (notification s) (loading s)
            (filter s) (searchTerm s)).

Definition setNotification (v : Notification) : M unit :=
  modify_overview (fun s =>
    mkState (tasks s) (summary s) (showNewTaskModal s) v (loading s)
            (filter s) (searchTerm s)).

Definition setLoading (v : bool) : M unit :=
  modify_overview (fun s =>
    mkState (tasks s) (summary s) (showNewTaskModal s) (notification s) v
            (filter s) (searchTerm s)).

Definition setFilter (v : string) : M unit :=
  modify_overview (fun s =>
    mkState (tasks s) (summary s) (showNewTaskModal s) (notification s)
            (loading s) v (searchTerm s)).

Definition setSearchTerm (v : string) : M unit :=
  modify_overview (fun s =>
    mkState (tasks s) (summary s) (showNewTaskModal s) (notification s)
            (loading s) (filter s) v).

(** [task.status === name] *)
Definition hasStatus (name : string) (task : object) : bool :=
  strict_eq (prop task "status") (VStr name).

Definition summaryData (taskList : list object) : Summary :=
  {| total := length taskList;
     completed := length (List.filter (hasStatus "COMPLETED") taskList);
     inProgress := length (List.filter (hasStatus "IN_PROGRESS") taskList);
     onHold := length (List.filter (hasStatus "HOLD") taskList);
     notStarted := length (List.filter (hasStatus "NOT_STARTED") taskList) |}.

Definition calculateSummary (taskList : list object) : M Summary :=
  setSummary (summaryData taskList);;
  mret (summaryData taskList).

Definition showNotification (message type : string) : M unit :=
  setNotification (mkNotification true message type).

Section Component.

Variable currentUser : User.
Variable taskService : Transport.

(** Check permissions *)
Definition canCreateTask : bool :=
  existsb (strict_eq (role currentUser)) [VStr "ADMIN"; VStr "SUPERVISOR"].

Definition canDeleteTask : bool :=
  strict_eq (role currentUser) (VStr "ADMIN").

Definition loadTasks : M unit :=
  setLoading true;;
  try_finally
    (try_catch
       (response ← await GetAllTasks (getAllTasks taskService);
        let tasksData := data response in
        setTasks tasksData;;
        calculateSummary tasksData;;
        showNotification "All tasks loaded successfully!" "success")
       (fun error => showNotification "Error loading tasks!" "error"))
    (setLoading false).

Definition handleTaskUpdate (taskId : value) (updatedTask : object) : M unit :=
  closure ← render_overview;
  try_catch
    (response ← await (UpdateTask taskId updatedTask)
                      (updateTask taskService taskId updatedTask);
     let updatedTaskData := data response in
     let updatedTasks :=
       List.map (fun task =>
                   if strict_eq (prop task "id") taskId then updatedTaskData else task)
                (tasks closure) in
     setTasks updatedTasks;;
     calculateSummary updatedTasks;;
     showNotification "Task updated successfully!" "success")
    (fun error =>
       showNotification "Error updating task!" "error";;
       throw error).

Definition handleTaskDelete (taskId : value) (taskName : value) : M unit :=
  closure ← render_overview;
  if negb canDeleteTask then
    showNotification "You do not have permission to delete tasks" "error"
  else
    try_catch
      (await (DeleteTask taskId) (deleteTask taskService taskId);;
       let updatedTasks :=
         List.filter (fun task => negb (strict_eq (prop task "id") taskId))
                     (tasks closure) in
       setTasks updatedTasks;;
       calculateSummary updatedTasks;;
       showNotification "Task deleted successfully!" "success")
      (fun error => showNotification "Error deleting task!" "error").

Definition handleCreateTask (newTaskData : object) : M unit :=
  closure ← render_overview;
  if negb canCreateTask then
    showNotification "You do not have permission to create tasks" "error"
  else
    try_catch
      (response ← await (CreateTask newTaskData)
                        (createTask taskService newTaskData);
       let createdTask := data response in
       let updatedTasks := (tasks closure ++ [createdTask])%list in
       setTasks updatedTasks;;
       calculateSummary updatedTasks;;
       setShowNewTaskModal false;;
       showNotification
         (String.append "Task "
            (String.append dquote
               (String.append (toString (prop createdTask "taskName"))
                  (String.append dquote " created successfully!")))) "success")
      (fun error =>
         showNotification "Error creating task!" "error";;
         throw error).

End Component.

(** Filter tasks based on status and search term *)

Definition matchesFilter (filter : string) (task : object) : bool :=
  String.eqb filter "all" || strict_eq (prop task "status") (VStr filter).

(** [field.toLowerCase().includes(searchTerm.toLowerCase())] *)
Definition fieldIncludes (field : value) (searchTerm : string) : completion bool :=
  cbind (call_toLowerCase field) (fun lowered =>
  Normal (includes lowered (toLowerCase searchTerm))).

Definition matchesSearch (searchTerm : string) (task : object) : completion value :=
  cbind (fieldIncludes (prop task "taskName") searchTerm) (fun inName =>
  if inName then Normal (VBool true) else
  cbind (fieldIncludes (prop task "responsible") searchTerm) (fun inResponsible =>
  if inResponsible then Normal (VBool true) else
  cbind (fieldIncludes (prop task "remarks") searchTerm) (fun inRemarks =>
  if inRemarks then Normal (VBool true) else
  if truthy (prop task "lastModifiedBy") then
    cbind (fieldIncludes (prop task "lastModifiedBy") searchTerm) (fun inModifier =>
    Normal (VBool inModifier))
  else Normal (prop task "lastModifiedBy")))).

Definition keepTask (filter searchTerm : string) (task : object) : completion value :=
  let matchesFilter := matchesFilter filter task in
  cbind (matchesSearch searchTerm task) (fun matchesSearch =>
  Normal (if matchesFilter then matchesSearch else VBool false)).

Definition filteredTasks (s : State) : completion (list object) :=
  array_filter (keepTask (filter s) (searchTerm s)) (tasks s).

Definition clearFilters : M unit :=
  setFilter "all";;
  setSearchTerm "";;
  showNotification "Filters cleared" "info".

(** The handlers and flags the component hands to its children when it
    renders (the task table also receives the filtered view). *)
Record TaskTableProps : Type := mkTaskTableProps {
  onTaskUpdate : value -> object -> M unit;
  onTaskDelete : value -> value -> M unit;
  tableUser : User;
  tableCanDelete : bool
}.

Record NewTaskModalProps : Type := mkNewTaskModalProps {
  onTaskCreate : object -> M unit;
  modalCanCreate : bool
}.

Definition taskTableProps (currentUser : User) (taskService : Transport)
  : TaskTableProps :=
  {| onTaskUpdate := handleTaskUpdate taskService;
     onTaskDelete := handleTaskDelete currentUser taskService;
     tableUser := currentUser;
     tableCanDelete := canDeleteTask currentUser |}.

Definition newTaskModalProps (currentUser : User) (taskService : Transport)
  : NewTaskModalProps :=
  {| onTaskCreate := handleCreateTask currentUser taskService;
     modalCanCreate := canCreateTask currentUser |}.

(** The world after a handler: the collection, the summary, the modal flag,
    the loading flag and the notification it leaves, and the requests sent. *)
Definition outcome (w : World) (calls' : list Call) (tasks' : list object)
    (summary' : Summary) (showModal' loading' : bool) (note : Notification)
  : World :=
  {| overview :=
       mkState tasks' summary' showModal' note loading'
               (filter (overview w)) (searchTerm (overview w));
     modal := modal w;
     calls := calls';
     alerts := alerts w |}.

Definition notice (message type : string) : Notification :=
  mkNotification true message type.

(** The collections the update, delete and create handlers compute. *)
Definition replaceById (taskId : value) (updatedTaskData : object)
    (tasks : list object) : list object :=
  List.map (fun task =>
              if strict_eq (prop task "id") taskId then updatedTaskData else task)
           tasks.

Definition removeById (taskId : value) (tasks : list object) : list object :=
  List.filter (fun task => negb (strict_eq (prop task "id") taskId)) tasks.

Definition createdNotice (createdTask : object) : Notification :=
  notice
    (String.append "Task "
       (String.append dquote
          (String.append (toString (prop createdTask "taskName"))
             (String.append dquote " created successfully!")))) "success".

End TaskOverview.

(** ** NewTaskModal *)

Module NewTaskModal.
Import ModalHooks.

Definition setNewTask (f : object -> object) : M unit :=
  modify_modal (fun s => mkState (f (newTask s)) (loading s)).

Definition setLoading (v : bool) : M unit :=
  modify_modal (fun s => mkState (newTask s) v).

(** Create the task object with all required fields *)
Definition taskToCreate (newTask : object) : completion object :=
  cbind (call_trim (prop newTask "taskName")) (fun taskName =>
  cbind (call_trim (prop newTask "responsible")) (fun responsible =>
  cbind (call_trim (prop newTask "remarks")) (fun remarks =>
  Normal
    (<[ "taskName" := VStr taskName ]>
     (<[ "responsible" := js_or (VStr responsible) (VStr "Unassigned") ]>
     (<[ "remarks" := VStr remarks ]>
     (<[ "status" := VStr "NOT_STARTED" ]>
     (<[ "priority" := prop newTask "priority" ]>
     (<[ "category" := prop newTask "category" ]>
     (<[ "estimatedHours" := parseInt_or (prop newTask "estimatedHours") 8 ]>
     (<[ "department" := prop newTask "department" ]>
     (<[ "isCritical" := js_or (prop newTask "isCritical") (VBool false) ]>
     (<[ "completionPercentage" := VNum 0 ]>
     (<[ "startDate" := js_or (prop newTask "startDate") VNull ]>
     (<[ "endDate" := js_or (prop newTask "endDate") VNull ]> ∅))))))))))))))).

(** The text shown for a caught error: the server's message when the
    rejection carries one, the error's own message otherwise. *)
Definition errorMessage (error : exn) : string :=
  match error with
  | TypeError what => what
  | Rejection reason => toString reason
  end.

(** [e.target] of a change event: [name], [value], [type], [checked]. *)
Definition handleChange (name value type : string) (checked : bool) : M unit :=
  setNewTask (fun prev =>
    <[ name := if String.eqb type "checkbox" then VBool checked
               else if String.eqb type "number"
                    then parseInt_or (VStr value) 0
                    else VStr value ]> prev).

(** Set default dates to today and 7 days from today; the two dates are read
    off the clock, as ISO day strings. *)
Definition setDefaultDates (today nextWeekFormatted : string) : M unit :=
  setNewTask (fun prev =>
    <[ "endDate" := VStr nextWeekFormatted ]>
      (<[ "startDate" := VStr today ]> prev)).

Section Component.

Variable onTaskCreate : object -> M unit.
Variable canCreateTask : bool.

Definition handleSubmit : M unit :=
  closure ← render_modal;
  if negb canCreateTask then
    alert "You do not have permission to create tasks!"
  else
    trimmedName ← lift (call_trim (prop (newTask closure) "taskName"));
    if negb (truthy (VStr trimmedName)) then
      alert "Task name is required!"
    else
      setLoading true;;
      try_finally
        (try_catch
           (draft ← lift (taskToCreate (newTask closure));
            onTaskCreate draft;;
            setNewTask (fun _ => blankTask))
           (fun error =>
              alert (String.append "Failed to create task: " (errorMessage error))))
        (setLoading false).

End Component.

End NewTaskModal.

(** The modal as [TaskOverview] mounts it: [onTaskCreate] is
    [handleCreateTask] and [canCreateTask] the overview's own flag. *)
Definition submitNewTask (currentUser : User) (taskService : Transport) : M unit :=
  let props := TaskOverview.newTaskModalProps currentUser taskService in
  NewTaskModal.handleSubmit
    (TaskOverview.onTaskCreate props) (TaskOverview.modalCanCreate props).

(** ** The design document's vocabulary *)

Module Design.

Definition recognizedStatuses : list value :=
  [VStr "COMPLETED"; VStr "IN_PROGRESS"; VStr "HOLD"; VStr "NOT_STARTED"].

Definition recognized (task : object) : Prop :=
  In (prop task "status") recognizedStatuses.

(** The number of tasks of a collection whose status is [name]. *)
Fixpoint countStatus (name : string) (T : list object) : nat :=
  match T with
  | [] => 0
  | task :: rest =>
      (if decide (prop task "status" = VStr name) then 1 else 0)
      + countStatus name rest
  end.

(** [t] occurs in [s]. *)
Definition substringOf (t s : string) : Prop :=
  exists pre post, s = (pre ++ t ++ post)%string.

(** The status condition of the filtered view. *)
Definition statusMatch (filter : string) (task : object) : Prop :=
  filter = "all" \/ prop task "status" = VStr filter.

Definition searchedFields : list string :=
  ["taskName"; "responsible"; "remarks"; "lastModifiedBy"].

(** The search predicate: the term, lowercased, occurs in the lowercased text
    of one of the searched fields that is present. *)
Definition searchMatch (term : string) (task : object) : Prop :=
  exists k text,
    In k searchedFields /\ prop task k = VStr text /\
    substringOf (toLowerCase term) (toLowerCase text).

Definition inView (filter term : string) (task : object) : Prop :=
  statusMatch filter task /\ searchMatch term task.

(** [view] holds exactly the elements of [l] that satisfy [P], as often and in
    the order they occur in [l]. *)
Inductive Selects {A} (P : A -> Prop) : list A -> list A -> Prop :=
  | Selects_nil : Selects P [] []
  | Selects_keep x l view : P x -> Selects P l view -> Selects P (x :: l) (x :: view)
  | Selects_skip x l view : ~ P x -> Selects P l view -> Selects P (x :: l) view.

Definition isText (v : value) : Prop := exists s, v = VStr s.

(** The data model's text fields: name, responsible and remarks are text,
    last-modified-by is text or absent. *)
Definition textFieldsPresent (task : object) : Prop :=
  isText (prop task "taskName") /\
  isText (prop task "responsible") /\
  isText (prop task "remarks").

Definition wellFormed (task : object) : Prop :=
  textFieldsPresent task /\
  (prop task "lastModifiedBy" = VUndefined \/
   prop task "lastModifiedBy" = VNull \/
   isText (prop task "lastModifiedBy")).

(** The collection and the summary of [w'] are those of [w]. *)
Definition unchanged (w w' : World) : Prop :=
  OverviewHooks.tasks (overview w') = OverviewHooks.tasks (overview w) /\
  OverviewHooks.summary (overview w') = OverviewHooks.summary (overview w).

(** The summary of [w] is the one derived from its collection. *)
Definition consistent (w : World) : Prop :=
  OverviewHooks.summary (overview w)
  = TaskOverview.summaryData (OverviewHooks.tasks (overview w)).

(** An error notification is on display. *)
Definition reportsError (w : World) : Prop :=
  OverviewHooks.show (OverviewHooks.notification (overview w)) = true /\
  OverviewHooks.type (OverviewHooks.notification (overview w)) = "error".

(** How often [task] occurs in a collection, and how many tasks of a
    collection carry the identifier [id]. *)
Definition occurrences (task : object) (l : list object) : nat :=
  length (List.filter (fun t => bool_decide (t = task)) l).

Definition withId (id : value) (l : list object) : nat :=
  length (List.filter (fun t => bool_decide (prop t "id" = id)) l).

(** The state after the user picked a status filter and typed a search
    term. *)
Definition withQuery (s : OverviewHooks.State) (filter term : string)
  : OverviewHooks.State :=
  OverviewHooks.mkState (OverviewHooks.tasks s) (OverviewHooks.summary s)
    (OverviewHooks.showNewTaskModal s) (OverviewHooks.notification s)
    (OverviewHooks.loading s) filter term.

(** A search term of [n] letters x. *)
Fixpoint letters (n : nat) : string :=
  match n with
  | O => EmptyString
  | S n' => String "x" (letters n')
  end.

Definition textLength (v : value) : nat :=
  match v with
  | VStr s => String.length s
  | _ => 0
  end.

(** A search term longer than the name and the responsible person of
    [task], so that it occurs in neither. *)
Definition longTerm (task : object) : string :=
  letters (S (textLength (prop task "taskName")
              + textLength (prop task "responsible"))).

(** What a caller and the views can tell of a handler's run: how it
    completed, and the collection and summary it left. *)
Definition observed (run : completion unit * World)
  : completion unit * list object * OverviewHooks.Summary :=
  (fst run, OverviewHooks.tasks (overview (snd run)),
   OverviewHooks.summary (overview (snd run))).

End Design.

(** ** Sample data *)

Module Samples.

Definition taskA : object :=
  {[ "id" := VNum 1; "taskName" := VStr "A"; "responsible" := VStr "Ann";
     "remarks" := VStr ""; "status" := VStr "NOT_STARTED" ]}.

Definition taskB : object :=
  {[ "id" := VNum 2; "taskName" := VStr "B"; "responsible" := VStr "Bob";
     "remarks" := VStr "done"; "status" := VStr "COMPLETED";
     "lastModifiedBy" := VStr "admin" ]}.

(** A record the server sent without a responsible person. *)
Definition taskNoResponsible : object :=
  {[ "id" := VNum 3; "taskName" := VStr "C"; "remarks" := VStr "";
     "status" := VStr "HOLD" ]}.

(** What the server answers to a create or an update. *)
Definition taskNew : object :=
  {[ "id" := VNum 7; "taskName" := VStr "New"; "responsible" := VStr "Unassigned";
     "remarks" := VStr ""; "status" := VStr "NOT_STARTED" ]}.

Definition taskOther : object :=
  {[ "id" := VNum 8; "taskName" := VStr "Other"; "responsible" := VStr "Unassigned";
     "remarks" := VStr ""; "status" := VStr "IN_PROGRESS" ]}.

Definition admin : User := mkUser "root" "Ada Admin" (VStr "ADMIN").
Definition supervisor : User := mkUser "sue" "Sue Supervisor" (VStr "SUPERVISOR").
Definition operator : User := mkUser "oli" "Oli Operator" (VStr "OPERATOR").
Definition viewer : User := mkUser "vic" "Vic Viewer" (VStr "VIEWER").

(** A server that accepts every request and answers [answer] to a create or
    an update. *)
Definition online (listing : list object) (answer : object) : Transport :=
  {| getAllTasks := Normal (mkResponse listing);
     createTask := fun _ => Normal (mkResponse answer);
     updateTask := fun _ _ => Normal (mkResponse answer);
     deleteTask := fun _ => Normal (mkResponse VUndefined) |}.

Definition networkError : exn := Rejection (VStr "Network Error").

(** A server that cannot be reached. *)
Definition offline : Transport :=
  {| getAllTasks := Throw networkError;
     createTask := fun _ => Throw networkError;
     updateTask := fun _ _ => Throw networkError;
     deleteTask := fun _ => Throw networkError |}.

(** A server that rejects every request with [error]. *)
Definition failing (error : exn) : Transport :=
  {| getAllTasks := Throw error;
     createTask := fun _ => Throw error;
     updateTask := fun _ _ => Throw error;
     deleteTask := fun _ => Throw error |}.

Definition viewOf (tasks : list object) (filter searchTerm : string)
  : OverviewHooks.State :=
  OverviewHooks.mkState tasks (TaskOverview.summaryData tasks) false
    (OverviewHooks.mkNotification false "" "") false filter searchTerm.

(** A world in which [tasks] has been loaded. *)
Definition loaded (tasks : list object) : World :=
  {| overview := viewOf tasks "all" "";
     modal := ModalHooks.initial;
     calls := [GetAllTasks];
     alerts := [] |}.

(** What the server answers to a sign-in: a user with a token. *)
Definition signedIn : object :=
  {[ "token" := VStr "t0k3n"; "username" := VStr "admin";
     "fullName" := VStr "Ada Admin"; "role" := VStr "ADMIN" ]}.


End Samples.

(** ** The dashboard as a state machine *)

Module Dashboard.

(** The controls of the new-task form, with the [name] and the [type] their
    change events carry. *)
Inductive FormInput : Type :=
  | TaskNameInput
  | ResponsibleInput
  | PriorityInput
  | CategoryInput
  | DepartmentInput
  | StartDateInput
  | EndDateInput
  | EstimatedHoursInput
  | IsCriticalInput
  | RemarksInput.

Definition inputName (i : FormInput) : string :=
  match i with
  | TaskNameInput => "taskName"
  | ResponsibleInput => "responsible"
  | PriorityInput => "priority"
  | CategoryInput => "category"
  | DepartmentInput => "department"
  | StartDateInput => "startDate"
  | EndDateInput => "endDate"
  | EstimatedHoursInput => "estimatedHours"
  | IsCriticalInput => "isCritical"
  | RemarksInput => "remarks"
  end.

Definition inputType (i : FormInput) : string :=
  match i with
  | TaskNameInput | ResponsibleInput => "text"
  | PriorityInput | CategoryInput | DepartmentInput => "select-one"
  | StartDateInput | EndDateInput => "date"
  | EstimatedHoursInput => "number"
  | IsCriticalInput => "checkbox"
  | RemarksInput => "textarea"
  end.

(** What the user, the task table and the modal can trigger. The rendering
    conditions of the buttons ([disabled], [canCreateTask &&]) are not
    modelled: every event is possible in every state. *)
Inductive Event : Type :=
  | Refresh
  | TableUpdate (taskId : value) (updatedTask : object)
  | TableDelete (taskId taskName : value)
  | PickFilter (status : string)
  | TypeSearch (term : string)
  | ClearAll
  | OpenModal
  | CloseModal
  | FormChange (input : FormInput) (value : string) (checked : bool)
  | DefaultDates (today nextWeekFormatted : string)
  | FormSubmit.

(** The handler an event runs, for the signed-in user and the answers the
    server gives while it runs. *)
Definition handle (currentUser : User) (taskService : Transport) (ev : Event)
  : M unit :=
  match ev with
  | Refresh => TaskOverview.loadTasks taskService
  | TableUpdate taskId updatedTask =>
      TaskOverview.onTaskUpdate
        (TaskOverview.taskTableProps currentUser taskService) taskId updatedTask
  | TableDelete taskId taskName =>
      TaskOverview.onTaskDelete
        (TaskOverview.taskTableProps currentUser taskService) taskId taskName
  | PickFilter status => TaskOverview.setFilter status
  | TypeSearch term => TaskOverview.setSearchTerm term
  | ClearAll => TaskOverview.clearFilters
  | OpenModal => TaskOverview.setShowNewTaskModal true
  | CloseModal => TaskOverview.setShowNewTaskModal false
  | FormChange input value checked =>
      NewTaskModal.handleChange (inputName input) value (inputType input) checked
  | DefaultDates today nextWeekFormatted =>
      NewTaskModal.setDefaultDates today nextWeekFormatted
  | FormSubmit => submitNewTask currentUser taskService
  end.

(** The worlds the mounted component can be in between two handlers, each
    handler running to completion against the answers of some server. The
    component mounts in [initialWorld]; its mount effect is a [Refresh]. *)
Inductive reachable (currentUser : User) : World -> Prop :=
  | reachable_mount : reachable currentUser initialWorld
  | reachable_step w taskService ev :
      reachable currentUser w ->
      reachable currentUser (snd (handle currentUser taskService ev w)).

(** A draft as the form sends it. *)
Definition normalizedDraft (draft : object) : Prop :=
  (exists name, prop draft "taskName" = VStr name /\ trim name = name /\ name <> "") /\
  (exists r, prop draft "responsible" = VStr r /\ trim r = r /\ r <> "") /\
  (exists m, prop draft "remarks" = VStr m /\ trim m = m) /\
  (exists h, prop draft "estimatedHours" = VNum h /\ h <> 0%Z) /\
  prop draft "status" = VStr "NOT_STARTED" /\
  prop draft "completionPercentage" = VNum 0.

(** The fields of the form hold what their controls produce. *)
Definition formWellTyped (newTask : object) : Prop :=
  Design.textFieldsPresent newTask /\
  isNumber (prop newTask "estimatedHours").

(** The draft of the request sent last, when that was a create. *)
Definition lastDraft (w : World) : object :=
  match rev (calls w) with
  | CreateTask draft :: _ => draft
  | _ => ∅
  end.

(** Running a list of events in turn, against one server. *)
Fixpoint play (currentUser : User) (taskService : Transport)
    (events : list Event) (w : World) : World :=
  match events with
  | [] => w
  | ev :: rest =>
      play currentUser taskService rest
        (snd (handle currentUser taskService ev w))
  end.

(** What holds of every world the component can be in. *)
Definition invariant (currentUser : User) (w : World) : Prop :=
  Design.consistent w /\
  formWellTyped (ModalHooks.newTask (modal w)) /\
  OverviewHooks.loading (overview w) = false /\
  ModalHooks.loading (modal w) = false /\
  (forall draft, In (CreateTask draft) (calls w) ->
                 TaskOverview.canCreateTask currentUser = true /\
                 normalizedDraft draft) /\
  (forall taskId, In (DeleteTask taskId) (calls w) ->
                  TaskOverview.canDeleteTask currentUser = true).

End Dashboard.

(** ** UserProfile *)

(** [currentUser?.fullName || ''] and [currentUser?.username || ''], for a
    user that may be absent. *)
Definition fullNameOf (currentUser : option User) : string :=
  match currentUser with
  | Some u => fullName u
  | None => ""
  end.

Definition usernameOf (currentUser : option User) : string :=
  match currentUser with
  | Some u => username u
  | None => ""
  end.

Module UserProfile.

Record FormData : Type := mkFormData {
  fullName : string;
  username : string
}.

Record PasswordData : Type := mkPasswordData {
  currentPassword : string;
  newPassword : string;
  confirmPassword : string
}.

(** The [useState] cells of the component, and the arguments its
    [onUserUpdate] callback has been called with, oldest first. *)
Record State : Type := mkState {
  isEditing : bool;
  isChangingPassword : bool;
  formData : FormData;
  passwordData : PasswordData;
  errors : gmap string string;
  userUpdates : list FormData
}.

Definition userData (currentUser : option User) : FormData :=
  mkFormData (fullNameOf currentUser) (usernameOf currentUser).

Definition blankPasswords : PasswordData := mkPasswordData "" "" "".

Definition initial (currentUser : option User) : State :=
  mkState false false (userData currentUser) blankPasswords ∅ [].

(** The two inputs of the profile form and the three of the password form,
    by the [name] their change events carry. *)
Inductive ProfileInput : Type := FullNameInput | UsernameInput.
Inductive PasswordInput : Type :=
  CurrentPasswordInput | NewPasswordInput | ConfirmPasswordInput.

(** Handle input changes for profile editing *)
Definition handleInputChange (name : ProfileInput) (value : string) (s : State)
  : State :=
  let prev := formData s in
  mkState (isEditing s) (isChangingPassword s)
    (match name with
     | FullNameInput => mkFormData value (username prev)
     | UsernameInput => mkFormData (fullName prev) value
     end)
    (passwordData s) (errors s) (userUpdates s).

(** Handle password input changes *)
Definition handlePasswordChange (name : PasswordInput) (value : string) (s : State)
  : State :=
  let prev := passwordData s in
  mkState (isEditing s) (isChangingPassword s) (formData s)
    (match name with
     | CurrentPasswordInput =>
         mkPasswordData value (newPassword prev) (confirmPassword prev)
     | NewPasswordInput =>
         mkPasswordData (currentPassword prev) value (confirmPassword prev)
     | ConfirmPasswordInput =>
         mkPasswordData (currentPassword prev) (newPassword prev) value
     end)
    (errors s) (userUpdates s).

Definition setErrors (newErrors : gmap string string) (s : State) : State :=
  mkState (isEditing s) (isChangingPassword s) (formData s) (passwordData s)
    newErrors (userUpdates s).

(** [Object.keys(newErrors).length === 0] *)
Definition noKeys (newErrors : gmap string string) : bool :=
  bool_decide (newErrors = ∅).

(** Validate profile form *)
Definition profileErrors (d : FormData) : gmap string string :=
  let e0 : gmap string string := ∅ in
  let e1 :=
    if String.eqb (trim (fullName d)) ""
    then <[ "fullName" := "Full name is required" ]> e0 else e0 in
  if String.eqb (trim (username d)) ""
  then <[ "username" := "Username is required" ]> e1
  else if (String.length (username d) <? 3)%nat
       then <[ "username" := "Username must be at least 3 characters" ]> e1
       else e1.

Definition validateProfileForm (s : State) : bool * State :=
  let newErrors := profileErrors (formData s) in
  (noKeys newErrors, setErrors newErrors s).

(** Validate password form *)
Definition passwordErrors (d : PasswordData) : gmap string string :=
  let e0 : gmap string string := ∅ in
  let e1 :=
    if String.eqb (currentPassword d) ""
    then <[ "currentPassword" := "Current password is required" ]> e0 else e0 in
  let e2 :=
    if String.eqb (newPassword d) ""
    then <[ "newPassword" := "New password is required" ]> e1
    else if (String.length (newPassword d) <? 6)%nat
         then <[ "newPassword" := "Password must be at least 6 characters" ]> e1
         else e1 in
  if negb (String.eqb (newPassword d) (confirmPassword d))
  then <[ "confirmPassword" := "Passwords do not match" ]> e2
  else e2.

Definition validatePasswordForm (s : State) : bool * State :=
  let newErrors := passwordErrors (passwordData s) in
  (noKeys newErrors, setErrors newErrors s).

Section Component.

Variable currentUser : option User.
(** Whether the parent passed an [onUserUpdate] callback. *)
Variable onUserUpdate : bool.

(** Handle profile edit action *)
Definition handleEditProfile (s : State) : State :=
  mkState true (isChangingPassword s) (userData currentUser) (passwordData s)
    ∅ (userUpdates s).

(** Handle profile save action *)
Definition handleSaveProfile (s : State) : State :=
  let '(valid, s1) := validateProfileForm s in
  if negb valid then s1
  else
    mkState false (isChangingPassword s1) (formData s1) (passwordData s1)
      (errors s1)
      (if onUserUpdate then userUpdates s1 ++ [formData s] else userUpdates s1).

(** Handle cancel edit action *)
Definition handleCancelEdit (s : State) : State :=
  mkState false (isChangingPassword s) (userData currentUser) (passwordData s)
    ∅ (userUpdates s).

(** Handle password change action *)
Definition handleChangePassword (s : State) : State :=
  mkState (isEditing s) true (formData s) blankPasswords ∅ (userUpdates s).

(** Handle password save action *)
Definition handleSavePassword (s : State) : State :=
  let '(valid, s1) := validatePasswordForm s in
  if negb valid then s1
  else
    mkState (isEditing s1) false (formData s1) blankPasswords (errors s1)
      (userUpdates s1).

(** Handle cancel password change *)
Definition handleCancelPasswordChange (s : State) : State :=
  mkState (isEditing s) false (formData s) blankPasswords ∅ (userUpdates s).

(** The controls the component renders, and when: the profile inputs and the
    save and cancel buttons in edit mode; otherwise, in password mode, the
    password buttons; otherwise the two buttons that enter a mode. The
    password inputs are rendered whenever password mode is on. *)
Inductive Event : Type :=
  | TypeProfile (name : ProfileInput) (value : string)
  | TypePassword (name : PasswordInput) (value : string)
  | ClickEditProfile
  | ClickSaveProfile
  | ClickCancelEdit
  | ClickChangePassword
  | ClickSavePassword
  | ClickCancelPasswordChange.

Definition offered (s : State) (ev : Event) : bool :=
  match ev with
  | TypeProfile _ _ | ClickSaveProfile | ClickCancelEdit => isEditing s
  | TypePassword _ _ => isChangingPassword s
  | ClickSavePassword | ClickCancelPasswordChange =>
      negb (isEditing s) && isChangingPassword s
  | ClickEditProfile | ClickChangePassword =>
      negb (isEditing s) && negb (isChangingPassword s)
  end.

Definition handle (ev : Event) (s : State) : State :=
  if negb (offered s ev) then s
  else
    match ev with
    | TypeProfile name value => handleInputChange name value s
    | TypePassword name value => handlePasswordChange name value s
    | ClickEditProfile => handleEditProfile s
    | ClickSaveProfile => handleSaveProfile s
    | ClickCancelEdit => handleCancelEdit s
    | ClickChangePassword => handleChangePassword s
    | ClickSavePassword => handleSavePassword s
    | ClickCancelPasswordChange => handleCancelPasswordChange s
    end.

Definition play (events : list Event) (s : State) : State :=
  fold_left (fun s ev => handle ev s) events s.

End Component.

(** What validation lets through. *)
Definition acceptableProfile (d : FormData) : Prop :=
  trim (fullName d) <> "" /\ trim (username d) <> "" /\
  (3 <= String.length (username d))%nat.

Definition acceptablePasswords (d : PasswordData) : Prop :=
  currentPassword d <> "" /\ (6 <= String.length (newPassword d))%nat /\
  confirmPassword d = newPassword d.

End UserProfile.

(** ** authService and the interceptors of the task client *)

Module AuthService.

(** The ['user'] item of the local storage, as the object its JSON text
    denotes; [None] when the item is absent. *)
Definition Storage : Type := option object.

(** What the code reads of a rejected request: [error.response?.status],
    [error.response?.data?.message] and [error.message]. *)
Record HttpError : Type := mkHttpError {
  status : value;
  serverMessage : value;
  message : value
}.

Inductive promise (A : Type) : Type :=
  | Fulfilled (a : A)
  | Rejected (e : HttpError).
Arguments Fulfilled {A} a.
Arguments Rejected {A} e.

(** [login] and [register]: the answer's data is stored when it carries a
    token, and returned either way; a rejection passes through. *)
Definition login (answer : promise (Response object)) (st : Storage)
  : promise object * Storage :=
  match answer with
  | Fulfilled response =>
      (Fulfilled (data response),
       if truthy (prop (data response) "token") then Some (data response) else st)
  | Rejected e => (Rejected e, st)
  end.

Definition register (answer : promise (Response object)) (st : Storage)
  : promise object * Storage :=
  login answer st.

Definition logout (st : Storage) : Storage := None.

Definition getCurrentUser (st : Storage) : option object := st.

(** [user && user.token] *)
Definition hasToken (st : Storage) : bool :=
  match getCurrentUser st with
  | Some user => truthy (prop user "token")
  | None => false
  end.

Definition bearer (st : Storage) : value :=
  match getCurrentUser st with
  | Some user => VStr (String.append "Bearer " (toString (prop user "token")))
  | None => VUndefined
  end.

Definition getAuthHeader (st : Storage) : object :=
  if hasToken st then {[ "Authorization" := bearer st ]} else ∅.


(** The headers the task client is created with. *)
Definition defaultHeaders : object :=
  {[ "Content-Type" := VStr "application/json" ]}.

(** The response interceptor of the task client on a rejected request: the
    storage it leaves, whether it reloaded the page, and the rejection it
    passes on. *)
Definition responseInterceptor (error : HttpError) (st : Storage)
  : Storage * bool * HttpError :=
  if strict_eq (status error) (VNum 401)
  then (logout st, true, error)
  else (st, false, error).

End AuthService.

(** ** Login *)

Module Login.

Record Credentials : Type := mkCredentials {
  username : string;
  password : string
}.

Inductive Field : Type := Username | Password.

#[global] Instance field_eq_dec : EqDecision Field.
Proof. solve_decision. Defined.

Definition fieldName (f : Field) : string :=
  match f with
  | Username => "username"
  | Password => "password"
  end.

Definition fieldValue (f : Field) (c : Credentials) : string :=
  match f with
  | Username => username c
  | Password => password c
  end.

Record State : Type := mkState {
  credentials : Credentials;
  isLoading : bool;
  error : value;
  formErrors : gmap string string;
  touched : gmap string bool
}.

Definition initial : State :=
  mkState (mkCredentials "" "") false (VStr "") ∅ ∅.

(** Demo accounts for testing *)
Definition demoAccounts : list Credentials :=
  [ mkCredentials "admin" "admin123";
    mkCredentials "supervisor" "supervisor123";
    mkCredentials "operator" "operator123";
    mkCredentials "viewer" "viewer123" ].

(** Whether [c] is one of the demo accounts, which have a button each. *)
Definition isDemoAccount (c : Credentials) : bool :=
  existsb (fun a => String.eqb (username a) (username c)
                    && String.eqb (password a) (password c))
          demoAccounts.

Definition isWordChar (c : ascii) : bool :=
  let n := nat_of_ascii c in
  (((48 <=? n) && (n <=? 57)) || ((65 <=? n) && (n <=? 90))
   || ((97 <=? n) && (n <=? 122)) || (n =? 95))%nat.

Fixpoint allWordChars (s : string) : bool :=
  match s with
  | EmptyString => true
  | String c r => isWordChar c && allWordChars r
  end.

(** [/^[a-zA-Z0-9_]+$/.test(value)] *)
Definition matchesWord (value : string) : bool :=
  negb (String.eqb value "") && allWordChars value.

(** Form validation rules *)
Definition validateField (name value : string) : gmap string string :=
  if String.eqb name "username" then
    if String.eqb (trim value) "" then
      {[ "username" := "Username is required" ]}
    else if (String.length value <? 3)%nat then
      {[ "username" := "Username must be at least 3 characters" ]}
    else if negb (matchesWord value) then
      {[ "username" :=
           "Username can only contain letters, numbers, and underscores" ]}
    else ∅
  else if String.eqb name "password" then
    if String.eqb value "" then
      {[ "password" := "Password is required" ]}
    else if (String.length value <? 6)%nat then
      {[ "password" := "Password must be at least 6 characters" ]}
    else ∅
  else ∅.

(** [formErrors[name]], an absent key reading as the empty text. *)
Definition shown (errors : gmap string string) (name : string) : string :=
  default "" (errors !! name).

Definition isTouched (touched : gmap string bool) (name : string) : bool :=
  default false (touched !! name).

Definition setField (f : Field) (value : string) (c : Credentials) : Credentials :=
  match f with
  | Username => mkCredentials value (password c)
  | Password => mkCredentials (username c) value
  end.

(** Handle input changes with validation *)
Definition handleChange (f : Field) (value : string) (s : State) : State :=
  let name := fieldName f in
  let cleared :=
    if negb (String.eqb (shown (formErrors s) name) "")
    then <[ name := "" ]> (formErrors s) else formErrors s in
  let validated :=
    if isTouched (touched s) name
    then validateField name value ∪ cleared else cleared in
  mkState (setField f value (credentials s)) (isLoading s) (error s)
    validated (touched s).

(** Handle field blur for validation *)
Definition handleBlur (f : Field) (value : string) (s : State) : State :=
  let name := fieldName f in
  mkState (credentials s) (isLoading s) (error s)
    (validateField name value ∪ formErrors s)
    (<[ name := true ]> (touched s)).

(** Fill demo account credentials (the submit it schedules is an event of
    its own). *)
Definition handleDemoAccount (account : Credentials) (s : State) : State :=
  mkState (mkCredentials (username account) (password account)) (isLoading s)
    (VStr "") ∅ (touched s).

(** [{ ...usernameErrors, ...passwordErrors }] *)
Definition allErrors (c : Credentials) : gmap string string :=
  validateField "password" (password c) ∪ validateField "username" (username c).

Definition errorMessage (e : AuthService.HttpError) : value :=
  js_or (js_or (AuthService.serverMessage e) (AuthService.message e))
        (VStr "Login failed. Please try again.").

(** What a submission leaves besides the form's own state: the credentials
    posted, if any; the storage; whether [onLoginSuccess] is to be called. *)
Record Submission : Type := mkSubmission {
  after : State;
  posted : option Credentials;
  stored : AuthService.Storage;
  succeeded : bool
}.

(** Handle form submission; [answer] is what the server says to the
    credentials, should they be posted. *)
Definition handleSubmit
    (answer : Credentials -> AuthService.promise (Response object))
    (st : AuthService.Storage) (s : State) : Submission :=
  let errors := allErrors (credentials s) in
  if negb (bool_decide (errors = ∅)) then
    mkSubmission
      (mkState (credentials s) (isLoading s) (VStr "") errors
         {[ "username" := true; "password" := true ]})
      None st false
  else
    match AuthService.login (answer (credentials s)) st with
    | (AuthService.Fulfilled _, st') =>
        mkSubmission
          (mkState (credentials s) false (VStr "") ∅ (touched s))
          (Some (credentials s)) st' true
    | (AuthService.Rejected e, st') =>
        mkSubmission
          (mkState (credentials s) false (errorMessage e) ∅ (touched s))
          (Some (credentials s)) st' false
    end.

(** Credentials the form lets through. *)
Definition acceptable (c : Credentials) : Prop :=
  (3 <= String.length (username c))%nat /\
  allWordChars (username c) = true /\
  (6 <= String.length (password c))%nat.

(** The message validation has for the current content of a field, empty
    when the content is valid. *)
Definition expected (f : Field) (c : Credentials) : string :=
  shown (validateField (fieldName f) (fieldValue f c)) (fieldName f).

(** The errors on display agree with the fields: a field shows a message
    only if it was visited, and a visited field shows the message of its
    current content. *)
Definition inSync (s : State) : Prop :=
  forall f,
    (shown (formErrors s) (fieldName f) <> "" ->
     isTouched (touched s) (fieldName f) = true) /\
    (isTouched (touched s) (fieldName f) = true ->
     shown (formErrors s) (fieldName f) = expected f (credentials s)).

End Login.

(** ** App *)

Module App.

Record State : Type := mkState {
  currentUser : option object;
  loading : bool
}.

(** The application with its storage, the login page while it is mounted,
    the credentials posted so far and the number of page reloads. *)
Record World : Type := mkWorld {
  storage : AuthService.Storage;
  app : State;
  login : Login.State;
  posts : list Login.Credentials;
  reloads : nat
}.

(** The mount effect: the stored user, if any, becomes the current user. *)
Definition mount (st : AuthService.Storage) : State :=
  mkState (AuthService.getCurrentUser st) false.

Definition handleLoginSuccess (st : AuthService.Storage) (s : State) : State :=
  mkState (AuthService.getCurrentUser st) (loading s).

Definition handleLogout (s : State) : State := mkState None (loading s).

(** The page as it is first rendered and mounted over a storage. *)
Definition start (st : AuthService.Storage) : World :=
  mkWorld st (mount st) Login.initial [] 0.

Inductive Event : Type :=
  | TypeField (f : Login.Field) (value : string)
  | BlurField (f : Login.Field)
  | ClickDemo (account : Login.Credentials)
  | SubmitLogin (answer : Login.Credentials -> AuthService.promise (Response object))
  | ClickLogout
  | TaskRequestFails (error : AuthService.HttpError).

(** The login page is rendered while there is no current user, the header
    and the dashboard, which sends the task requests, while there is one. *)
Definition offered (w : World) (ev : Event) : bool :=
  match ev with
  | TypeField _ _ | BlurField _ | SubmitLogin _ =>
      negb (bool_decide (is_Some (currentUser (app w))))
  | ClickDemo account =>
      negb (bool_decide (is_Some (currentUser (app w)))) &&
      Login.isDemoAccount account
  | ClickLogout | TaskRequestFails _ =>
      bool_decide (is_Some (currentUser (app w)))
  end.

Definition handle (ev : Event) (w : World) : World :=
  if negb (offered w ev) then w
  else
    match ev with
    | TypeField f value =>
        mkWorld (storage w) (app w) (Login.handleChange f value (login w))
          (posts w) (reloads w)
    | BlurField f =>
        mkWorld (storage w) (app w)
          (Login.handleBlur f (Login.fieldValue f (Login.credentials (login w)))
             (login w))
          (posts w) (reloads w)
    | ClickDemo account =>
        mkWorld (storage w) (app w) (Login.handleDemoAccount account (login w))
          (posts w) (reloads w)
    | SubmitLogin answer =>
        let sub := Login.handleSubmit answer (storage w) (login w) in
        mkWorld (Login.stored sub)
          (if Login.succeeded sub
           then handleLoginSuccess (Login.stored sub) (app w) else app w)
          (Login.after sub)
          (match Login.posted sub with
           | Some c => posts w ++ [c]
           | None => posts w
           end)
          (reloads w)
    | ClickLogout =>
        mkWorld (AuthService.logout (storage w)) (handleLogout (app w))
          Login.initial (posts w) (reloads w)
    | TaskRequestFails error =>
        match AuthService.responseInterceptor error (storage w) with
        | (st', true, _) => mkWorld st' (mount st') Login.initial (posts w)
                              (S (reloads w))
        | (st', false, _) => mkWorld st' (app w) (login w) (posts w) (reloads w)
        end
    end.

Definition play (events : list Event) (w : World) : World :=
  fold_left (fun w ev => handle ev w) events w.


End App.

(** * Properties *)

(** ** Strings *)

Lemma startsWith_spec (s p : string) :
  startsWith s p = true <-> exists post, s = (p ++ post)%string.
Proof.
  revert s. induction p as [|b p IH]; intros s; simpl.
  - split; [intros _; now exists s | reflexivity].
  - destruct s as [|a s]; simpl.
    + split; [discriminate | intros [post H]; discriminate].
    + rewrite andb_true_iff, Ascii.eqb_eq, IH. split.
      * intros [-> [post ->]]. now exists post.
      * intros [post H]. injection H as -> ->. split; [reflexivity | now exists post].
Qed.

Lemma includes_spec (s t : string) :
  includes s t = true <-> Design.substringOf t s.
Proof.
  unfold Design.substringOf. induction s as [|a s IH]; simpl.
  - rewrite orb_false_r, startsWith_spec. split.
    + intros [post H]. now exists EmptyString, post.
    + intros [pre [post H]]. destruct pre; simpl in H; [now exists post | discriminate].
  - rewrite orb_true_iff, startsWith_spec, IH. split.
    + intros [[post H] | [pre [post H]]].
      * now exists EmptyString, post.
      * exists (String a pre), post. simpl. now rewrite H.
    + intros [pre [post H]]. destruct pre as [|c pre]; simpl in H.
      * left. now exists post.
      * right. injection H as _ H. now exists pre, post.
Qed.

Lemma includes_empty (s : string) : includes s "" = true.
Proof. destruct s; reflexivity. Qed.

Lemma includes_in_empty (t : string) : includes "" t = true -> t = "".
Proof. destruct t; simpl; [reflexivity | discriminate]. Qed.

(** ** Summary *)

Lemma filter_hasStatus_count (name : string) (T : list object) :
  length (List.filter (TaskOverview.hasStatus name) T) = Design.countStatus name T.
Proof.
  induction T as [|task T IH]; simpl; [reflexivity|].
  unfold TaskOverview.hasStatus at 1, strict_eq.
  destruct (decide (prop task "status" = VStr name)) as [E|E].
  - rewrite bool_decide_eq_true_2 by exact E. simpl. now rewrite IH.
  - rewrite bool_decide_eq_false_2 by exact E. simpl. exact IH.
Qed.

(** The four buckets are disjoint: a task adds one to at most one of them,
    and to exactly one when its status is recognized. *)
Lemma bucket_of_task (task : object) :
  let b name := if decide (prop task "status" = VStr name) then 1 else 0 in
  b "COMPLETED" + b "IN_PROGRESS" + b "HOLD" + b "NOT_STARTED" <= 1 /\
  (b "COMPLETED" + b "IN_PROGRESS" + b "HOLD" + b "NOT_STARTED" = 1
   <-> Design.recognized task).
Proof.
  unfold Design.recognized, Design.recognizedStatuses. simpl.
  repeat destruct (decide _) as [?|?]; try congruence;
    (split; [lia|split]); intros H; try lia;
    try (match goal with E : prop _ _ = _ |- _ => rewrite E end; now auto 10);
    repeat (destruct H as [H|H]; [congruence|]); contradiction.
Qed.

Lemma buckets_bounded (T : list object) :
  let n := Design.countStatus "COMPLETED" T + Design.countStatus "IN_PROGRESS" T
           + Design.countStatus "HOLD" T + Design.countStatus "NOT_STARTED" T in
  n <= length T /\ (n = length T <-> Forall Design.recognized T).
Proof.
  induction T as [|task T [IHle IHeq]]; simpl.
  - split; [lia | split; [constructor | reflexivity]].
  - destruct (bucket_of_task task) as [Hle Heq]. simpl in Hle, Heq.
    split; [lia|]. rewrite Forall_cons_iff, <- IHeq, <- Heq. lia.
Qed.

(** C1. For every task collection T the summary's total is the length of T,
    each bucket is the number of tasks of T with the corresponding status,
    the buckets add up to at most the total, and to exactly the total if and
    only if every status is one of the four recognized values; this is the
    summary [calculateSummary] stores and returns. *)
Theorem summary_counts_statuses (T : list object) :
  let s := TaskOverview.summaryData T in
  OverviewHooks.total s = length T /\
  OverviewHooks.completed s = Design.countStatus "COMPLETED" T /\
  OverviewHooks.inProgress s = Design.countStatus "IN_PROGRESS" T /\
  OverviewHooks.onHold s = Design.countStatus "HOLD" T /\
  OverviewHooks.notStarted s = Design.countStatus "NOT_STARTED" T /\
  OverviewHooks.completed s + OverviewHooks.inProgress s
    + OverviewHooks.onHold s + OverviewHooks.notStarted s
    <= OverviewHooks.total s /\
  (OverviewHooks.completed s + OverviewHooks.inProgress s
     + OverviewHooks.onHold s + OverviewHooks.notStarted s
     = OverviewHooks.total s
   <-> Forall Design.recognized T) /\
  (forall w,
     exists w', TaskOverview.calculateSummary T w = (Normal s, w') /\
       OverviewHooks.summary (overview w') = s /\
       OverviewHooks.tasks (overview w') = OverviewHooks.tasks (overview w)).
Proof.
  simpl. rewrite !filter_hasStatus_count.
  destruct (buckets_bounded T) as [Hle Heq]. simpl in Hle, Heq.
  repeat split; try reflexivity; try exact Hle; try apply Heq.
  intros w. eexists. split; [reflexivity|]. split; reflexivity.
Qed.

(** ** The filtered view *)

Section Selects.
Context {A : Type} (P : A -> Prop).

Lemma Selects_In (l view : list A) :
  Design.Selects P l view -> forall x, In x view <-> In x l /\ P x.
Proof.
  induction 1 as [|x l view Hx _ IH|x l view Hx _ IH]; intros y; simpl.
  - tauto.
  - rewrite IH. split; [intros [->|[? ?]]; auto | intros [[->|?] ?]; auto].
  - rewrite IH. split; [intros [? ?]; auto | intros [[->|?] ?]; [contradiction|auto]].
Qed.

Lemma Selects_sublist (l view : list A) :
  Design.Selects P l view -> sublist view l.
Proof.
  induction 1; [constructor | now apply sublist_skip | now apply sublist_cons].
Qed.

Lemma Selects_all (l view : list A) :
  Design.Selects P l view -> (forall x, In x l -> P x) -> view = l.
Proof.
  induction 1 as [|x l view Hx _ IH|x l view Hx _ IH]; intros Hall; simpl in *.
  - reflexivity.
  - f_equal. auto.
  - exfalso. auto.
Qed.

Lemma Selects_ext (Q : A -> Prop) (l view : list A) :
  Design.Selects P l view -> (forall x, In x l -> (P x <-> Q x)) ->
  Design.Selects Q l view.
Proof.
  induction 1 as [|x l view Hx _ IH|x l view Hx _ IH]; intros Hext; simpl in *.
  - constructor.
  - apply Design.Selects_keep; [apply Hext; auto | auto].
  - apply Design.Selects_skip; [rewrite <- Hext; auto | auto].
Qed.

End Selects.

Lemma matchesFilter_spec (filter : string) (task : object) :
  TaskOverview.matchesFilter filter task = true <-> Design.statusMatch filter task.
Proof.
  unfold TaskOverview.matchesFilter, Design.statusMatch, strict_eq.
  rewrite orb_true_iff, String.eqb_eq, bool_decide_eq_true. reflexivity.
Qed.

(** On a task whose text fields are present the search predicate is decided
    by the four substring tests. *)
Lemma searchMatch_tests (term : string) (task : object) (n r m : string) :
  prop task "taskName" = VStr n ->
  prop task "responsible" = VStr r ->
  prop task "remarks" = VStr m ->
  Design.searchMatch term task <->
  includes (toLowerCase n) (toLowerCase term) = true \/
  includes (toLowerCase r) (toLowerCase term) = true \/
  includes (toLowerCase m) (toLowerCase term) = true \/
  exists l, prop task "lastModifiedBy" = VStr l /\
            includes (toLowerCase l) (toLowerCase term) = true.
Proof.
  intros Hn Hr Hm. unfold Design.searchMatch, Design.searchedFields. split.
  - intros (k & text & Hin & Hp & Hsub). apply includes_spec in Hsub. simpl in Hin.
    destruct Hin as [<-|[<-|[<-|[<-|[]]]]].
    + left. congruence.
    + right; left. congruence.
    + right; right; left. congruence.
    + right; right; right. now exists text.
  - intros [H|[H|[H|(l & Hl & H)]]]; apply includes_spec in H.
    + exists "taskName", n. simpl. auto.
    + exists "responsible", r. simpl. auto.
    + exists "remarks", m. simpl. auto.
    + exists "lastModifiedBy", l. simpl. auto 6.
Qed.

Lemma keepTask_wellFormed (filter term : string) (task : object) :
  Design.wellFormed task ->
  exists v, TaskOverview.keepTask filter term task = Normal v /\
            (truthy v = true <-> Design.inView filter term task).
Proof.
  intros [([n Hn] & [r Hr] & [m Hm]) Hl].
  pose proof (searchMatch_tests term task n r m Hn Hr Hm) as Hsm.
  pose proof (matchesFilter_spec filter task) as Hmf.
  unfold Design.inView.
  unfold TaskOverview.keepTask, TaskOverview.matchesSearch, TaskOverview.fieldIncludes.
  rewrite Hn, Hr, Hm. simpl.
  destruct (includes (toLowerCase n) (toLowerCase term)) eqn:En; simpl.
  { eexists; split; [reflexivity|]. rewrite Hsm, <- Hmf.
    destruct (TaskOverview.matchesFilter filter task); simpl; intuition congruence. }
  destruct (includes (toLowerCase r) (toLowerCase term)) eqn:Er; simpl.
  { eexists; split; [reflexivity|]. rewrite Hsm, <- Hmf.
    destruct (TaskOverview.matchesFilter filter task); simpl; intuition congruence. }
  destruct (includes (toLowerCase m) (toLowerCase term)) eqn:Em; simpl.
  { eexists; split; [reflexivity|]. rewrite Hsm, <- Hmf.
    destruct (TaskOverview.matchesFilter filter task); simpl; intuition congruence. }
  assert (Hterm : toLowerCase term <> "").
  { intros E. rewrite E, includes_empty in En. discriminate. }
  destruct Hl as [Hl|[Hl|[l Hl]]]; rewrite Hl in *; simpl.
  - eexists; split; [reflexivity|]. rewrite Hsm, <- Hmf.
    destruct (TaskOverview.matchesFilter filter task); simpl;
      (split; [discriminate|]); intros [_ [?|[?|[?|(l & ? & _)]]]]; congruence.
  - eexists; split; [reflexivity|]. rewrite Hsm, <- Hmf.
    destruct (TaskOverview.matchesFilter filter task); simpl;
      (split; [discriminate|]); intros [_ [?|[?|[?|(l & ? & _)]]]]; congruence.
  - destruct (String.eqb l "") eqn:El; simpl.
    + apply String.eqb_eq in El. subst l.
      eexists; split; [reflexivity|]. rewrite Hsm, <- Hmf.
      destruct (TaskOverview.matchesFilter filter task); simpl;
        (split; [discriminate|]);
        intros [_ [?|[?|[?|(l & Hl' & Hi)]]]]; try congruence;
        injection Hl' as <-; apply includes_in_empty in Hi; contradiction.
    + eexists; split; [reflexivity|]. rewrite Hsm, <- Hmf.
      destruct (TaskOverview.matchesFilter filter task); simpl.
      * split.
        -- intros H. split; [reflexivity|]. right; right; right. now exists l.
        -- intros [_ [?|[?|[?|(l' & Hl' & Hi)]]]]; congruence.
      * split; [discriminate | intros [? _]; discriminate].
Qed.

Lemma array_filter_wellFormed (filter term : string) (l : list object) :
  Forall Design.wellFormed l ->
  exists view,
    array_filter (TaskOverview.keepTask filter term) l = Normal view /\
    Design.Selects (Design.inView filter term) l view.
Proof.
  induction 1 as [|task l Hwf _ (view & Hrun & Hsel)]; simpl.
  - exists []. split; [reflexivity | constructor].
  - destruct (keepTask_wellFormed filter term task Hwf) as (v & -> & Hv). simpl.
    rewrite Hrun. simpl. destruct (truthy v) eqn:Ev.
    + exists (task :: view). split; [reflexivity|].
      apply Design.Selects_keep; [now apply Hv | exact Hsel].
    + exists view. split; [reflexivity|].
      apply Design.Selects_skip; [|exact Hsel].
      intros Hin. apply Hv in Hin. discriminate.
Qed.

Lemma searchMatch_empty_term (task : object) :
  Design.wellFormed task -> Design.searchMatch "" task.
Proof.
  intros [([n Hn] & _) _]. exists "taskName", n. simpl.
  repeat split; auto. apply includes_spec, includes_empty.
Qed.

(** C2. On a collection of well-formed tasks the filtered view is defined and
    holds exactly the tasks that satisfy both the status condition and the
    search predicate, as often and in the order they occur in the collection;
    the empty search term matches every task. *)
Theorem filteredTasks_selects_matching (s : OverviewHooks.State) :
  Forall Design.wellFormed (OverviewHooks.tasks s) ->
  exists view,
    TaskOverview.filteredTasks s = Normal view /\
    Design.Selects
      (Design.inView (OverviewHooks.filter s) (OverviewHooks.searchTerm s))
      (OverviewHooks.tasks s) view /\
    (forall task,
       In task view <->
       In task (OverviewHooks.tasks s) /\
       Design.statusMatch (OverviewHooks.filter s) task /\
       Design.searchMatch (OverviewHooks.searchTerm s) task) /\
    sublist view (OverviewHooks.tasks s) /\
    (OverviewHooks.searchTerm s = "" ->
       (forall task, In task (OverviewHooks.tasks s) -> Design.searchMatch "" task) /\
       Design.Selects (Design.statusMatch (OverviewHooks.filter s))
                      (OverviewHooks.tasks s) view) /\
    (OverviewHooks.searchTerm s = "" -> OverviewHooks.filter s = "all" ->
       view = OverviewHooks.tasks s).
Proof.
  intros Hwf. unfold TaskOverview.filteredTasks.
  destruct (array_filter_wellFormed (OverviewHooks.filter s)
              (OverviewHooks.searchTerm s) _ Hwf) as (view & Hrun & Hsel).
  assert (Hempty : forall task, In task (OverviewHooks.tasks s) ->
                                Design.searchMatch "" task).
  { intros task Hin. apply searchMatch_empty_term.
    rewrite Forall_forall in Hwf. apply Hwf. now apply list_elem_of_In. }
  exists view. split; [exact Hrun|]. split; [exact Hsel|].
  split; [exact (Selects_In _ _ _ Hsel)|].
  split; [exact (Selects_sublist _ _ _ Hsel)|]. split.
  - intros Hterm. split; [exact Hempty|].
    apply (Selects_ext _ _ _ _ Hsel). intros task Hin. unfold Design.inView.
    rewrite Hterm. specialize (Hempty task Hin). tauto.
  - intros Hterm Hall. apply (Selects_all _ _ _ Hsel). intros task Hin.
    split; [now left | rewrite Hterm; auto].
Qed.

Lemma filteredTasks_selects_matching_witness :
  exists view,
    TaskOverview.filteredTasks
      (Samples.viewOf [Samples.taskA; Samples.taskB] "COMPLETED" "") = Normal view /\
    sublist view [Samples.taskA; Samples.taskB].
Proof.
  assert (Hwf : Forall Design.wellFormed [Samples.taskA; Samples.taskB]).
  { constructor; [|constructor; [|constructor]].
    - split; [repeat split; vm_compute; eexists; reflexivity|].
      left. vm_compute. reflexivity.
    - split; [repeat split; vm_compute; eexists; reflexivity|].
      right; right. vm_compute. eexists; reflexivity. }
  destruct (filteredTasks_selects_matching
              (Samples.viewOf [Samples.taskA; Samples.taskB] "COMPLETED" "")
              Hwf) as (view & Hrun & _ & _ & Hsub & _).
  exists view. split; [exact Hrun | exact Hsub].
Defined.

(** ** Running the handlers *)

Ltac run_handler :=
  unfold TaskOverview.loadTasks, TaskOverview.handleTaskUpdate,
    TaskOverview.handleTaskDelete, TaskOverview.handleCreateTask,
    TaskOverview.calculateSummary, TaskOverview.showNotification,
    TaskOverview.setTasks, TaskOverview.setSummary, TaskOverview.setLoading,
    TaskOverview.setShowNewTaskModal, TaskOverview.setNotification,
    TaskOverview.outcome, TaskOverview.notice, TaskOverview.createdNotice,
    TaskOverview.replaceById, TaskOverview.removeById,
    try_finally, try_catch, await, throw, modify_overview, render_overview,
    mbind, M_bind, mret, M_ret.

Section Handlers.
Import OverviewHooks TaskOverview.

Variable currentUser : User.
Variable taskService : Transport.
Variable w : World.

Let before := overview w.

Lemma loadTasks_fulfilled (response : Response (list object)) :
  getAllTasks taskService = Normal response ->
  loadTasks taskService w =
  (Normal tt,
   outcome w (calls w ++ [GetAllTasks]) (data response)
     (summaryData (data response)) (showNewTaskModal before) false
     (notice "All tasks loaded successfully!" "success")).
Proof. intros H. run_handler. rewrite H. reflexivity. Qed.

Lemma loadTasks_rejected (error : exn) :
  getAllTasks taskService = Throw error ->
  loadTasks taskService w =
  (Normal tt,
   outcome w (calls w ++ [GetAllTasks]) (tasks before) (summary before)
     (showNewTaskModal before) false (notice "Error loading tasks!" "error")).
Proof. intros H. run_handler. rewrite H. reflexivity. Qed.

Lemma handleTaskUpdate_fulfilled (taskId : value) (updatedTask : object)
    (response : Response object) :
  updateTask taskService taskId updatedTask = Normal response ->
  handleTaskUpdate taskService taskId updatedTask w =
  (Normal tt,
   outcome w (calls w ++ [UpdateTask taskId updatedTask])
     (replaceById taskId (data response) (tasks before))
     (summaryData (replaceById taskId (data response) (tasks before)))
     (showNewTaskModal before) (loading before)
     (notice "Task updated successfully!" "success")).
Proof. intros H. run_handler. rewrite H. reflexivity. Qed.

Lemma handleTaskUpdate_rejected (taskId : value) (updatedTask : object)
    (error : exn) :
  updateTask taskService taskId updatedTask = Throw error ->
  handleTaskUpdate taskService taskId updatedTask w =
  (Throw error,
   outcome w (calls w ++ [UpdateTask taskId updatedTask]) (tasks before)
     (summary before) (showNewTaskModal before) (loading before)
     (notice "Error updating task!" "error")).
Proof. intros H. run_handler. rewrite H. reflexivity. Qed.

Lemma handleTaskDelete_denied (taskId taskName : value) :
  canDeleteTask currentUser = false ->
  handleTaskDelete currentUser taskService taskId taskName w =
  (Normal tt,
   outcome w (calls w) (tasks before) (summary before)
     (showNewTaskModal before) (loading before)
     (notice "You do not have permission to delete tasks" "error")).
Proof. intros H. run_handler. rewrite H. reflexivity. Qed.

Lemma handleTaskDelete_fulfilled (taskId taskName : value)
    (response : Response value) :
  canDeleteTask currentUser = true ->
  deleteTask taskService taskId = Normal response ->
  handleTaskDelete currentUser taskService taskId taskName w =
  (Normal tt,
   outcome w (calls w ++ [DeleteTask taskId])
     (removeById taskId (tasks before))
     (summaryData (removeById taskId (tasks before)))
     (showNewTaskModal before) (loading before)
     (notice "Task deleted successfully!" "success")).
Proof. intros Hc H. run_handler. rewrite Hc, H. reflexivity. Qed.

Lemma handleTaskDelete_rejected (taskId taskName : value) (error : exn) :
  canDeleteTask currentUser = true ->
  deleteTask taskService taskId = Throw error ->
  handleTaskDelete currentUser taskService taskId taskName w =
  (Normal tt,
   outcome w (calls w ++ [DeleteTask taskId]) (tasks before) (summary before)
     (showNewTaskModal before) (loading before)
     (notice "Error deleting task!" "error")).
Proof. intros Hc H. run_handler. rewrite Hc, H. reflexivity. Qed.

Lemma handleCreateTask_denied (newTaskData : object) :
  canCreateTask currentUser = false ->
  handleCreateTask currentUser taskService newTaskData w =
  (Normal tt,
   outcome w (calls w) (tasks before) (summary before)
     (showNewTaskModal before) (loading before)
     (notice "You do not have permission to create tasks" "error")).
Proof. intros H. run_handler. rewrite H. reflexivity. Qed.

Lemma handleCreateTask_fulfilled (newTaskData : object)
    (response : Response object) :
  canCreateTask currentUser = true ->
  createTask taskService newTaskData = Normal response ->
  handleCreateTask currentUser taskService newTaskData w =
  (Normal tt,
   outcome w (calls w ++ [CreateTask newTaskData])
     (tasks before ++ [data response])
     (summaryData (tasks before ++ [data response]))
     false (loading before) (createdNotice (data response))).
Proof. intros Hc H. run_handler. rewrite Hc, H. reflexivity. Qed.

Lemma handleCreateTask_rejected (newTaskData : object) (error : exn) :
  canCreateTask currentUser = true ->
  createTask taskService newTaskData = Throw error ->
  handleCreateTask currentUser taskService newTaskData w =
  (Throw error,
   outcome w (calls w ++ [CreateTask newTaskData]) (tasks before)
     (summary before) (showNewTaskModal before) (loading before)
     (notice "Error creating task!" "error")).
Proof. intros Hc H. run_handler. rewrite Hc, H. reflexivity. Qed.

End Handlers.

(** ** The permission flags *)

Lemma canCreateTask_spec (u : User) :
  TaskOverview.canCreateTask u = true <->
  role u = VStr "ADMIN" \/ role u = VStr "SUPERVISOR".
Proof.
  unfold TaskOverview.canCreateTask, strict_eq. simpl.
  rewrite !orb_true_iff, !bool_decide_eq_true. intuition congruence.
Qed.

Lemma canDeleteTask_spec (u : User) :
  TaskOverview.canDeleteTask u = true <-> role u = VStr "ADMIN".
Proof.
  unfold TaskOverview.canDeleteTask, strict_eq. now rewrite bool_decide_eq_true.
Qed.

Lemma viewer_cannot (u : User) :
  role u = VStr "VIEWER" ->
  TaskOverview.canCreateTask u = false /\ TaskOverview.canDeleteTask u = false.
Proof.
  intros H. split; apply not_true_is_false.
  - rewrite canCreateTask_spec, H. intros [E|E]; discriminate.
  - rewrite canDeleteTask_spec, H. discriminate.
Qed.

(** ** Failure of the Transport *)

Section Atomicity.
Import OverviewHooks TaskOverview Design.

Variable currentUser : User.
Variable taskService : Transport.
Variable w : World.

(** C3, as the code has it. Each of load, update, delete and create either
    succeeds as a whole, leaving the new collection together with the summary
    derived from it, or, when the Transport call fails, leaves collection and
    summary exactly as they were and puts up an error notification. Only
    update and create hand the Transport's error on to their caller, by
    re-throwing it; load and delete complete normally. *)
Theorem transport_failure_is_atomic :
  (exists w',
     loadTasks taskService w = (Normal tt, w') /\
     match getAllTasks taskService with
     | Normal response =>
         tasks (overview w') = data response /\ consistent w'
     | Throw _ => unchanged w w' /\ reportsError w'
     end) /\
  (forall taskId updatedTask,
     exists r w',
       handleTaskUpdate taskService taskId updatedTask w = (r, w') /\
       match updateTask taskService taskId updatedTask with
       | Normal response =>
           r = Normal tt /\
           tasks (overview w')
           = replaceById taskId (data response) (tasks (overview w)) /\
           consistent w'
       | Throw error => r = Throw error /\ unchanged w w' /\ reportsError w'
       end) /\
  (forall taskId taskName,
     exists w',
       handleTaskDelete currentUser taskService taskId taskName w = (Normal tt, w') /\
       if canDeleteTask currentUser then
         match deleteTask taskService taskId with
         | Normal _ =>
             tasks (overview w') = removeById taskId (tasks (overview w)) /\
             consistent w'
         | Throw _ => unchanged w w' /\ reportsError w'
         end
       else unchanged w w' /\ reportsError w') /\
  (forall newTaskData,
     exists r w',
       handleCreateTask currentUser taskService newTaskData w = (r, w') /\
       if canCreateTask currentUser then
         match createTask taskService newTaskData with
         | Normal response =>
             r = Normal tt /\
             tasks (overview w') = (tasks (overview w) ++ [data response])%list /\
             consistent w'
         | Throw error => r = Throw error /\ unchanged w w' /\ reportsError w'
         end
       else r = Normal tt /\ unchanged w w' /\ reportsError w').
Proof.
  unfold unchanged, consistent, reportsError. repeat split.
  - destruct (getAllTasks taskService) as [response|error] eqn:E.
    + rewrite (loadTasks_fulfilled _ _ _ E). eexists; split; [reflexivity|].
      simpl. auto.
    + rewrite (loadTasks_rejected _ _ _ E). eexists; split; [reflexivity|].
      simpl. auto.
  - intros taskId updatedTask.
    destruct (updateTask taskService taskId updatedTask) as [response|error] eqn:E.
    + rewrite (handleTaskUpdate_fulfilled _ _ _ _ _ E). do 2 eexists.
      split; [reflexivity|]. simpl. auto.
    + rewrite (handleTaskUpdate_rejected _ _ _ _ _ E). do 2 eexists.
      split; [reflexivity|]. simpl. auto.
  - intros taskId taskName. destruct (canDeleteTask currentUser) eqn:Hc.
    + destruct (deleteTask taskService taskId) as [response|error] eqn:E.
      * rewrite (handleTaskDelete_fulfilled _ _ _ _ taskName _ Hc E).
        eexists; split; [reflexivity|]. simpl. auto.
      * rewrite (handleTaskDelete_rejected _ _ _ _ taskName _ Hc E).
        eexists; split; [reflexivity|]. simpl. auto.
    + rewrite (handleTaskDelete_denied _ taskService _ taskId taskName Hc).
      eexists; split; [reflexivity|]. simpl. auto.
  - intros newTaskData. destruct (canCreateTask currentUser) eqn:Hc.
    + destruct (createTask taskService newTaskData) as [response|error] eqn:E.
      * rewrite (handleCreateTask_fulfilled _ _ _ _ _ Hc E). do 2 eexists.
        split; [reflexivity|]. simpl. auto.
      * rewrite (handleCreateTask_rejected _ _ _ _ _ Hc E). do 2 eexists.
        split; [reflexivity|]. simpl. auto.
    + rewrite (handleCreateTask_denied _ taskService _ newTaskData Hc). do 2 eexists.
      split; [reflexivity|]. simpl. auto.
Qed.

End Atomicity.

(** C3, as the design document states it, fails: a load and a delete whose
    request the server rejects complete normally, so their caller is not
    handed the error, and whichever error the Transport raised the outcome
    is the same; an update in the same situation throws the error. *)
Lemma failed_load_and_delete_return_normally :
  fst (TaskOverview.loadTasks Samples.offline
         (Samples.loaded [Samples.taskA; Samples.taskB]))
  = Normal tt /\
  fst (TaskOverview.handleTaskDelete Samples.admin Samples.offline
         (VNum 1) (VStr "A") (Samples.loaded [Samples.taskA; Samples.taskB]))
  = Normal tt /\
  TaskOverview.loadTasks (Samples.failing (Rejection (VStr "Timeout")))
    (Samples.loaded [Samples.taskA; Samples.taskB])
  = TaskOverview.loadTasks Samples.offline
      (Samples.loaded [Samples.taskA; Samples.taskB]) /\
  TaskOverview.handleTaskDelete Samples.admin
    (Samples.failing (Rejection (VStr "Timeout"))) (VNum 1) (VStr "A")
    (Samples.loaded [Samples.taskA; Samples.taskB])
  = TaskOverview.handleTaskDelete Samples.admin Samples.offline
      (VNum 1) (VStr "A") (Samples.loaded [Samples.taskA; Samples.taskB]) /\
  fst (TaskOverview.handleTaskUpdate Samples.offline (VNum 1) Samples.taskNew
         (Samples.loaded [Samples.taskA; Samples.taskB]))
  = Throw Samples.networkError.
Proof. repeat split. Qed.

(** ** The permission gate on create and delete *)

(** C5, as the code has it. Create reaches the Transport only for the roles
    ADMIN and SUPERVISOR and delete only for ADMIN; for any other role,
    VIEWER in particular, the handler sends no request, leaves the collection
    and the summary as they were, shows the refusal as an error notification
    and returns normally: nothing is thrown. *)
Theorem create_delete_gated (currentUser : User) (taskService : Transport)
    (w : World) :
  (TaskOverview.canCreateTask currentUser = true <->
   role currentUser = VStr "ADMIN" \/ role currentUser = VStr "SUPERVISOR") /\
  (TaskOverview.canDeleteTask currentUser = true <->
   role currentUser = VStr "ADMIN") /\
  (forall newTaskData,
     exists r w',
       TaskOverview.handleCreateTask currentUser taskService newTaskData w = (r, w') /\
       if TaskOverview.canCreateTask currentUser
       then calls w' = (calls w ++ [CreateTask newTaskData])%list
       else r = Normal tt /\ calls w' = calls w /\ Design.unchanged w w' /\
            OverviewHooks.notification (overview w')
            = TaskOverview.notice "You do not have permission to create tasks" "error") /\
  (forall taskId taskName,
     exists r w',
       TaskOverview.handleTaskDelete currentUser taskService taskId taskName w = (r, w') /\
       if TaskOverview.canDeleteTask currentUser
       then calls w' = (calls w ++ [DeleteTask taskId])%list
       else r = Normal tt /\ calls w' = calls w /\ Design.unchanged w w' /\
            OverviewHooks.notification (overview w')
            = TaskOverview.notice "You do not have permission to delete tasks" "error") /\
  (role currentUser = VStr "VIEWER" ->
   TaskOverview.canCreateTask currentUser = false /\
   TaskOverview.canDeleteTask currentUser = false /\
   forall newTaskData taskId taskName,
     TaskOverview.handleCreateTask currentUser taskService newTaskData w =
     (Normal tt,
      TaskOverview.outcome w (calls w) (OverviewHooks.tasks (overview w))
        (OverviewHooks.summary (overview w))
        (OverviewHooks.showNewTaskModal (overview w))
        (OverviewHooks.loading (overview w))
        (TaskOverview.notice "You do not have permission to create tasks" "error")) /\
     TaskOverview.handleTaskDelete currentUser taskService taskId taskName w =
     (Normal tt,
      TaskOverview.outcome w (calls w) (OverviewHooks.tasks (overview w))
        (OverviewHooks.summary (overview w))
        (OverviewHooks.showNewTaskModal (overview w))
        (OverviewHooks.loading (overview w))
        (TaskOverview.notice "You do not have permission to delete tasks" "error"))).
Proof.
  split; [apply canCreateTask_spec|]. split; [apply canDeleteTask_spec|].
  unfold Design.unchanged. repeat split.
  - intros newTaskData. destruct (TaskOverview.canCreateTask currentUser) eqn:Hc.
    + destruct (createTask taskService newTaskData) as [response|error] eqn:E.
      * rewrite (handleCreateTask_fulfilled _ _ _ _ _ Hc E). now do 2 eexists.
      * rewrite (handleCreateTask_rejected _ _ _ _ _ Hc E). now do 2 eexists.
    + rewrite (handleCreateTask_denied _ taskService _ newTaskData Hc).
      do 2 eexists. split; [reflexivity|]. simpl. auto.
  - intros taskId taskName. destruct (TaskOverview.canDeleteTask currentUser) eqn:Hc.
    + destruct (deleteTask taskService taskId) as [response|error] eqn:E.
      * rewrite (handleTaskDelete_fulfilled _ _ _ _ taskName _ Hc E). now do 2 eexists.
      * rewrite (handleTaskDelete_rejected _ _ _ _ taskName _ Hc E). now do 2 eexists.
    + rewrite (handleTaskDelete_denied _ taskService _ taskId taskName Hc).
      do 2 eexists. split; [reflexivity|]. simpl. auto.
  - now apply viewer_cannot.
  - now apply viewer_cannot.
  - apply handleCreateTask_denied. now apply viewer_cannot.
  - apply handleTaskDelete_denied. now apply viewer_cannot.
Qed.

Lemma create_delete_gated_witness :
  TaskOverview.handleCreateTask Samples.viewer
    (Samples.online [] Samples.taskNew) Samples.taskNew
    (Samples.loaded [Samples.taskA; Samples.taskB])
  = (Normal tt,
     TaskOverview.outcome (Samples.loaded [Samples.taskA; Samples.taskB])
       [GetAllTasks] [Samples.taskA; Samples.taskB]
       (TaskOverview.summaryData [Samples.taskA; Samples.taskB]) false false
       (TaskOverview.notice "You do not have permission to create tasks" "error")).
Proof.
  destruct (create_delete_gated Samples.viewer
              (Samples.online [] Samples.taskNew)
              (Samples.loaded [Samples.taskA; Samples.taskB]))
    as (_ & _ & _ & _ & Hviewer).
  destruct (Hviewer eq_refl) as (_ & _ & Hdenied).
  exact (proj1 (Hdenied Samples.taskNew (VNum 1) (VStr "A"))).
Defined.

(** C5, as the design document states it, fails: a VIEWER's create and
    delete do not fail with an error, they return normally, just as an
    ADMIN's create that the server accepts. *)
Lemma viewer_create_and_delete_return_normally :
  fst (TaskOverview.handleCreateTask Samples.viewer
         (Samples.online [] Samples.taskNew) Samples.taskNew
         (Samples.loaded [Samples.taskA; Samples.taskB]))
  = Normal tt /\
  fst (TaskOverview.handleTaskDelete Samples.viewer
         (Samples.online [] Samples.taskNew) (VNum 1) (VStr "A")
         (Samples.loaded [Samples.taskA; Samples.taskB]))
  = Normal tt /\
  fst (TaskOverview.handleCreateTask Samples.admin
         (Samples.online [] Samples.taskNew) Samples.taskNew
         (Samples.loaded [Samples.taskA; Samples.taskB]))
  = Normal tt.
Proof. repeat split. Qed.

(** ** Create *)

Lemma occurrences_snoc (task x : object) (l : list object) :
  Design.occurrences task (l ++ [x])
  = Design.occurrences task l + (if bool_decide (x = task) then 1 else 0).
Proof.
  unfold Design.occurrences. rewrite List.filter_app, length_app. simpl.
  now destruct (bool_decide (x = task)).
Qed.

Lemma occurrences_absent (task : object) (l : list object) :
  ~ In task l -> Design.occurrences task l = 0.
Proof.
  unfold Design.occurrences. induction l as [|x l IH]; simpl; intros Hnot.
  - reflexivity.
  - rewrite bool_decide_eq_false_2 by (intros ->; apply Hnot; now left).
    apply IH. intros Hin. apply Hnot. now right.
Qed.

Lemma withId_snoc (id : value) (x : object) (l : list object) :
  Design.withId id (l ++ [x])
  = Design.withId id l + (if bool_decide (prop x "id" = id) then 1 else 0).
Proof.
  unfold Design.withId. rewrite List.filter_app, length_app. simpl.
  now destruct (bool_decide (prop x "id" = id)).
Qed.

(** C6. When create succeeds the task the server returned is appended to the
    collection: it is the last element, the tasks present before keep their
    positions ahead of it, it occurs once more than before (exactly once when
    it, or its identifier, was not in the collection), and the total of the
    summary grows by exactly one. *)
Theorem create_appends_returned_task (currentUser : User)
    (taskService : Transport) (w : World) (newTaskData : object)
    (response : Response object) :
  TaskOverview.canCreateTask currentUser = true ->
  createTask taskService newTaskData = Normal response ->
  exists w',
    TaskOverview.handleCreateTask currentUser taskService newTaskData w
    = (Normal tt, w') /\
    let old := OverviewHooks.tasks (overview w) in
    let new := OverviewHooks.tasks (overview w') in
    let created := data response in
    new = (old ++ [created])%list /\
    last new = Some created /\
    take (length old) new = old /\
    length new = S (length old) /\
    Design.occurrences created new = S (Design.occurrences created old) /\
    (~ In created old -> Design.occurrences created new = 1) /\
    (Design.withId (prop created "id") old = 0 ->
     Design.withId (prop created "id") new = 1) /\
    OverviewHooks.summary (overview w') = TaskOverview.summaryData new /\
    OverviewHooks.total (TaskOverview.summaryData new)
    = S (OverviewHooks.total (TaskOverview.summaryData old)).
Proof.
  intros Hc E. rewrite (handleCreateTask_fulfilled _ _ _ _ _ Hc E).
  eexists. split; [reflexivity|]. simpl.
  split; [reflexivity|]. split; [apply last_snoc|].
  split; [apply take_app_length|].
  split; [rewrite length_app; simpl; lia|].
  split; [rewrite occurrences_snoc, bool_decide_eq_true_2 by reflexivity; lia|].
  split.
  { intros Hnot. rewrite occurrences_snoc, bool_decide_eq_true_2 by reflexivity.
    rewrite (occurrences_absent _ _ Hnot). reflexivity. }
  split.
  { intros Hnone. rewrite withId_snoc, bool_decide_eq_true_2 by reflexivity.
    rewrite Hnone. reflexivity. }
  split; [reflexivity|]. rewrite length_app. simpl. lia.
Qed.

Lemma create_appends_returned_task_witness :
  exists w',
    TaskOverview.handleCreateTask Samples.admin
      (Samples.online [] Samples.taskNew) Samples.taskNew
      (Samples.loaded [Samples.taskA; Samples.taskB])
    = (Normal tt, w') /\
    OverviewHooks.tasks (overview w')
    = [Samples.taskA; Samples.taskB; Samples.taskNew].
Proof.
  destruct (create_appends_returned_task Samples.admin
              (Samples.online [] Samples.taskNew)
              (Samples.loaded [Samples.taskA; Samples.taskB])
              Samples.taskNew (mkResponse Samples.taskNew)
              eq_refl eq_refl) as (w' & Hrun & Hnew & _).
  exists w'. split; [exact Hrun | exact Hnew].
Defined.

(** ** Update *)

Lemma replaceById_absent (taskId : value) (answer : object) (l : list object) :
  (forall task, In task l -> prop task "id" <> taskId) ->
  TaskOverview.replaceById taskId answer l = l.
Proof.
  unfold TaskOverview.replaceById, strict_eq.
  induction l as [|task l IH]; simpl; intros Hall; [reflexivity|].
  rewrite bool_decide_eq_false_2 by (apply Hall; now left).
  f_equal. apply IH. intros t Hin. apply Hall. now right.
Qed.

Lemma handleTaskUpdate_unknown_id (taskService : Transport) (w : World)
    (taskId : value) (updatedTask : object) (response : Response object) :
  (forall task, In task (OverviewHooks.tasks (overview w)) ->
                prop task "id" <> taskId) ->
  updateTask taskService taskId updatedTask = Normal response ->
  TaskOverview.handleTaskUpdate taskService taskId updatedTask w =
  (Normal tt,
   TaskOverview.outcome w (calls w ++ [UpdateTask taskId updatedTask])
     (OverviewHooks.tasks (overview w))
     (TaskOverview.summaryData (OverviewHooks.tasks (overview w)))
     (OverviewHooks.showNewTaskModal (overview w))
     (OverviewHooks.loading (overview w))
     (TaskOverview.notice "Task updated successfully!" "success")).
Proof.
  intros Habsent E. rewrite (handleTaskUpdate_fulfilled _ _ _ _ _ E).
  now rewrite (replaceById_absent _ _ _ Habsent).
Qed.

(** C8, as the code has it. When no task of the collection carries the given
    identifier and the Transport accepts the update, the handler completes
    without an error, the collection is unchanged element for element and
    the summary is the one derived from it; the handler returns no value, and
    nothing it leaves depends on the task the server returned. *)
Theorem update_unknown_id_discards_answer (taskService : Transport)
    (w : World) (taskId : value) (updatedTask : object)
    (response : Response object) :
  (forall task, In task (OverviewHooks.tasks (overview w)) ->
                prop task "id" <> taskId) ->
  updateTask taskService taskId updatedTask = Normal response ->
  exists w',
    TaskOverview.handleTaskUpdate taskService taskId updatedTask w = (Normal tt, w') /\
    OverviewHooks.tasks (overview w') = OverviewHooks.tasks (overview w) /\
    OverviewHooks.summary (overview w')
    = TaskOverview.summaryData (OverviewHooks.tasks (overview w)) /\
    OverviewHooks.notification (overview w')
    = TaskOverview.notice "Task updated successfully!" "success" /\
    calls w' = (calls w ++ [UpdateTask taskId updatedTask])%list /\
    forall taskService' response',
      updateTask taskService' taskId updatedTask = Normal response' ->
      TaskOverview.handleTaskUpdate taskService' taskId updatedTask w
      = (Normal tt, w').
Proof.
  intros Habsent E. eexists. split; [exact (handleTaskUpdate_unknown_id _ _ _ _ _ Habsent E)|].
  simpl. repeat split.
  intros taskService' response' E'.
  exact (handleTaskUpdate_unknown_id _ _ _ _ _ Habsent E').
Qed.

Lemma update_unknown_id_discards_answer_witness :
  exists w',
    TaskOverview.handleTaskUpdate (Samples.online [] Samples.taskNew)
      (VNum 99) Samples.taskNew (Samples.loaded [Samples.taskA; Samples.taskB])
    = (Normal tt, w') /\
    OverviewHooks.tasks (overview w') = [Samples.taskA; Samples.taskB].
Proof.
  assert (Habsent : forall task, In task [Samples.taskA; Samples.taskB] ->
                                 prop task "id" <> VNum 99).
  { intros task [<-|[<-|[]]]; vm_compute; discriminate. }
  destruct (update_unknown_id_discards_answer
              (Samples.online [] Samples.taskNew)
              (Samples.loaded [Samples.taskA; Samples.taskB])
              (VNum 99) Samples.taskNew (mkResponse Samples.taskNew)
              Habsent eq_refl) as (w' & Hrun & Htasks & _).
  exists w'. split; [exact Hrun | exact Htasks].
Defined.

(** C8, as the design document states it, fails: two different answers of
    the server to an update of an unknown identifier leave the caller with
    the same completion, carrying no value, and the same world. *)
Lemma update_unknown_id_answer_not_delivered :
  TaskOverview.handleTaskUpdate (Samples.online [] Samples.taskNew)
    (VNum 99) Samples.taskNew (Samples.loaded [Samples.taskA; Samples.taskB])
  = TaskOverview.handleTaskUpdate (Samples.online [] Samples.taskOther)
      (VNum 99) Samples.taskNew (Samples.loaded [Samples.taskA; Samples.taskB]) /\
  fst (TaskOverview.handleTaskUpdate (Samples.online [] Samples.taskNew)
         (VNum 99) Samples.taskNew (Samples.loaded [Samples.taskA; Samples.taskB]))
  = Normal tt /\
  Samples.taskNew <> Samples.taskOther.
Proof.
  assert (Habsent : forall task, In task [Samples.taskA; Samples.taskB] ->
                                 prop task "id" <> VNum 99).
  { intros task [<-|[<-|[]]]; vm_compute; discriminate. }
  rewrite (handleTaskUpdate_unknown_id (Samples.online [] Samples.taskNew)
             (Samples.loaded [Samples.taskA; Samples.taskB]) (VNum 99)
             Samples.taskNew (mkResponse Samples.taskNew) Habsent eq_refl).
  rewrite (handleTaskUpdate_unknown_id (Samples.online [] Samples.taskOther)
             (Samples.loaded [Samples.taskA; Samples.taskB]) (VNum 99)
             Samples.taskNew (mkResponse Samples.taskOther) Habsent eq_refl).
  repeat split.
  intros Heq. apply (f_equal (fun t => prop t "id")) in Heq.
  vm_compute in Heq. discriminate.
Qed.

(** C4: the update handler the component hands to the task table is the one
    handler for every role. For a VIEWER it sends the request and replaces
    the task in the collection like for anyone else. *)
Theorem viewer_update_reaches_transport :
  role (TaskOverview.tableUser
          (TaskOverview.taskTableProps Samples.viewer
             (Samples.online [] Samples.taskNew)))
  = VStr "VIEWER" /\
  exists w',
    TaskOverview.onTaskUpdate
      (TaskOverview.taskTableProps Samples.viewer
         (Samples.online [] Samples.taskNew))
      (VNum 1) Samples.taskNew (Samples.loaded [Samples.taskA; Samples.taskB])
    = (Normal tt, w') /\
    calls w' = [GetAllTasks; UpdateTask (VNum 1) Samples.taskNew] /\
    OverviewHooks.tasks (overview w') = [Samples.taskNew; Samples.taskB].
Proof.
  split; [reflexivity|]. simpl TaskOverview.onTaskUpdate.
  rewrite (handleTaskUpdate_fulfilled (Samples.online [] Samples.taskNew)
             (Samples.loaded [Samples.taskA; Samples.taskB]) (VNum 1)
             Samples.taskNew (mkResponse Samples.taskNew) eq_refl).
  eexists. split; [reflexivity|]. split; [reflexivity|].
  vm_compute. reflexivity.
Qed.

(** ** Before the first load *)

Section BeforeLoad.
Import OverviewHooks TaskOverview.

Variable currentUser : User.
Variable taskService : Transport.

Lemma handlers_depend_on_collection (w1 w2 : World) :
  tasks (overview w1) = tasks (overview w2) ->
  summary (overview w1) = summary (overview w2) ->
  (forall newTaskData,
     Design.observed (handleCreateTask currentUser taskService newTaskData w1)
     = Design.observed (handleCreateTask currentUser taskService newTaskData w2)) /\
  (forall taskId updatedTask,
     Design.observed (handleTaskUpdate taskService taskId updatedTask w1)
     = Design.observed (handleTaskUpdate taskService taskId updatedTask w2)) /\
  (forall taskId taskName,
     Design.observed (handleTaskDelete currentUser taskService taskId taskName w1)
     = Design.observed (handleTaskDelete currentUser taskService taskId taskName w2)).
Proof.
  intros Ht Hs. unfold Design.observed. repeat split.
  - intros newTaskData. destruct (canCreateTask currentUser) eqn:Hc.
    + destruct (createTask taskService newTaskData) as [response|error] eqn:E.
      * rewrite !(handleCreateTask_fulfilled _ _ _ _ _ Hc E). simpl. now rewrite Ht.
      * rewrite !(handleCreateTask_rejected _ _ _ _ _ Hc E). simpl. now rewrite Ht, Hs.
    + rewrite !(handleCreateTask_denied _ taskService _ newTaskData Hc). simpl.
      now rewrite Ht, Hs.
  - intros taskId updatedTask.
    destruct (updateTask taskService taskId updatedTask) as [response|error] eqn:E.
    + rewrite !(handleTaskUpdate_fulfilled _ _ _ _ _ E). simpl. now rewrite Ht.
    + rewrite !(handleTaskUpdate_rejected _ _ _ _ _ E). simpl. now rewrite Ht, Hs.
  - intros taskId taskName. destruct (canDeleteTask currentUser) eqn:Hc.
    + destruct (deleteTask taskService taskId) as [response|error] eqn:E.
      * rewrite !(handleTaskDelete_fulfilled _ _ _ _ taskName _ Hc E). simpl.
        now rewrite Ht.
      * rewrite !(handleTaskDelete_rejected _ _ _ _ taskName _ Hc E). simpl.
        now rewrite Ht, Hs.
    + rewrite !(handleTaskDelete_denied _ taskService _ taskId taskName Hc). simpl.
      now rewrite Ht, Hs.
Qed.

(** C9, as the code has it. The component keeps no record of whether a load
    has completed: it starts with the empty collection, and create, update
    and delete invoked before any load run as on any other collection, the
    permitted ones sending their request; what they return and leave depends
    only on the collection and summary they start from. *)
Theorem mutations_run_before_load :
  tasks (overview initialWorld) = [] /\
  calls initialWorld = [] /\
  (forall newTaskData,
     exists r w',
       handleCreateTask currentUser taskService newTaskData initialWorld = (r, w') /\
       if canCreateTask currentUser then
         calls w' = [CreateTask newTaskData] /\
         match createTask taskService newTaskData with
         | Normal response => r = Normal tt /\ tasks (overview w') = [data response]
         | Throw error => r = Throw error /\ tasks (overview w') = []
         end
       else r = Normal tt /\ calls w' = [] /\ tasks (overview w') = []) /\
  (forall taskId updatedTask,
     exists r w',
       handleTaskUpdate taskService taskId updatedTask initialWorld = (r, w') /\
       calls w' = [UpdateTask taskId updatedTask] /\
       tasks (overview w') = [] /\
       match updateTask taskService taskId updatedTask with
       | Normal _ => r = Normal tt
       | Throw error => r = Throw error
       end) /\
  (forall taskId taskName,
     exists w',
       handleTaskDelete currentUser taskService taskId taskName initialWorld
       = (Normal tt, w') /\
       tasks (overview w') = [] /\
       calls w' = if canDeleteTask currentUser then [DeleteTask taskId] else []) /\
  (forall w1 w2 newTaskData taskId updatedTask taskName,
     tasks (overview w1) = tasks (overview w2) ->
     summary (overview w1) = summary (overview w2) ->
     Design.observed (handleCreateTask currentUser taskService newTaskData w1)
     = Design.observed (handleCreateTask currentUser taskService newTaskData w2) /\
     Design.observed (handleTaskUpdate taskService taskId updatedTask w1)
     = Design.observed (handleTaskUpdate taskService taskId updatedTask w2) /\
     Design.observed (handleTaskDelete currentUser taskService taskId taskName w1)
     = Design.observed (handleTaskDelete currentUser taskService taskId taskName w2)).
Proof.
  split; [reflexivity|]. split; [reflexivity|]. split; [|split; [|split]].
  - intros newTaskData. destruct (canCreateTask currentUser) eqn:Hc.
    + destruct (createTask taskService newTaskData) as [response|error] eqn:E.
      * rewrite (handleCreateTask_fulfilled _ _ _ _ _ Hc E). do 2 eexists.
        split; [reflexivity|]. simpl. auto.
      * rewrite (handleCreateTask_rejected _ _ _ _ _ Hc E). do 2 eexists.
        split; [reflexivity|]. simpl. auto.
    + rewrite (handleCreateTask_denied _ taskService _ newTaskData Hc). do 2 eexists.
      split; [reflexivity|]. simpl. auto.
  - intros taskId updatedTask.
    destruct (updateTask taskService taskId updatedTask) as [response|error] eqn:E.
    + rewrite (handleTaskUpdate_fulfilled _ _ _ _ _ E). do 2 eexists.
      split; [reflexivity|]. simpl. auto.
    + rewrite (handleTaskUpdate_rejected _ _ _ _ _ E). do 2 eexists.
      split; [reflexivity|]. simpl. auto.
  - intros taskId taskName. destruct (canDeleteTask currentUser) eqn:Hc.
    + destruct (deleteTask taskService taskId) as [response|error] eqn:E.
      * rewrite (handleTaskDelete_fulfilled _ _ _ _ taskName _ Hc E).
        eexists. split; [reflexivity|]. simpl. auto.
      * rewrite (handleTaskDelete_rejected _ _ _ _ taskName _ Hc E).
        eexists. split; [reflexivity|]. simpl. auto.
    + rewrite (handleTaskDelete_denied _ taskService _ taskId taskName Hc).
      eexists. split; [reflexivity|]. simpl. auto.
  - intros w1 w2 newTaskData taskId updatedTask taskName Ht Hs.
    destruct (handlers_depend_on_collection w1 w2 Ht Hs) as (Hc & Hu & Hd).
    auto.
Qed.

End BeforeLoad.

Lemma mutations_run_before_load_witness :
  Design.observed
    (TaskOverview.handleCreateTask Samples.admin
       (Samples.online [] Samples.taskNew) Samples.taskNew initialWorld)
  = Design.observed
      (TaskOverview.handleCreateTask Samples.admin
         (Samples.online [] Samples.taskNew) Samples.taskNew (Samples.loaded [])).
Proof.
  destruct (mutations_run_before_load Samples.admin
              (Samples.online [] Samples.taskNew))
    as (_ & _ & _ & _ & _ & Hsame).
  exact (proj1 (Hsame initialWorld (Samples.loaded []) Samples.taskNew
                  (VNum 1) Samples.taskNew (VStr "New") eq_refl eq_refl)).
Defined.

(** C9, as the design document states it, fails: an ADMIN's create on the
    freshly mounted component, before any load, is sent to the Transport and
    its answer becomes the collection. *)
Lemma create_before_load_reaches_transport :
  exists w',
    TaskOverview.handleCreateTask Samples.admin
      (Samples.online [] Samples.taskNew) Samples.taskNew initialWorld
    = (Normal tt, w') /\
    calls w' = [CreateTask Samples.taskNew] /\
    OverviewHooks.tasks (overview w') = [Samples.taskNew].
Proof.
  rewrite (handleCreateTask_fulfilled Samples.admin
             (Samples.online [] Samples.taskNew) initialWorld Samples.taskNew
             (mkResponse Samples.taskNew) eq_refl eq_refl).
  eexists. split; [reflexivity|]. split; reflexivity.
Qed.

(** ** Numbers and white space *)

Lemma digits_prefix_uint (d : Decimal.uint) :
  digits_prefix (NilEmpty.string_of_uint d) = NilEmpty.string_of_uint d.
Proof. induction d; simpl; [reflexivity | now f_equal ..]. Qed.

Lemma string_of_uint_head (d : Decimal.uint) :
  d <> Decimal.Nil ->
  exists c r, NilEmpty.string_of_uint d = String c r /\ is_digit c = true.
Proof. destruct d; [congruence | simpl; intros _; eauto ..]. Qed.

Lemma parse_digits_uint (d : Decimal.uint) :
  d <> Decimal.Nil ->
  parse_digits (NilEmpty.string_of_uint d) = Some (Z.of_uint d).
Proof.
  intros Hd. unfold parse_digits. rewrite digits_prefix_uint.
  destruct (string_of_uint_head d Hd) as (c & r & E & _).
  rewrite E, <- E, NilEmpty.usu. reflexivity.
Qed.

Lemma Z_of_to_uint (p : positive) : Z.of_uint (Pos.to_uint p) = Z.pos p.
Proof. unfold Z.of_uint. now rewrite DecimalPos.Unsigned.of_to. Qed.

Lemma decimal_pos (p : positive) :
  decimal (Z.pos p) = NilEmpty.string_of_uint (Pos.to_uint p).
Proof. reflexivity. Qed.

(** The digits of a positive integer start with a digit and read back as
    that integer. *)
Lemma decimal_head (p : positive) :
  exists c r, decimal (Z.pos p) = String c r /\ is_digit c = true.
Proof.
  rewrite decimal_pos. apply string_of_uint_head.
  apply DecimalPos.Unsigned.to_uint_nonnil.
Qed.

Lemma parse_digits_decimal (p : positive) :
  parse_digits (decimal (Z.pos p)) = Some (Z.pos p).
Proof.
  rewrite decimal_pos, parse_digits_uint by apply DecimalPos.Unsigned.to_uint_nonnil.
  now rewrite Z_of_to_uint.
Qed.

Lemma is_digit_not_x (c : ascii) :
  is_digit c = true -> c <> "x"%char /\ c <> "X"%char.
Proof. intros H. split; intros ->; discriminate H. Qed.

(** A run of decimal digits is read in radix 10: a digit never spells the
    [x] of a hexadecimal prefix. *)
Lemma parse_unsigned_digits (s : string) :
  digits_prefix s = s -> parse_unsigned s = parse_digits s.
Proof.
  intros H. destruct s as [|a s']; [reflexivity|]. destruct s' as [|b r].
  - destruct a as [[|] [|] [|] [|] [|] [|] [|] [|]]; reflexivity.
  - cbn [digits_prefix] in H. destruct (is_digit a); [|discriminate H].
    destruct (is_digit b) eqn:Hb; [|discriminate H].
    destruct (is_digit_not_x b Hb) as [Hx HX]. unfold parse_unsigned.
    destruct a as [[|] [|] [|] [|] [|] [|] [|] [|]]; try reflexivity;
      destruct b as [[|] [|] [|] [|] [|] [|] [|] [|]]; try reflexivity;
      congruence.
Qed.

Lemma parse_unsigned_decimal (p : positive) :
  parse_unsigned (decimal (Z.pos p)) = Some (Z.pos p).
Proof.
  rewrite parse_unsigned_digits; [apply parse_digits_decimal|].
  rewrite decimal_pos. apply digits_prefix_uint.
Qed.

(** A digit is no white space and no sign. *)
Lemma parseInt_string_digit (c : ascii) (r : string) :
  is_digit c = true ->
  parseInt_string (String c r)
  = match parse_unsigned (String c r) with
    | None => NaN
    | Some z => numberFor z
    end.
Proof.
  destruct c as [[|] [|] [|] [|] [|] [|] [|] [|]];
    intros H; try discriminate H; reflexivity.
Qed.

Lemma parseInt_string_minus (r : string) :
  parseInt_string (String "-" r)
  = match parse_unsigned r with
    | None => NaN
    | Some z => numberFor (- z)
    end.
Proof. reflexivity. Qed.

(** *** Rounding to a double *)

Lemma roundPos_safe (z : Z) : (0 < z < 2 ^ 53)%Z -> roundPos z = z.
Proof.
  intros [Hpos Hlt]. unfold roundPos.
  apply (Z.log2_lt_pow2 z 53 Hpos) in Hlt.
  destruct (Z.leb_spec (Z.log2 z - 52) 0) as [_|H]; [reflexivity | lia].
Qed.

(** An integer of at most 53 bits is its own Number value. *)
Lemma roundToDouble_safe (z : Z) :
  (Z.abs z < 2 ^ 53)%Z -> roundToDouble z = z.
Proof.
  intros H. destruct z as [|p|p]; simpl.
  - reflexivity.
  - apply roundPos_safe. lia.
  - rewrite roundPos_safe; lia.
Qed.

Lemma roundPos_bounds (z : Z) :
  (2 ^ 53 <= z)%Z -> (2 ^ 53 <= roundPos z <= 2 * z)%Z.
Proof.
  intros Hz. assert (Hpos : (0 < z)%Z) by lia.
  pose proof (proj1 (Z.log2_le_pow2 z 53 Hpos) Hz) as Hlog.
  pose proof (Z.log2_spec z Hpos) as [Hlow _].
  unfold roundPos. set (shift := (Z.log2 z - 52)%Z) in *.
  destruct (Z.leb_spec shift 0) as [H|_]; [lia|].
  assert (Hshift : (1 <= shift)%Z) by lia.
  assert (Hsplit : (2 ^ Z.log2 z = 2 ^ 52 * 2 ^ shift)%Z).
  { rewrite <- Z.pow_add_r by lia. f_equal. lia. }
  assert (Hp : (2 <= 2 ^ shift)%Z).
  { change 2%Z with (2 ^ 1)%Z at 1. apply Z.pow_le_mono_r; lia. }
  pose proof (Z.div_mod z (2 ^ shift) ltac:(lia)) as Hdm.
  pose proof (Z.mod_pos_bound z (2 ^ shift) ltac:(lia)) as Hmod.
  assert (Hq : (2 ^ 52 <= z / 2 ^ shift)%Z).
  { apply Z.div_le_lower_bound; lia. }
  assert (H52 : (0 < 2 ^ 52)%Z) by reflexivity.
  destruct (_ || _); nia.
Qed.

Lemma roundPos_positive (z : Z) : (0 < z)%Z -> (0 < roundPos z <= 2 * z)%Z.
Proof.
  intros Hz. destruct (Z.lt_ge_cases z (2 ^ 53)) as [H|H].
  - rewrite roundPos_safe; lia.
  - pose proof (roundPos_bounds z H). lia.
Qed.

(** What is below 2^1023 has a finite Number value. *)
Lemma numberFor_finite (z : Z) :
  (Z.abs z < 2 ^ 1023)%Z -> numberFor z = Finite (roundToDouble z).
Proof.
  intros H. unfold numberFor.
  assert (Hr : (Z.abs (roundToDouble z) < 2 ^ 1024)%Z).
  { change (2 ^ 1024)%Z with (2 * 2 ^ 1023)%Z. destruct z as [|p|p]; simpl.
    - lia.
    - pose proof (roundPos_positive (Z.pos p) ltac:(lia)). lia.
    - pose proof (roundPos_positive (Z.pos p) ltac:(lia)). lia. }
  destruct (Z.ltb_spec (Z.abs (roundToDouble z)) (2 ^ 1024)); [reflexivity | lia].
Qed.


(** *** Number::toString *)

Lemma shortest_positive (p : nat) (x : Z) : (0 < x)%Z -> (0 < shortest p x)%Z.
Proof.
  intros Hx. induction p as [|p IH]; [exact Hx|].
  cbn [shortest]. set (scale := (10 ^ Z.of_nat (S p))%Z).
  assert (Hscale : (0 < scale)%Z) by (apply Z.pow_pos_nonneg; lia).
  pose proof (Z.div_mod x scale ltac:(lia)) as Hdm.
  pose proof (Z.mod_pos_bound x scale Hscale) as Hmod.
  assert (Hq : (0 <= x / scale)%Z) by (apply Z.div_pos; lia).
  destruct (Z.ltb_spec 0 (x / scale * scale)) as [Hlo|Hlo]; cbn [andb];
    repeat match goal with |- context [if ?b then _ else _] => destruct b end;
    try exact IH; nia.
Qed.



(** *** parseInt of a number *)




(** One digit followed by a point or an exponent reads as that digit. *)
Lemma parse_unsigned_one_digit (c : ascii) (sep : ascii) (r : string) :
  is_digit c = true -> sep = "."%char \/ sep = "e"%char ->
  exists d, parse_unsigned (String c (String sep r)) = Some d /\ (0 <= d < 10)%Z.
Proof.
  intros Hc Hsep.
  destruct c as [[|] [|] [|] [|] [|] [|] [|] [|]]; try discriminate Hc;
    destruct Hsep as [-> | ->]; eexists;
    (split; [reflexivity | vm_compute; split; [discriminate | reflexivity]]).
Qed.

(** The text of a positive number reads back as a finite integer: its digits
    are below 10^21, or one digit stands before the point or the exponent. *)
Lemma parseInt_positive_toString (p : positive) :
  exists d, parse_unsigned (positive_toString (Z.pos p)) = Some d /\
            (0 <= d < 2 ^ 1023)%Z /\
            exists c r, positive_toString (Z.pos p) = String c r /\ is_digit c = true.
Proof.
  unfold positive_toString.
  set (c := shortest _ _).
  assert (Hc : (0 < c)%Z) by (apply shortest_positive; lia).
  destruct c as [|q|q] eqn:Ec; try lia.
  destruct (decimal_head q) as (a & r & E & Ha).
  destruct (Z.ltb_spec (Z.pos q) (10 ^ 21)) as [Hlt|Hge].
  - exists (Z.pos q). split; [apply parse_unsigned_decimal|]. split.
    + assert ((10 ^ 21 < 2 ^ 1023)%Z) by reflexivity. lia.
    + now exists a, r.
  - set (e := decimal (_ - 1)). rewrite E.
    assert (Hsmall : (10 < 2 ^ 1023)%Z) by reflexivity.
    destruct (stripZeros r) as [|b r'].
    + destruct (parse_unsigned_one_digit a "e" (String "+" e) Ha (or_intror eq_refl))
        as (d & Hd & Hrange).
      exists d. split; [exact Hd|]. split; [lia|]. now eexists _, _.
    + destruct (parse_unsigned_one_digit a "."
                  (String.append (String b r') (String.append "e+" e)) Ha
                  (or_introl eq_refl)) as (d & Hd & Hrange).
      exists d. split; [exact Hd|]. split; [lia|]. now eexists _, _.
Qed.

(** [parseInt] of a number is never an infinity: the text of a number below
    10^21 spells digits of about its size, the text of a larger one starts
    with a single digit; and the text of an infinity spells no digit. *)
Lemma parseInt_of_number (v : value) :
  isNumber v -> parseInt v = NaN \/ exists m, parseInt v = Finite m.
Proof.
  destruct v as [| |b|n|s|ref|negative]; simpl; try contradiction; intros _.
  - right. unfold parseInt, toString. destruct n as [|p|p].
    + now exists 0%Z.
    + destruct (parseInt_positive_toString p) as (d & Hd & Hrange & c & r & E & Hc).
      unfold number_toString. rewrite E, (parseInt_string_digit _ _ Hc), <- E, Hd.
      eexists. apply numberFor_finite. lia.
    + destruct (parseInt_positive_toString p) as (d & Hd & Hrange & _).
      unfold number_toString. rewrite parseInt_string_minus, Hd.
      eexists. apply numberFor_finite. lia.
  - left. now destruct negative.
Qed.

(** [parseInt(v) || d] is a number, and for a number [v] and a non-zero [d]
    a non-zero integer. *)
Lemma parseInt_or_isNumber (v : value) (d : Z) : isNumber (parseInt_or v d).
Proof.
  unfold parseInt_or. destruct (parseInt v) as [|n|negative]; simpl; [exact I| |exact I].
  now destruct (n =? 0)%Z.
Qed.

Lemma parseInt_or_nonzero (v : value) (d : Z) :
  isNumber v -> d <> 0%Z ->
  exists h, parseInt_or v d = VNum h /\ h <> 0%Z.
Proof.
  intros Hv Hd. unfold parseInt_or.
  destruct (parseInt_of_number v Hv) as [-> | [m ->]]; [now exists d|].
  destruct (Z.eqb_spec m 0); [now exists d | now exists m].
Qed.

(** *** Doubles read back

    What rounding yields is a double, a double below 10^21 prints digits that
    round to it again, and a number of 10^21 or more prints one digit before
    its point or exponent. *)

Section Doubles.
Local Open Scope Z_scope.













Lemma isDouble_safe (n : Z) : Z.abs n < 2 ^ 53 -> isDouble n.
Proof. apply roundToDouble_safe. Qed.

End Doubles.



Lemma trimStart_head (s : string) :
  match trimStart s with
  | EmptyString => True
  | String c _ => is_space c = false
  end.
Proof.
  induction s as [|c r IH]; simpl; [exact I|].
  destruct (is_space c) eqn:E; [exact IH | exact E].
Qed.

Lemma trimStart_fixed (c : ascii) (r : string) :
  is_space c = false -> trimStart (String c r) = String c r.
Proof. intros E. simpl. now rewrite E. Qed.

Lemma trimEnd_head (c : ascii) (r : string) :
  is_space c = false -> trimEnd (String c r) = String c (trimEnd r).
Proof. intros E. simpl. destruct (trimEnd r); [now rewrite E | reflexivity]. Qed.

Lemma trimEnd_cons (c : ascii) (r : string) :
  trimEnd (String c r) =
  match trimEnd r with
  | EmptyString => if is_space c then EmptyString else String c EmptyString
  | r' => String c r'
  end.
Proof. reflexivity. Qed.

Lemma trimEnd_idempotent (s : string) : trimEnd (trimEnd s) = trimEnd s.
Proof.
  induction s as [|c r IH]; [reflexivity|].
  rewrite (trimEnd_cons c r).
  destruct (trimEnd r) as [|c' r'] eqn:E.
  - destruct (is_space c) eqn:Ec; [reflexivity|].
    rewrite trimEnd_cons. simpl. now rewrite Ec.
  - rewrite trimEnd_cons, IH. reflexivity.
Qed.

(** Trimming a trimmed string changes nothing. *)
Lemma trim_idempotent (s : string) : trim (trim s) = trim s.
Proof.
  unfold trim. pose proof (trimStart_head s) as H.
  destruct (trimStart s) as [|c r]; [reflexivity|].
  rewrite (trimEnd_head _ _ H), (trimStart_fixed _ _ H).
  rewrite <- (trimEnd_head _ _ H). apply trimEnd_idempotent.
Qed.

(** ** The draft of a new task *)

Lemma responsible_normalized (responsible : string) :
  exists r,
    js_or (VStr (trim responsible)) (VStr "Unassigned") = VStr r /\
    trim r = r /\ r <> "" /\
    (trim responsible = "" -> r = "Unassigned") /\
    (trim responsible <> "" -> r = trim responsible).
Proof.
  unfold js_or. simpl. destruct (String.eqb_spec (trim responsible) "") as [E|E].
  - exists "Unassigned". simpl. repeat split; try reflexivity; try discriminate.
    intros H. contradiction.
  - exists (trim responsible). simpl. repeat split; auto using trim_idempotent.
    intros H. contradiction.
Qed.

Lemma taskToCreate_fields (newTask : object) (name responsible remarks : string) :
  prop newTask "taskName" = VStr name ->
  prop newTask "responsible" = VStr responsible ->
  prop newTask "remarks" = VStr remarks ->
  exists draft,
    NewTaskModal.taskToCreate newTask = Normal draft /\
    prop draft "taskName" = VStr (trim name) /\
    prop draft "responsible" = js_or (VStr (trim responsible)) (VStr "Unassigned") /\
    prop draft "remarks" = VStr (trim remarks) /\
    prop draft "status" = VStr "NOT_STARTED" /\
    prop draft "estimatedHours"
    = parseInt_or (prop newTask "estimatedHours") 8 /\
    prop draft "completionPercentage" = VNum 0.
Proof.
  intros Hn Hr Hm. unfold NewTaskModal.taskToCreate. rewrite Hn, Hr, Hm. simpl.
  eexists. split; [reflexivity|]. unfold prop.
  repeat split; by simplify_map_eq.
Qed.

Ltac run_submit :=
  unfold submitNewTask, NewTaskModal.handleSubmit, NewTaskModal.setLoading,
    NewTaskModal.setNewTask, TaskOverview.newTaskModalProps,
    TaskOverview.onTaskCreate, TaskOverview.modalCanCreate,
    lift, alert, modify_modal, render_modal;
  run_handler.





(** Numbers the size of a double: a number of 10^21 or more is printed with
    an exponent, so [parseInt] reads its first digit only; an infinity
    prints no digit at all. *)
Example large_hours_are_cut :
  parseInt_or (VNum (10 ^ 21)) 8 = VNum 1 /\
  parseInt_or (VNum (2 ^ 70)) 8 = VNum 1 /\
  parseInt_or (VNum (- 2 ^ 80)) 8 = VNum (-1) /\
  parseInt_or (VNum (2 ^ 60)) 8 = VNum (2 ^ 60) /\
  parseInt_or (VInfinity false) 8 = VNum 8 /\
  toString (VNum (10 ^ 21)) = "1e+21" /\
  toString (VNum (2 ^ 70)) = "1.1805916207174113e+21" /\
  toString (VNum (2 ^ 64)) = "18446744073709552000".
Proof. repeat split; vm_compute; reflexivity. Qed.

(** [parseInt] of a text: the integer is rounded to a double, a [0x] prefix
    switches to radix 16, and 310 digits are an infinity. *)
Example parseInt_of_texts :
  parseInt_string "9007199254740993" = Finite 9007199254740992 /\
  parseInt_string "1000000000000000000000" = Finite (10 ^ 21) /\
  parseInt_string "  -12px" = Finite (-12) /\
  parseInt_string "0x1F" = Finite 31 /\
  parseInt_string "0x" = NaN /\
  parseInt_string "-0" = Finite 0 /\
  parseInt_string "" = NaN /\
  parseInt_string (decimal (10 ^ 309)) = Infinite false /\
  parseInt_string (decimal (- 2 ^ 1024)) = Infinite true /\
  parseInt_string (decimal (2 ^ 1024 - 2 ^ 970 - 1)) = Finite (2 ^ 1024 - 2 ^ 971).
Proof. repeat split; vm_compute; reflexivity. Qed.

(** ** Tasks with missing text fields *)

Lemma string_length_app (a b : string) :
  String.length (a ++ b) = String.length a + String.length b.
Proof. induction a as [|c a IH]; simpl; [reflexivity | now rewrite IH]. Qed.

Lemma toLowerCase_length (s : string) :
  String.length (toLowerCase s) = String.length s.
Proof. induction s as [|c s IH]; simpl; [reflexivity | now rewrite IH]. Qed.

Lemma includes_length (s t : string) :
  includes s t = true -> String.length t <= String.length s.
Proof.
  intros H. apply includes_spec in H. destruct H as (pre & post & ->).
  rewrite !string_length_app. lia.
Qed.

Lemma letters_length (n : nat) : String.length (Design.letters n) = n.
Proof. induction n as [|n IH]; simpl; [reflexivity | now rewrite IH]. Qed.

(** A text shorter than the search term does not contain it. *)
Lemma includes_longer (s term : string) :
  String.length s < String.length term ->
  includes (toLowerCase s) (toLowerCase term) = false.
Proof.
  intros Hlt. apply not_true_is_false. intros H. apply includes_length in H.
  rewrite !toLowerCase_length in H. lia.
Qed.

Lemma isText_dec (v : value) : {Design.isText v} + {~ Design.isText v}.
Proof.
  destruct v; try (right; intros [s E]; discriminate E). left. now eexists.
Defined.

Lemma call_toLowerCase_no_text (v : value) :
  ~ Design.isText v -> exists e, call_toLowerCase v = Throw e.
Proof.
  destruct v; simpl; intros H; try (now eexists).
  exfalso. apply H. now eexists.
Qed.

Lemma textFieldsPresent_dec (task : object) :
  {Design.textFieldsPresent task} + {~ Design.textFieldsPresent task}.
Proof.
  unfold Design.textFieldsPresent.
  destruct (isText_dec (prop task "taskName")); [|right; tauto].
  destruct (isText_dec (prop task "responsible")); [|right; tauto].
  destruct (isText_dec (prop task "remarks")); [left|right]; tauto.
Defined.

(** The long search term gets past every text field that is present and
    reaches the first one that is not. *)
Lemma keepTask_throws (filter : string) (task : object) :
  ~ Design.textFieldsPresent task ->
  exists e, TaskOverview.keepTask filter (Design.longTerm task) task = Throw e.
Proof.
  intros Hmiss.
  unfold TaskOverview.keepTask, TaskOverview.matchesSearch, TaskOverview.fieldIncludes.
  destruct (isText_dec (prop task "taskName")) as [[n Hn]|Hn];
    [|destruct (call_toLowerCase_no_text _ Hn) as [e ->]; now eexists].
  assert (Hlen : forall s, String.length s
                           <= Design.textLength (prop task "taskName")
                              + Design.textLength (prop task "responsible") ->
                 includes (toLowerCase s) (toLowerCase (Design.longTerm task)) = false).
  { intros s Hs. apply includes_longer. unfold Design.longTerm.
    rewrite letters_length. lia. }
  rewrite Hn. cbn [cbind call_toLowerCase]. rewrite Hlen by (rewrite Hn; simpl; lia).
  destruct (isText_dec (prop task "responsible")) as [[r Hr]|Hr];
    [|destruct (call_toLowerCase_no_text _ Hr) as [e ->]; now eexists].
  rewrite Hr. cbn [cbind call_toLowerCase]. rewrite Hlen by (rewrite Hr; simpl; lia).
  destruct (isText_dec (prop task "remarks")) as [Hm|Hm];
    [|destruct (call_toLowerCase_no_text _ Hm) as [e ->]; now eexists].
  exfalso. apply Hmiss. repeat split; [now exists n | now exists r | exact Hm].
Qed.

Lemma array_filter_throws {A} (f : A -> completion value) (l : list A) (x : A) :
  In x l -> (exists e, f x = Throw e) -> exists e, array_filter f l = Throw e.
Proof.
  intros Hin [e He]. induction l as [|y l IH]; [contradiction|]. simpl.
  destruct (f y) as [keep|e'] eqn:Ey; [|now exists e'].
  destruct Hin as [->|Hin]; [congruence|].
  destruct (IH Hin) as [e'' ->]. now exists e''.
Qed.

(** C10. The search predicate guards only last-modified-by: on tasks whose
    name, responsible person and remarks are text the view is defined for
    every filter and search term, with last-modified-by text or absent;
    conversely the view is defined for every filter and search term only if
    those three fields are text on every task, since for any task of the
    collection that lacks one of them some search term makes the view throw. *)
Theorem filteredTasks_total_only_with_text_fields (s : OverviewHooks.State) :
  (Forall Design.wellFormed (OverviewHooks.tasks s) ->
   forall filter term,
     exists view,
       TaskOverview.filteredTasks (Design.withQuery s filter term) = Normal view) /\
  ((forall filter term,
      exists view,
        TaskOverview.filteredTasks (Design.withQuery s filter term) = Normal view) ->
   Forall Design.textFieldsPresent (OverviewHooks.tasks s)) /\
  (forall task,
     In task (OverviewHooks.tasks s) ->
     ~ Design.textFieldsPresent task ->
     forall filter,
       exists e,
         TaskOverview.filteredTasks (Design.withQuery s filter (Design.longTerm task))
         = Throw e).
Proof.
  assert (Hreach : forall task,
             In task (OverviewHooks.tasks s) ->
             ~ Design.textFieldsPresent task ->
             forall filter,
               exists e,
                 TaskOverview.filteredTasks
                   (Design.withQuery s filter (Design.longTerm task)) = Throw e).
  { intros task Hin Hmiss filter. unfold TaskOverview.filteredTasks. simpl.
    apply (array_filter_throws _ _ task Hin). now apply keepTask_throws. }
  split; [|split; [|exact Hreach]].
  - intros Hwf filter term. unfold TaskOverview.filteredTasks. simpl.
    destruct (array_filter_wellFormed filter term _ Hwf) as (view & Hrun & _).
    now exists view.
  - intros Htotal. apply Forall_forall. intros task Hin.
    apply list_elem_of_In in Hin.
    destruct (textFieldsPresent_dec task) as [Hp|Hmiss]; [exact Hp|].
    destruct (Hreach task Hin Hmiss "all") as [e He].
    destruct (Htotal "all" (Design.longTerm task)) as [view Hview].
    congruence.
Qed.

Lemma filteredTasks_total_only_with_text_fields_witness :
  exists e,
    TaskOverview.filteredTasks
      (Design.withQuery
         (Samples.viewOf [Samples.taskA; Samples.taskNoResponsible] "all" "")
         "all" (Design.longTerm Samples.taskNoResponsible))
    = Throw e.
Proof.
  assert (Hmiss : ~ Design.textFieldsPresent Samples.taskNoResponsible).
  { intros (_ & [r Hr] & _). vm_compute in Hr. discriminate Hr. }
  destruct (filteredTasks_total_only_with_text_fields
              (Samples.viewOf [Samples.taskA; Samples.taskNoResponsible] "all" ""))
    as (_ & _ & Hreach).
  exact (Hreach Samples.taskNoResponsible (or_intror (or_introl eq_refl)) Hmiss "all").
Defined.

(** The tests are evaluated left to right and stop at the first hit: the
    empty search term is found in the name, so the missing responsible
    person of the second task is never read. *)
Example missing_field_unread_on_early_hit :
  TaskOverview.filteredTasks
    (Samples.viewOf [Samples.taskA; Samples.taskNoResponsible] "all" "")
  = Normal [Samples.taskA; Samples.taskNoResponsible] /\
  TaskOverview.filteredTasks
    (Samples.viewOf [Samples.taskA; Samples.taskNoResponsible] "all" "zz")
  = Throw (TypeError "Cannot read properties of undefined").
Proof. split; vm_compute; reflexivity. Qed.

(** A refused estimate that went through the form: typing -5 into the hours
    field and submitting sends a draft with -5 hours. *)
Example typed_negative_hours_are_sent :
  List.map (fun c => match c with
                     | CreateTask d => prop d "estimatedHours"
                     | _ => VUndefined
                     end)
    (calls (snd ((NewTaskModal.handleChange "taskName" "Fix pump" "text" false;;
                  NewTaskModal.handleChange "estimatedHours" "-5" "number" false;;
                  submitNewTask Samples.admin (Samples.online [] Samples.taskNew))
                   initialWorld)))
  = [VNum (-5)].
Proof. vm_compute. reflexivity. Qed.

(** * Further properties of the components *)

(** ** Submitting the form *)

(** What a submission does, by cases, for a form whose name field is text. *)
Lemma submitNewTask_run (currentUser : User) (taskService : Transport)
    (w : World) (name : string) :
  prop (ModalHooks.newTask (modal w)) "taskName" = VStr name ->
  submitNewTask currentUser taskService w =
  if negb (TaskOverview.canCreateTask currentUser) then
    (Normal tt,
     mkWorld (overview w) (modal w) (calls w)
       (alerts w ++ ["You do not have permission to create tasks!"]))
  else if String.eqb (trim name) "" then
    (Normal tt,
     mkWorld (overview w) (modal w) (calls w)
       (alerts w ++ ["Task name is required!"]))
  else
    match NewTaskModal.taskToCreate (ModalHooks.newTask (modal w)) with
    | Throw error =>
        (Normal tt,
         mkWorld (overview w)
           (ModalHooks.mkState (ModalHooks.newTask (modal w)) false) (calls w)
           (alerts w ++ [String.append "Failed to create task: "
                           (NewTaskModal.errorMessage error)]))
    | Normal draft =>
        match createTask taskService draft with
        | Normal response =>
            (Normal tt,
             mkWorld
               (overview
                  (TaskOverview.outcome w (calls w)
                     (OverviewHooks.tasks (overview w) ++ [data response])
                     (TaskOverview.summaryData
                        (OverviewHooks.tasks (overview w) ++ [data response]))
                     false (OverviewHooks.loading (overview w))
                     (TaskOverview.createdNotice (data response))))
               (ModalHooks.mkState ModalHooks.blankTask false)
               (calls w ++ [CreateTask draft]) (alerts w))
        | Throw error =>
            (Normal tt,
             mkWorld
               (overview
                  (TaskOverview.outcome w (calls w)
                     (OverviewHooks.tasks (overview w))
                     (OverviewHooks.summary (overview w))
                     (OverviewHooks.showNewTaskModal (overview w))
                     (OverviewHooks.loading (overview w))
                     (TaskOverview.notice "Error creating task!" "error")))
               (ModalHooks.mkState (ModalHooks.newTask (modal w)) false)
               (calls w ++ [CreateTask draft])
               (alerts w ++ [String.append "Failed to create task: "
                               (NewTaskModal.errorMessage error)]))
        end
    end.
Proof.
  intros Hn. run_submit. cbv beta iota zeta.
  destruct (TaskOverview.canCreateTask currentUser) eqn:Hc; [|now destruct w].
  rewrite Hn. simpl.
  destruct (String.eqb (trim name) ""); simpl; [now destruct w|].
  destruct (NewTaskModal.taskToCreate (ModalHooks.newTask (modal w)))
    as [draft|error]; simpl; [|reflexivity].
  destruct (createTask taskService draft) as [response|error]; reflexivity.
Qed.

(** ** What every reachable world satisfies *)

Lemma In_snoc {A} (x y : A) (l : list A) :
  In x (l ++ [y]) <-> In x l \/ x = y.
Proof.
  rewrite in_app_iff. simpl. intuition congruence.
Qed.

Lemma taskToCreate_normalized (newTask : object) :
  Dashboard.formWellTyped newTask ->
  exists draft,
    NewTaskModal.taskToCreate newTask = Normal draft /\
    (forall name, prop newTask "taskName" = VStr name -> trim name <> "" ->
                  Dashboard.normalizedDraft draft).
Proof.
  intros (([n Hn] & [r Hr] & [m Hm]) & Hnum).
  destruct (taskToCreate_fields _ _ _ _ Hn Hr Hm)
    as (draft & Hdraft & Hname & Hresp & Hrem & Hstatus & Hhours & Hdone).
  exists draft. split; [exact Hdraft|]. intros name Hname' Hne.
  assert (name = n) as -> by congruence.
  destruct (responsible_normalized r) as (r' & Hor & Htrim & Hr' & _).
  repeat split.
  - exists (trim n). auto using trim_idempotent.
  - exists r'. rewrite Hresp, Hor. auto.
  - exists (trim m). auto using trim_idempotent.
  - rewrite Hhours. apply parseInt_or_nonzero; [exact Hnum | discriminate].
  - exact Hstatus.
  - exact Hdone.
Qed.

Lemma handleChange_wellTyped (input : Dashboard.FormInput) (value : string)
    (checked : bool) (newTask : object) :
  Dashboard.formWellTyped newTask ->
  Dashboard.formWellTyped
    (<[ Dashboard.inputName input :=
          if String.eqb (Dashboard.inputType input) "checkbox" then VBool checked
          else if String.eqb (Dashboard.inputType input) "number"
               then parseInt_or (VStr value) 0
               else VStr value ]> newTask).
Proof.
  unfold Dashboard.formWellTyped, Design.textFieldsPresent, Design.isText, prop.
  intros (([n Hn] & [r Hr] & [m Hm]) & Hh).
  destruct input; cbn [Dashboard.inputName Dashboard.inputType String.eqb Ascii.eqb
                       Bool.eqb];
    (split; [split; [|split]|]);
    first [ rewrite lookup_insert_eq | rewrite lookup_insert_ne by discriminate ];
    cbn [default]; eauto using parseInt_or_isNumber.
Qed.

Lemma setDefaultDates_wellTyped (today nextWeek : string) (newTask : object) :
  Dashboard.formWellTyped newTask ->
  Dashboard.formWellTyped
    (<[ "endDate" := VStr nextWeek ]> (<[ "startDate" := VStr today ]> newTask)).
Proof.
  unfold Dashboard.formWellTyped, Design.textFieldsPresent, Design.isText, prop.
  intros (([n Hn] & [r Hr] & [m Hm]) & Hh).
  (split; [split; [|split]|]); rewrite !lookup_insert_ne by discriminate; eauto.
Qed.

Lemma blankTask_wellTyped : Dashboard.formWellTyped ModalHooks.blankTask.
Proof.
  split; [split; [|split]; vm_compute; now eexists | exact I].
Qed.

Ltac invariant_calls :=
  match goal with
  | |- forall x, In _ (_ ++ [_]) -> _ =>
      let H := fresh in
      intros ? H; apply In_snoc in H; destruct H as [H|H];
      [eauto | first [discriminate H | injection H as <-; eauto]]
  | |- _ => eauto
  end.

Ltac invariant_parts :=
  split; [|split; [|split; [|split; [|split]]]]; simpl;
  [ auto | auto | auto | auto | invariant_calls | invariant_calls ].

Lemma handle_keeps_invariant (currentUser : User) (taskService : Transport)
    (ev : Dashboard.Event) (w : World) :
  Dashboard.invariant currentUser w ->
  Dashboard.invariant currentUser
    (snd (Dashboard.handle currentUser taskService ev w)).
Proof.
  unfold Dashboard.invariant, Design.consistent.
  intros (Hsum & Hform & Hload & Hmodal & Hcreate & Hdelete).
  destruct ev as [ | taskId updatedTask | taskId taskName | status | term
                 | | | | input val checked | today nextWeek | ];
    simpl Dashboard.handle.
  - (* Refresh *)
    destruct (getAllTasks taskService) as [response|error] eqn:E.
    + rewrite (loadTasks_fulfilled _ _ _ E). invariant_parts.
    + rewrite (loadTasks_rejected _ _ _ E). invariant_parts.
  - (* TableUpdate *)
    destruct (updateTask taskService taskId updatedTask) as [response|error] eqn:E.
    + rewrite (handleTaskUpdate_fulfilled _ _ _ _ _ E). invariant_parts.
    + rewrite (handleTaskUpdate_rejected _ _ _ _ _ E). invariant_parts.
  - (* TableDelete *)
    destruct (TaskOverview.canDeleteTask currentUser) eqn:Hc.
    + destruct (deleteTask taskService taskId) as [response|error] eqn:E.
      * rewrite (handleTaskDelete_fulfilled _ _ _ _ taskName _ Hc E). invariant_parts.
      * rewrite (handleTaskDelete_rejected _ _ _ _ taskName _ Hc E). invariant_parts.
    + rewrite (handleTaskDelete_denied _ taskService _ taskId taskName Hc).
      invariant_parts.
  - (* PickFilter *) invariant_parts.
  - (* TypeSearch *) invariant_parts.
  - (* ClearAll *) invariant_parts.
  - (* OpenModal *) invariant_parts.
  - (* CloseModal *) invariant_parts.
  - (* FormChange *)
    pose proof (handleChange_wellTyped input val checked _ Hform). invariant_parts.
  - (* DefaultDates *)
    pose proof (setDefaultDates_wellTyped today nextWeek _ Hform).
    invariant_parts.
  - (* FormSubmit *)
    pose proof Hform as [Htext _]. pose proof Htext as ([name Hn] & _).
    pose proof blankTask_wellTyped as Hblank.
    rewrite (submitNewTask_run _ _ _ _ Hn).
    destruct (TaskOverview.canCreateTask currentUser) eqn:Hc; simpl negb; cbv iota;
      [|invariant_parts].
    destruct (String.eqb_spec (trim name) "") as [Eb|Eb]; [invariant_parts|].
    destruct (taskToCreate_normalized _ Hform) as (draft & -> & Hdraft).
    specialize (Hdraft name Hn Eb).
    destruct (createTask taskService draft) as [response|error]; invariant_parts.
Qed.

Lemma reachable_invariant (currentUser : User) (w : World) :
  Dashboard.reachable currentUser w -> Dashboard.invariant currentUser w.
Proof.
  induction 1 as [|w taskService ev _ IH].
  - unfold Dashboard.invariant.
    split; [reflexivity|]. split; [exact blankTask_wellTyped|].
    split; [reflexivity|]. split; [reflexivity|].
    split; intros ? [].
  - now apply handle_keeps_invariant.
Qed.

(** X1. In every world the mounted component can reach, whatever the server
    answered along the way, the summary on display is the one derived from
    the collection on display; its total is the number of tasks. *)
Theorem reachable_summary_is_current (currentUser : User) (w : World) :
  Dashboard.reachable currentUser w ->
  OverviewHooks.summary (overview w)
  = TaskOverview.summaryData (OverviewHooks.tasks (overview w)) /\
  OverviewHooks.total (OverviewHooks.summary (overview w))
  = length (OverviewHooks.tasks (overview w)).
Proof.
  intros Hreach. destruct (reachable_invariant _ _ Hreach) as (Hsum & _).
  unfold Design.consistent in Hsum. split; [exact Hsum | now rewrite Hsum].
Qed.

Lemma reachable_summary_is_current_witness :
  OverviewHooks.total
    (OverviewHooks.summary
       (overview
          (snd (Dashboard.handle Samples.operator Samples.offline
                  (Dashboard.TableUpdate (VNum 1) Samples.taskNew)
                  (snd (Dashboard.handle Samples.operator
                          (Samples.online [Samples.taskA; Samples.taskB]
                             Samples.taskNew)
                          Dashboard.Refresh initialWorld))))))
  = 2.
Proof.
  exact (proj2 (reachable_summary_is_current Samples.operator _
                  (Dashboard.reachable_step _ _ Samples.offline
                     (Dashboard.TableUpdate (VNum 1) Samples.taskNew)
                     (Dashboard.reachable_step _ _
                        (Samples.online [Samples.taskA; Samples.taskB]
                           Samples.taskNew)
                        Dashboard.Refresh
                        (Dashboard.reachable_mount _))))).
Defined.

(** X2. Over any sequence of events, a create request is on the Transport's
    log only if the signed-in user is ADMIN or SUPERVISOR, and a delete
    request only if the user is ADMIN. *)
Theorem reachable_requests_are_permitted (currentUser : User) (w : World) :
  Dashboard.reachable currentUser w ->
  (forall draft, In (CreateTask draft) (calls w) ->
     role currentUser = VStr "ADMIN" \/ role currentUser = VStr "SUPERVISOR") /\
  (forall taskId, In (DeleteTask taskId) (calls w) ->
     role currentUser = VStr "ADMIN").
Proof.
  intros Hreach.
  destruct (reachable_invariant _ _ Hreach) as (_ & _ & _ & _ & Hcreate & Hdelete).
  split.
  - intros draft Hin. apply canCreateTask_spec. now apply (Hcreate draft).
  - intros taskId Hin. apply canDeleteTask_spec. now apply (Hdelete taskId).
Qed.

Lemma reachable_requests_are_permitted_witness :
  In (DeleteTask (VNum 1))
     (calls (snd (Dashboard.handle Samples.admin
                    (Samples.online [Samples.taskA] Samples.taskNew)
                    (Dashboard.TableDelete (VNum 1) (VStr "A"))
                    initialWorld))) /\
  role Samples.admin = VStr "ADMIN".
Proof.
  assert (Hin : In (DeleteTask (VNum 1))
                  (calls (snd (Dashboard.handle Samples.admin
                                 (Samples.online [Samples.taskA] Samples.taskNew)
                                 (Dashboard.TableDelete (VNum 1) (VStr "A"))
                                 initialWorld)))).
  { vm_compute. left. reflexivity. }
  split; [exact Hin|].
  exact (proj2 (reachable_requests_are_permitted Samples.admin _
                  (Dashboard.reachable_step _ _
                     (Samples.online [Samples.taskA] Samples.taskNew)
                     (Dashboard.TableDelete (VNum 1) (VStr "A"))
                     (Dashboard.reachable_mount _)))
               (VNum 1) Hin).
Defined.

(** X3. Every create request the component ever sends carries a normalized
    draft: a trimmed, non-empty task name, a trimmed, non-empty responsible
    person, trimmed remarks, a non-zero integer of estimated hours, the
    status NOT_STARTED and a completion of 0. *)
Theorem reachable_drafts_are_normalized (currentUser : User) (w : World) :
  Dashboard.reachable currentUser w ->
  forall draft, In (CreateTask draft) (calls w) -> Dashboard.normalizedDraft draft.
Proof.
  intros Hreach draft Hin.
  destruct (reachable_invariant _ _ Hreach) as (_ & _ & _ & _ & Hcreate & _).
  now apply (Hcreate draft).
Qed.

Lemma play_reachable (currentUser : User) (taskService : Transport)
    (events : list Dashboard.Event) (w : World) :
  Dashboard.reachable currentUser w ->
  Dashboard.reachable currentUser
    (Dashboard.play currentUser taskService events w).
Proof.
  revert w. induction events as [|ev rest IH]; intros w Hw; simpl; [exact Hw|].
  apply IH. now apply Dashboard.reachable_step.
Qed.

Lemma reachable_drafts_are_normalized_witness :
  Dashboard.normalizedDraft
    (Dashboard.lastDraft
       (Dashboard.play Samples.supervisor
          (Samples.online [Samples.taskA] Samples.taskNew)
          [Dashboard.FormChange Dashboard.TaskNameInput "  Fix pump " false;
           Dashboard.FormChange Dashboard.EstimatedHoursInput "" false;
           Dashboard.FormSubmit]
          initialWorld)).
Proof.
  apply (reachable_drafts_are_normalized Samples.supervisor
           (Dashboard.play Samples.supervisor
              (Samples.online [Samples.taskA] Samples.taskNew)
              [Dashboard.FormChange Dashboard.TaskNameInput "  Fix pump " false;
               Dashboard.FormChange Dashboard.EstimatedHoursInput "" false;
               Dashboard.FormSubmit]
              initialWorld)).
  - apply play_reachable. apply Dashboard.reachable_mount.
  - vm_compute. left. reflexivity.
Defined.

(** ** How handlers complete *)

Lemma handle_completion (currentUser : User) (taskService : Transport)
    (ev : Dashboard.Event) (w : World) :
  Dashboard.formWellTyped (ModalHooks.newTask (modal w)) ->
  fst (Dashboard.handle currentUser taskService ev w) = Normal tt \/
  exists taskId updatedTask error,
    ev = Dashboard.TableUpdate taskId updatedTask /\
    updateTask taskService taskId updatedTask = Throw error /\
    fst (Dashboard.handle currentUser taskService ev w) = Throw error.
Proof.
  intros [Htext _].
  destruct ev as [ | taskId updatedTask | taskId taskName | status | term
                 | | | | input val checked | today nextWeek | ];
    simpl Dashboard.handle; try (left; reflexivity).
  - destruct (getAllTasks taskService) as [response|error] eqn:E.
    + rewrite (loadTasks_fulfilled _ _ _ E). now left.
    + rewrite (loadTasks_rejected _ _ _ E). now left.
  - destruct (updateTask taskService taskId updatedTask) as [response|error] eqn:E.
    + rewrite (handleTaskUpdate_fulfilled _ _ _ _ _ E). now left.
    + rewrite (handleTaskUpdate_rejected _ _ _ _ _ E). right.
      now exists taskId, updatedTask, error.
  - destruct (TaskOverview.canDeleteTask currentUser) eqn:Hc.
    + destruct (deleteTask taskService taskId) as [response|error] eqn:E.
      * rewrite (handleTaskDelete_fulfilled _ _ _ _ taskName _ Hc E). now left.
      * rewrite (handleTaskDelete_rejected _ _ _ _ taskName _ Hc E). now left.
    + rewrite (handleTaskDelete_denied _ taskService _ taskId taskName Hc). now left.
  - left. pose proof Htext as ([name Hn] & _).
    rewrite (submitNewTask_run _ _ _ _ Hn).
    destruct (negb (TaskOverview.canCreateTask currentUser)); [reflexivity|].
    destruct (String.eqb (trim name) ""); [reflexivity|].
    destruct (NewTaskModal.taskToCreate (ModalHooks.newTask (modal w)))
      as [draft|error]; [|reflexivity].
    destruct (createTask taskService draft); reflexivity.
Qed.

(** X4. From any reachable world every handler completes normally, with one
    exception: a table update whose request the server rejects re-throws the
    server's error. In particular a submission of the form never throws,
    whatever the server answers. When the handler is done neither the
    dashboard nor the form is left in its loading state. *)
Theorem handlers_settle (currentUser : User) (w : World) :
  Dashboard.reachable currentUser w ->
  forall taskService ev,
    (fst (Dashboard.handle currentUser taskService ev w) = Normal tt \/
     exists taskId updatedTask error,
       ev = Dashboard.TableUpdate taskId updatedTask /\
       updateTask taskService taskId updatedTask = Throw error /\
       fst (Dashboard.handle currentUser taskService ev w) = Throw error) /\
    OverviewHooks.loading
      (overview (snd (Dashboard.handle currentUser taskService ev w))) = false /\
    ModalHooks.loading
      (modal (snd (Dashboard.handle currentUser taskService ev w))) = false.
Proof.
  intros Hreach taskService ev.
  pose proof (reachable_invariant _ _ Hreach) as (_ & Hform & _).
  pose proof (reachable_invariant _ _
                (Dashboard.reachable_step _ _ taskService ev Hreach))
    as (_ & _ & Hload & Hmodal & _).
  split; [now apply handle_completion | now split].
Qed.

Lemma handlers_settle_witness :
  fst (Dashboard.handle Samples.admin Samples.offline Dashboard.FormSubmit
         (Dashboard.play Samples.admin Samples.offline
            [Dashboard.FormChange Dashboard.TaskNameInput "Fix pump" false]
            initialWorld))
  = Normal tt.
Proof.
  destruct (handlers_settle Samples.admin
              (Dashboard.play Samples.admin Samples.offline
                 [Dashboard.FormChange Dashboard.TaskNameInput "Fix pump" false]
                 initialWorld)
              (play_reachable _ _ _ _ (Dashboard.reachable_mount _))
              Samples.offline Dashboard.FormSubmit)
    as ([Hdone|(taskId & updatedTask & error & Hev & _)] & _).
  - exact Hdone.
  - discriminate Hev.
Defined.

(** ** Delete and update on the collection *)

Lemma removeById_Selects (taskId : value) (l : list object) :
  Design.Selects (fun task => prop task "id" <> taskId) l
    (TaskOverview.removeById taskId l).
Proof.
  unfold TaskOverview.removeById, strict_eq.
  induction l as [|task l IH]; simpl; [constructor|].
  destruct (decide (prop task "id" = taskId)) as [E|E].
  - rewrite bool_decide_eq_true_2 by exact E. simpl.
    apply Design.Selects_skip; [tauto | exact IH].
  - rewrite bool_decide_eq_false_2 by exact E. simpl.
    apply Design.Selects_keep; [exact E | exact IH].
Qed.

Lemma removeById_length (taskId : value) (l : list object) :
  length (TaskOverview.removeById taskId l) + Design.withId taskId l = length l.
Proof.
  unfold TaskOverview.removeById, Design.withId, strict_eq.
  induction l as [|task l IH]; simpl; [reflexivity|].
  destruct (bool_decide (prop task "id" = taskId)); simpl; lia.
Qed.

Lemma withId_removeById (taskId : value) (l : list object) :
  Design.withId taskId (TaskOverview.removeById taskId l) = 0.
Proof.
  unfold TaskOverview.removeById, Design.withId, strict_eq.
  induction l as [|task l IH]; simpl; [reflexivity|].
  destruct (bool_decide (prop task "id" = taskId)) eqn:E; simpl; [exact IH|].
  now rewrite E.
Qed.

Lemma removeById_absent (taskId : value) (l : list object) :
  Design.withId taskId l = 0 -> TaskOverview.removeById taskId l = l.
Proof.
  unfold TaskOverview.removeById, Design.withId, strict_eq.
  induction l as [|task l IH]; simpl; [reflexivity|].
  destruct (bool_decide (prop task "id" = taskId)); simpl; [discriminate|].
  intros H. f_equal. now apply IH.
Qed.

(** X5. A delete the server accepts removes from the collection every task
    that carries the identifier and nothing else: the remaining tasks keep
    their order, the length drops by the number of tasks removed, and the
    summary is recomputed. When no task carries the identifier the request is
    sent all the same, the collection stays as it is and success is
    reported. *)
Theorem delete_removes_tasks_with_id (currentUser : User)
    (taskService : Transport) (w : World) (taskId taskName : value)
    (response : Response value) :
  TaskOverview.canDeleteTask currentUser = true ->
  deleteTask taskService taskId = Normal response ->
  exists w',
    TaskOverview.handleTaskDelete currentUser taskService taskId taskName w
    = (Normal tt, w') /\
    let old := OverviewHooks.tasks (overview w) in
    let new := OverviewHooks.tasks (overview w') in
    Design.Selects (fun task => prop task "id" <> taskId) old new /\
    (forall task, In task new <-> In task old /\ prop task "id" <> taskId) /\
    sublist new old /\
    Design.withId taskId new = 0 /\
    length new + Design.withId taskId old = length old /\
    (Design.withId taskId old = 0 -> new = old) /\
    OverviewHooks.summary (overview w') = TaskOverview.summaryData new /\
    calls w' = (calls w ++ [DeleteTask taskId])%list /\
    OverviewHooks.notification (overview w')
    = TaskOverview.notice "Task deleted successfully!" "success".
Proof.
  intros Hc E. rewrite (handleTaskDelete_fulfilled _ _ _ _ taskName _ Hc E).
  eexists. split; [reflexivity|]. simpl.
  pose proof (removeById_Selects taskId (OverviewHooks.tasks (overview w))) as Hsel.
  split; [exact Hsel|]. split; [exact (Selects_In _ _ _ Hsel)|].
  split; [exact (Selects_sublist _ _ _ Hsel)|].
  split; [apply withId_removeById|]. split; [apply removeById_length|].
  split; [apply removeById_absent|]. repeat split.
Qed.

Lemma delete_removes_tasks_with_id_witness :
  exists w',
    TaskOverview.handleTaskDelete Samples.admin
      (Samples.online [] Samples.taskNew) (VNum 1) (VStr "A")
      (Samples.loaded [Samples.taskA; Samples.taskB; Samples.taskA])
    = (Normal tt, w') /\
    length (OverviewHooks.tasks (overview w')) + 2 = 3.
Proof.
  destruct (delete_removes_tasks_with_id Samples.admin
              (Samples.online [] Samples.taskNew)
              (Samples.loaded [Samples.taskA; Samples.taskB; Samples.taskA])
              (VNum 1) (VStr "A") (mkResponse VUndefined) eq_refl eq_refl)
    as (w' & Hrun & _ & _ & _ & _ & Hlen & _).
  exists w'. split; [exact Hrun | exact Hlen].
Defined.

Lemma replaceById_length (taskId : value) (answer : object) (l : list object) :
  length (TaskOverview.replaceById taskId answer l) = length l.
Proof. unfold TaskOverview.replaceById. apply length_map. Qed.

Lemma replaceById_lookup (taskId : value) (answer : object) (l : list object)
    (i : nat) :
  TaskOverview.replaceById taskId answer l !! i
  = (fun task => if decide (prop task "id" = taskId) then answer else task)
      <$> l !! i.
Proof.
  unfold TaskOverview.replaceById, strict_eq. revert i.
  induction l as [|task l IH]; intros [|i]; simpl; try reflexivity.
  - destruct (decide (prop task "id" = taskId)) as [E|E].
    + now rewrite bool_decide_eq_true_2.
    + now rewrite bool_decide_eq_false_2.
  - apply IH.
Qed.

(** Replacing twice with the same answer is replacing once, whether or not
    the answer itself carries the identifier. *)
Lemma replaceById_idempotent (taskId : value) (answer : object) (l : list object) :
  TaskOverview.replaceById taskId answer
    (TaskOverview.replaceById taskId answer l)
  = TaskOverview.replaceById taskId answer l.
Proof.
  unfold TaskOverview.replaceById. induction l as [|task l IH]; simpl; [reflexivity|].
  f_equal; [|exact IH].
  destruct (strict_eq (prop task "id") taskId) eqn:E.
  - now destruct (strict_eq (prop answer "id") taskId).
  - now rewrite E.
Qed.

(** X6. An update the server accepts keeps the length of the collection and
    every position of it: position by position, a task that carries the
    identifier is replaced by the task the server returned (every such task,
    should several carry it) and any other task stays. Sending the same
    update again, with the same answer, changes nothing further. *)
Theorem update_replaces_in_place (taskService : Transport) (w : World)
    (taskId : value) (updatedTask : object) (response : Response object) :
  updateTask taskService taskId updatedTask = Normal response ->
  exists w',
    TaskOverview.handleTaskUpdate taskService taskId updatedTask w
    = (Normal tt, w') /\
    let old := OverviewHooks.tasks (overview w) in
    let new := OverviewHooks.tasks (overview w') in
    length new = length old /\
    (forall i,
       new !! i
       = (fun task =>
            if decide (prop task "id" = taskId) then data response else task)
           <$> old !! i) /\
    OverviewHooks.summary (overview w') = TaskOverview.summaryData new /\
    OverviewHooks.tasks
      (overview (snd (TaskOverview.handleTaskUpdate taskService taskId
                        updatedTask w')))
    = new.
Proof.
  intros E. rewrite (handleTaskUpdate_fulfilled _ _ _ _ _ E).
  eexists. split; [reflexivity|]. simpl.
  split; [apply replaceById_length|]. split; [apply replaceById_lookup|].
  split; [reflexivity|].
  rewrite (handleTaskUpdate_fulfilled _ _ _ _ _ E). simpl.
  apply replaceById_idempotent.
Qed.

Lemma update_replaces_in_place_witness :
  exists w',
    TaskOverview.handleTaskUpdate (Samples.online [] Samples.taskNew)
      (VNum 2) Samples.taskNew (Samples.loaded [Samples.taskA; Samples.taskB])
    = (Normal tt, w') /\
    OverviewHooks.tasks (overview w') !! 1 = Some Samples.taskNew.
Proof.
  destruct (update_replaces_in_place (Samples.online [] Samples.taskNew)
              (Samples.loaded [Samples.taskA; Samples.taskB])
              (VNum 2) Samples.taskNew (mkResponse Samples.taskNew) eq_refl)
    as (w' & Hrun & _ & Hat & _).
  exists w'. split; [exact Hrun|]. rewrite (Hat 1). vm_compute. reflexivity.
Defined.

Lemma removeById_snoc_fresh (created : object) (l : list object) :
  Design.withId (prop created "id") l = 0 ->
  TaskOverview.removeById (prop created "id") (l ++ [created]) = l.
Proof.
  intros Hfresh. unfold TaskOverview.removeById, strict_eq.
  rewrite List.filter_app. simpl.
  rewrite bool_decide_eq_true_2 by reflexivity. simpl. rewrite app_nil_r.
  now apply removeById_absent.
Qed.

(** X7. Creating a task and then deleting the identifier the server gave it
    restores the collection, and with it the summary, provided no task
    carried that identifier before. *)
Theorem create_then_delete_restores (currentUser : User)
    (creating deleting : Transport) (w : World) (newTaskData : object)
    (taskName : value) (created : Response object) (deleted : Response value) :
  TaskOverview.canCreateTask currentUser = true ->
  TaskOverview.canDeleteTask currentUser = true ->
  createTask creating newTaskData = Normal created ->
  deleteTask deleting (prop (data created) "id") = Normal deleted ->
  Design.withId (prop (data created) "id") (OverviewHooks.tasks (overview w)) = 0 ->
  let w1 := snd (TaskOverview.handleCreateTask currentUser creating newTaskData w) in
  let w2 := snd (TaskOverview.handleTaskDelete currentUser deleting
                   (prop (data created) "id") taskName w1) in
  OverviewHooks.tasks (overview w2) = OverviewHooks.tasks (overview w) /\
  OverviewHooks.summary (overview w2)
  = TaskOverview.summaryData (OverviewHooks.tasks (overview w)).
Proof.
  intros Hc Hd Ec Ed Hfresh.
  rewrite (handleCreateTask_fulfilled _ _ _ _ _ Hc Ec). simpl.
  rewrite (handleTaskDelete_fulfilled _ _ _ _ taskName _ Hd Ed). simpl.
  rewrite (removeById_snoc_fresh _ _ Hfresh). split; reflexivity.
Qed.

Lemma create_then_delete_restores_witness :
  OverviewHooks.tasks
    (overview
       (snd (TaskOverview.handleTaskDelete Samples.admin
               (Samples.online [] Samples.taskNew)
               (prop Samples.taskNew "id") (VStr "New")
               (snd (TaskOverview.handleCreateTask Samples.admin
                       (Samples.online [] Samples.taskNew) Samples.taskNew
                       (Samples.loaded [Samples.taskA; Samples.taskB]))))))
  = [Samples.taskA; Samples.taskB].
Proof.
  exact (proj1 (create_then_delete_restores Samples.admin
                  (Samples.online [] Samples.taskNew)
                  (Samples.online [] Samples.taskNew)
                  (Samples.loaded [Samples.taskA; Samples.taskB])
                  Samples.taskNew (VStr "New")
                  (mkResponse Samples.taskNew) (mkResponse VUndefined)
                  eq_refl eq_refl eq_refl eq_refl eq_refl)).
Defined.

(** ** More on the filtered view *)

Lemma Selects_holds {A} (P : A -> Prop) (l view : list A) :
  Design.Selects P l view -> Design.Selects P view view.
Proof.
  induction 1 as [|x l view Hx _ IH|x l view Hx _ IH];
    [constructor | now apply Design.Selects_keep | exact IH].
Qed.

Lemma Selects_functional {A} (P : A -> Prop) (l v1 v2 : list A) :
  Design.Selects P l v1 -> Design.Selects P l v2 -> v1 = v2.
Proof.
  intros H1. revert v2.
  induction H1 as [|x l view Hx _ IH|x l view Hx _ IH]; intros v2 H2;
    inversion H2; subst; try contradiction; [reflexivity | f_equal; auto | auto].
Qed.

(** X8. Filtering is idempotent: on well-formed tasks, the filtered view of
    the filtered view, under the same status filter and search term, is the
    filtered view. *)
Theorem filteredTasks_idempotent (s : OverviewHooks.State) (view : list object) :
  Forall Design.wellFormed (OverviewHooks.tasks s) ->
  TaskOverview.filteredTasks s = Normal view ->
  TaskOverview.filteredTasks
    (OverviewHooks.mkState view (OverviewHooks.summary s)
       (OverviewHooks.showNewTaskModal s) (OverviewHooks.notification s)
       (OverviewHooks.loading s) (OverviewHooks.filter s)
       (OverviewHooks.searchTerm s))
  = Normal view.
Proof.
  intros Hwf Hrun. unfold TaskOverview.filteredTasks in *. simpl.
  destruct (array_filter_wellFormed (OverviewHooks.filter s)
              (OverviewHooks.searchTerm s) _ Hwf) as (view' & Hrun' & Hsel).
  assert (view' = view) as -> by congruence.
  assert (Hwf' : Forall Design.wellFormed view).
  { apply Forall_forall. intros task Hin. rewrite Forall_forall in Hwf.
    apply Hwf. apply list_elem_of_In. apply list_elem_of_In in Hin.
    now apply (Selects_In _ _ _ Hsel). }
  destruct (array_filter_wellFormed (OverviewHooks.filter s)
              (OverviewHooks.searchTerm s) _ Hwf') as (again & -> & Hsel').
  f_equal. exact (Selects_functional _ _ _ _ Hsel' (Selects_holds _ _ _ Hsel)).
Qed.

Lemma filteredTasks_idempotent_witness :
  TaskOverview.filteredTasks
    (Samples.viewOf [Samples.taskB] "COMPLETED" "")
  = Normal [Samples.taskB].
Proof.
  assert (Hwf : Forall Design.wellFormed [Samples.taskA; Samples.taskB]).
  { constructor; [|constructor; [|constructor]].
    - split; [repeat split; vm_compute; eexists; reflexivity|].
      left. vm_compute. reflexivity.
    - split; [repeat split; vm_compute; eexists; reflexivity|].
      right; right. vm_compute. eexists; reflexivity. }
  assert (Hrun : TaskOverview.filteredTasks
                   (Samples.viewOf [Samples.taskA; Samples.taskB] "COMPLETED" "")
                 = Normal [Samples.taskB]).
  { vm_compute. reflexivity. }
  exact (filteredTasks_idempotent
           (Samples.viewOf [Samples.taskA; Samples.taskB] "COMPLETED" "")
           [Samples.taskB] Hwf Hrun).
Defined.

Lemma array_filter_unfiltered (l : list object) :
  Forall Design.wellFormed l ->
  array_filter (TaskOverview.keepTask "all" "") l = Normal l.
Proof.
  intros Hwf.
  destruct (array_filter_wellFormed "all" "" l Hwf) as (view & -> & Hsel).
  f_equal. apply (Selects_all _ _ _ Hsel). intros task Hin.
  split; [now left|]. apply searchMatch_empty_term.
  rewrite Forall_forall in Hwf. apply Hwf. now apply list_elem_of_In.
Qed.

(** X9. Clearing the filters sends nothing, leaves collection and summary
    alone, and resets status filter and search term so that, on well-formed
    tasks, the view shows the whole collection again, in its order. *)
Theorem clearFilters_shows_everything (w : World) :
  Forall Design.wellFormed (OverviewHooks.tasks (overview w)) ->
  exists w',
    TaskOverview.clearFilters w = (Normal tt, w') /\
    OverviewHooks.filter (overview w') = "all" /\
    OverviewHooks.searchTerm (overview w') = "" /\
    TaskOverview.filteredTasks (overview w')
    = Normal (OverviewHooks.tasks (overview w)) /\
    OverviewHooks.tasks (overview w') = OverviewHooks.tasks (overview w) /\
    OverviewHooks.summary (overview w') = OverviewHooks.summary (overview w) /\
    calls w' = calls w /\
    OverviewHooks.notification (overview w')
    = TaskOverview.notice "Filters cleared" "info".
Proof.
  intros Hwf. eexists. split; [reflexivity|]. simpl.
  split; [reflexivity|]. split; [reflexivity|].
  split; [exact (array_filter_unfiltered _ Hwf)|]. repeat split.
Qed.

Lemma clearFilters_shows_everything_witness :
  exists w',
    TaskOverview.clearFilters
      (mkWorld (Samples.viewOf [Samples.taskA; Samples.taskB] "HOLD" "zz")
         ModalHooks.initial [GetAllTasks] [])
    = (Normal tt, w') /\
    TaskOverview.filteredTasks (overview w')
    = Normal [Samples.taskA; Samples.taskB].
Proof.
  assert (Hwf : Forall Design.wellFormed [Samples.taskA; Samples.taskB]).
  { constructor; [|constructor; [|constructor]].
    - split; [repeat split; vm_compute; eexists; reflexivity|].
      left. vm_compute. reflexivity.
    - split; [repeat split; vm_compute; eexists; reflexivity|].
      right; right. vm_compute. eexists; reflexivity. }
  destruct (clearFilters_shows_everything
              (mkWorld (Samples.viewOf [Samples.taskA; Samples.taskB] "HOLD" "zz")
                 ModalHooks.initial [GetAllTasks] [])
              Hwf) as (w' & Hrun & _ & _ & Hview & _).
  exists w'. split; [exact Hrun | exact Hview].
Defined.

(** ** The form *)

(** X10. A permitted submission with a non-blank name sends one create
    request. When the server accepts it the form is reset to its blank
    state, the modal is closed and no alert is raised; when the server
    rejects it the form keeps what was typed, the modal stays as it was, the
    collection is untouched and one alert reports the failure. A blank name
    sends nothing, keeps the form and raises the alert that a name is
    required. *)
Theorem submission_resets_or_keeps_form (currentUser : User)
    (taskService : Transport) (w : World) (name : string) :
  Dashboard.formWellTyped (ModalHooks.newTask (modal w)) ->
  TaskOverview.canCreateTask currentUser = true ->
  prop (ModalHooks.newTask (modal w)) "taskName" = VStr name ->
  exists w',
    submitNewTask currentUser taskService w = (Normal tt, w') /\
    if String.eqb (trim name) "" then
      calls w' = calls w /\ modal w' = modal w /\ overview w' = overview w /\
      alerts w' = (alerts w ++ ["Task name is required!"])%list
    else
      exists draft,
        NewTaskModal.taskToCreate (ModalHooks.newTask (modal w)) = Normal draft /\
        calls w' = (calls w ++ [CreateTask draft])%list /\
        match createTask taskService draft with
        | Normal response =>
            ModalHooks.newTask (modal w') = ModalHooks.blankTask /\
            OverviewHooks.showNewTaskModal (overview w') = false /\
            alerts w' = alerts w /\
            OverviewHooks.tasks (overview w')
            = (OverviewHooks.tasks (overview w) ++ [data response])%list
        | Throw error =>
            ModalHooks.newTask (modal w') = ModalHooks.newTask (modal w) /\
            OverviewHooks.showNewTaskModal (overview w')
            = OverviewHooks.showNewTaskModal (overview w) /\
            alerts w'
            = (alerts w ++ [String.append "Failed to create task: "
                              (NewTaskModal.errorMessage error)])%list /\
            OverviewHooks.tasks (overview w') = OverviewHooks.tasks (overview w)
        end.
Proof.
  intros Hform Hc Hn. rewrite (submitNewTask_run _ _ _ _ Hn), Hc. simpl negb.
  cbv iota.
  destruct (String.eqb (trim name) "").
  { eexists. split; [reflexivity|]. simpl. auto. }
  destruct (taskToCreate_normalized _ Hform) as (draft & Hdraft & _).
  rewrite Hdraft.
  destruct (createTask taskService draft) as [response|error] eqn:E.
  - eexists. split; [reflexivity|]. exists draft. rewrite E. simpl. repeat split.
  - eexists. split; [reflexivity|]. exists draft. rewrite E. simpl. repeat split.
Qed.

Lemma submission_resets_or_keeps_form_witness :
  exists w',
    submitNewTask Samples.admin Samples.offline
      (Dashboard.play Samples.admin Samples.offline
         [Dashboard.FormChange Dashboard.TaskNameInput "Fix pump" false]
         initialWorld)
    = (Normal tt, w').
Proof.
  assert (Hform : Dashboard.formWellTyped
                    (ModalHooks.newTask
                       (modal (Dashboard.play Samples.admin Samples.offline
                                 [Dashboard.FormChange Dashboard.TaskNameInput
                                    "Fix pump" false]
                                 initialWorld)))).
  { split; [split; [|split]; vm_compute; eexists; reflexivity | exact I]. }
  destruct (submission_resets_or_keeps_form Samples.admin Samples.offline
              (Dashboard.play Samples.admin Samples.offline
                 [Dashboard.FormChange Dashboard.TaskNameInput "Fix pump" false]
                 initialWorld)
              "Fix pump" Hform eq_refl eq_refl)
    as (w' & Hrun & _).
  exists w'. exact Hrun.
Defined.

Lemma taskToCreate_after_hours (newTask : object) (h : value) (draft0 : object) :
  NewTaskModal.taskToCreate newTask = Normal draft0 ->
  exists draft,
    NewTaskModal.taskToCreate (<[ "estimatedHours" := h ]> newTask) = Normal draft /\
    prop draft "estimatedHours" = parseInt_or h 8 /\
    forall k, k <> "estimatedHours" -> prop draft k = prop draft0 k.
Proof.
  unfold NewTaskModal.taskToCreate, prop.
  rewrite !(lookup_insert_ne _ "estimatedHours") by discriminate.
  rewrite lookup_insert_eq. simpl.
  destruct (call_trim (default VUndefined (newTask !! "taskName"))) as [n|e];
    simpl; [|discriminate].
  destruct (call_trim (default VUndefined (newTask !! "responsible"))) as [r|e];
    simpl; [|discriminate].
  destruct (call_trim (default VUndefined (newTask !! "remarks"))) as [m|e];
    simpl; [|discriminate].
  intros [= <-]. eexists. split; [reflexivity|]. split.
  - by simplify_map_eq.
  - intros k Hk. rewrite !lookup_insert.
    repeat case_decide; try congruence; reflexivity.
Qed.



(** What the form sends for texts that spell an integer no double holds, or
    one of 10^21 and more: the integer is rounded when it is read, and read
    again from the text of the number, which from 10^21 on starts with one
    digit and an exponent. *)
Example typed_large_hours :
  (forall typed h,
     cbind (NewTaskModal.taskToCreate
              (ModalHooks.newTask
                 (modal (snd (NewTaskModal.handleChange "estimatedHours" typed
                                "number" false initialWorld)))))
           (fun draft => Normal (prop draft "estimatedHours"))
     = Normal h ->
     h = parseInt_or (parseInt_or (VStr typed) 0) 8) /\
  parseInt_or (parseInt_or (VStr "9007199254740993") 0) 8
  = VNum 9007199254740992 /\
  parseInt_or (parseInt_or (VStr "1000000000000000000000") 0) 8 = VNum 1 /\
  parseInt_or (parseInt_or (VStr "-1180591620717411303424") 0) 8 = VNum (-1) /\
  parseInt_or (parseInt_or (VStr (decimal (10 ^ 309))) 0) 8 = VNum 8 /\
  parseInt_or (parseInt_or (VStr "0x10") 0) 8 = VNum 16.
Proof.
  split; [|repeat split; vm_compute; reflexivity].
  intros typed h. simpl.
  destruct (taskToCreate_after_hours ModalHooks.blankTask
              (parseInt_or (VStr typed) 0) _ eq_refl)
    as (draft & Hdraft & Hhours & _).
  unfold ModalHooks.initial in *. simpl ModalHooks.newTask.
  rewrite Hdraft. simpl. intros [= <-]. exact Hhours.
Qed.

(** ** The profile page *)

Section Profile.
Import UserProfile.

Lemma noKeys_insert (k v : string) (m : gmap string string) :
  noKeys (<[ k := v ]> m) = false.
Proof.
  unfold noKeys. apply bool_decide_eq_false_2. apply insert_non_empty.
Qed.

Lemma profileErrors_lookup (d : FormData) (k : string) :
  profileErrors d !! k =
  if String.eqb k "fullName" then
    if String.eqb (trim (fullName d)) "" then Some "Full name is required"
    else None
  else if String.eqb k "username" then
    if String.eqb (trim (username d)) "" then Some "Username is required"
    else if (String.length (username d) <? 3)%nat
         then Some "Username must be at least 3 characters"
         else None
  else None.
Proof.
  unfold profileErrors.
  destruct (String.eqb_spec k "fullName") as [->|Hf];
    [|destruct (String.eqb_spec k "username") as [->|Hu]];
    destruct (String.eqb (trim (fullName d)) "");
    destruct (String.eqb (trim (username d)) "");
    try destruct (String.length (username d) <? 3)%nat;
    by simplify_map_eq.
Qed.

Lemma profileErrors_none (d : FormData) :
  noKeys (profileErrors d) = true <-> acceptableProfile d.
Proof.
  unfold acceptableProfile, profileErrors.
  destruct (String.eqb_spec (trim (fullName d)) "") as [Ef|Ef];
    destruct (String.eqb_spec (trim (username d)) "") as [Eu|Eu];
    try destruct (Nat.ltb_spec (String.length (username d)) 3);
    rewrite ?noKeys_insert; unfold noKeys; rewrite ?bool_decide_eq_true;
    split; try discriminate; try tauto; try (intros (? & ? & ?); lia);
    intros _; repeat split; auto; lia.
Qed.

Lemma passwordErrors_lookup (d : PasswordData) (k : string) :
  passwordErrors d !! k =
  if String.eqb k "currentPassword" then
    if String.eqb (currentPassword d) "" then Some "Current password is required"
    else None
  else if String.eqb k "newPassword" then
    if String.eqb (newPassword d) "" then Some "New password is required"
    else if (String.length (newPassword d) <? 6)%nat
         then Some "Password must be at least 6 characters"
         else None
  else if String.eqb k "confirmPassword" then
    if String.eqb (newPassword d) (confirmPassword d) then None
    else Some "Passwords do not match"
  else None.
Proof.
  unfold passwordErrors.
  destruct (String.eqb_spec k "currentPassword") as [->|Hc];
    [|destruct (String.eqb_spec k "newPassword") as [->|Hn];
      [|destruct (String.eqb_spec k "confirmPassword") as [->|Hk]]];
    destruct (String.eqb (currentPassword d) "");
    destruct (String.eqb (newPassword d) "");
    try destruct (String.length (newPassword d) <? 6)%nat;
    destruct (String.eqb (newPassword d) (confirmPassword d));
    by simplify_map_eq.
Qed.

Lemma passwordErrors_none (d : PasswordData) :
  noKeys (passwordErrors d) = true <-> acceptablePasswords d.
Proof.
  unfold acceptablePasswords, passwordErrors.
  destruct (String.eqb_spec (currentPassword d) "") as [Ec|Ec];
    destruct (String.eqb_spec (newPassword d) "") as [En|En];
    try destruct (Nat.ltb_spec (String.length (newPassword d)) 6);
    destruct (String.eqb_spec (newPassword d) (confirmPassword d)) as [Ek|Ek];
    simpl; rewrite ?noKeys_insert; unfold noKeys; rewrite ?bool_decide_eq_true;
    split; try discriminate; try tauto;
    try (intros (? & ? & ?); first [lia | congruence]);
    try (intros (? & Hlen & ?); rewrite En in Hlen; simpl in Hlen; lia);
    intros _; repeat split; auto; lia.
Qed.

End Profile.

(** X12. Saving the profile validates first. Data is accepted when the full
    name and the username are not blank after trimming and the username, as
    typed, has at least 3 characters; then edit mode ends, no error is shown,
    and the callback, if the parent passed one, receives the data exactly as
    typed, once. Otherwise the callback is not called, the component stays in
    the mode it was in with the data kept, and the errors name each failed
    field with its message. *)
Theorem saveProfile_validates (onUserUpdate : bool) (s : UserProfile.State) :
  let s' := UserProfile.handleSaveProfile onUserUpdate s in
  UserProfile.formData s' = UserProfile.formData s /\
  UserProfile.passwordData s' = UserProfile.passwordData s /\
  UserProfile.isChangingPassword s' = UserProfile.isChangingPassword s /\
  (forall k, UserProfile.errors s' !! k =
     if String.eqb k "fullName" then
       if String.eqb (trim (UserProfile.fullName (UserProfile.formData s))) ""
       then Some "Full name is required" else None
     else if String.eqb k "username" then
       if String.eqb (trim (UserProfile.username (UserProfile.formData s))) ""
       then Some "Username is required"
       else if (String.length (UserProfile.username (UserProfile.formData s)) <? 3)%nat
            then Some "Username must be at least 3 characters"
            else None
     else None) /\
  (UserProfile.acceptableProfile (UserProfile.formData s) ->
   UserProfile.isEditing s' = false /\
   UserProfile.errors s' = ∅ /\
   UserProfile.userUpdates s'
   = if onUserUpdate
     then (UserProfile.userUpdates s ++ [UserProfile.formData s])%list
     else UserProfile.userUpdates s) /\
  (~ UserProfile.acceptableProfile (UserProfile.formData s) ->
   UserProfile.isEditing s' = UserProfile.isEditing s /\
   UserProfile.errors s' <> ∅ /\
   UserProfile.userUpdates s' = UserProfile.userUpdates s).
Proof.
  unfold UserProfile.handleSaveProfile, UserProfile.validateProfileForm.
  pose proof (profileErrors_none (UserProfile.formData s)) as Hnone.
  pose proof (profileErrors_lookup (UserProfile.formData s)) as Hlookup.
  destruct (UserProfile.noKeys (UserProfile.profileErrors (UserProfile.formData s)))
    eqn:E; simpl;
    (split; [reflexivity|]); (split; [reflexivity|]); (split; [reflexivity|]);
    (split; [exact Hlookup|]); split.
  - intros _. unfold UserProfile.noKeys in E. apply bool_decide_eq_true in E.
    repeat split; auto.
  - intros Hbad. exfalso. apply Hbad. now apply Hnone.
  - intros Hok. apply Hnone in Hok. discriminate.
  - intros _. unfold UserProfile.noKeys in E. apply bool_decide_eq_false in E.
    repeat split; auto.
Qed.

(** The length is counted on the text as typed: a username of three
    characters of which two are spaces passes, and is handed on untrimmed. *)
Example padded_username_is_saved :
  UserProfile.userUpdates
    (UserProfile.handleSaveProfile true
       (UserProfile.mkState true false (UserProfile.mkFormData "Ann" "  a")
          UserProfile.blankPasswords ∅ []))
  = [UserProfile.mkFormData "Ann" "  a"].
Proof. vm_compute. reflexivity. Qed.

(** X13. Saving a new password validates first. The passwords are accepted
    when the current one is not empty, the new one has at least 6 characters
    and the confirmation equals it; then password mode ends and the three
    fields are wiped. Otherwise the fields are kept, password mode stays as
    it was, and the errors name each failed field with its message. Nothing
    is trimmed: blanks count as characters. *)
Theorem savePassword_validates (s : UserProfile.State) :
  let s' := UserProfile.handleSavePassword s in
  UserProfile.formData s' = UserProfile.formData s /\
  UserProfile.isEditing s' = UserProfile.isEditing s /\
  UserProfile.userUpdates s' = UserProfile.userUpdates s /\
  (forall k, UserProfile.errors s' !! k =
     if String.eqb k "currentPassword" then
       if String.eqb (UserProfile.currentPassword (UserProfile.passwordData s)) ""
       then Some "Current password is required" else None
     else if String.eqb k "newPassword" then
       if String.eqb (UserProfile.newPassword (UserProfile.passwordData s)) ""
       then Some "New password is required"
       else if (String.length (UserProfile.newPassword (UserProfile.passwordData s))
                <? 6)%nat
            then Some "Password must be at least 6 characters"
            else None
     else if String.eqb k "confirmPassword" then
       if String.eqb (UserProfile.newPassword (UserProfile.passwordData s))
            (UserProfile.confirmPassword (UserProfile.passwordData s))
       then None else Some "Passwords do not match"
     else None) /\
  (UserProfile.acceptablePasswords (UserProfile.passwordData s) ->
   UserProfile.isChangingPassword s' = false /\
   UserProfile.passwordData s' = UserProfile.blankPasswords /\
   UserProfile.errors s' = ∅) /\
  (~ UserProfile.acceptablePasswords (UserProfile.passwordData s) ->
   UserProfile.isChangingPassword s' = UserProfile.isChangingPassword s /\
   UserProfile.passwordData s' = UserProfile.passwordData s /\
   UserProfile.errors s' <> ∅).
Proof.
  unfold UserProfile.handleSavePassword, UserProfile.validatePasswordForm.
  pose proof (passwordErrors_none (UserProfile.passwordData s)) as Hnone.
  pose proof (passwordErrors_lookup (UserProfile.passwordData s)) as Hlookup.
  destruct (UserProfile.noKeys
              (UserProfile.passwordErrors (UserProfile.passwordData s)))
    eqn:E; simpl;
    (split; [reflexivity|]); (split; [reflexivity|]); (split; [reflexivity|]);
    (split; [exact Hlookup|]); split.
  - intros _. unfold UserProfile.noKeys in E. apply bool_decide_eq_true in E.
    repeat split; auto.
  - intros Hbad. exfalso. apply Hbad. now apply Hnone.
  - intros Hok. apply Hnone in Hok. discriminate.
  - intros _. unfold UserProfile.noKeys in E. apply bool_decide_eq_false in E.
    repeat split; auto.
Qed.

Section ProfileStates.
Import UserProfile.

Variable currentUser : option User.
Variable onUserUpdate : bool.

(** What the handlers keep true, event after event. *)
Let kept (s : State) : Prop :=
  (isEditing s && isChangingPassword s = false) /\
  (isChangingPassword s = false -> passwordData s = blankPasswords) /\
  Forall acceptableProfile (userUpdates s) /\
  (onUserUpdate = false -> userUpdates s = []).

Lemma handle_keeps (ev : Event) (s : State) :
  kept s -> kept (handle currentUser onUserUpdate ev s).
Proof.
  unfold kept, handle. intros (Hmodes & Hblank & Hvalid & Hnone).
  destruct (offered s ev) eqn:Hoff; simpl; [|tauto].
  destruct ev as [name val|name val| | | | | | ]; simpl in Hoff |- *.
  - destruct name; simpl; tauto.
  - rewrite Hoff in *. destruct name; simpl; repeat split; auto; discriminate.
  - apply andb_true_iff in Hoff as [_ Hp]. apply negb_true_iff in Hp.
    rewrite Hp. simpl. tauto.
  - unfold handleSaveProfile, validateProfileForm.
    destruct (noKeys (profileErrors (formData s))) eqn:E; simpl; [|tauto].
    apply profileErrors_none in E. repeat split; auto.
    + destruct onUserUpdate; [|exact Hvalid].
      apply Forall_app. split; [exact Hvalid|].
      constructor; [exact E | constructor].
    + intros ->. auto.
  - tauto.
  - apply andb_true_iff in Hoff as [He _]. apply negb_true_iff in He.
    rewrite He. simpl. repeat split; auto; discriminate.
  - apply andb_true_iff in Hoff as [He Hp]. apply negb_true_iff in He.
    unfold handleSavePassword, validatePasswordForm.
    destruct (noKeys (passwordErrors (passwordData s))) eqn:E; simpl.
    + rewrite He. repeat split; auto.
    + rewrite He, Hp. repeat split; auto; discriminate.
  - apply andb_true_iff in Hoff as [He _]. apply negb_true_iff in He.
    rewrite He. simpl. repeat split; auto.
Qed.

Lemma play_keeps (events : list Event) (s : State) :
  kept s -> kept (play currentUser onUserUpdate events s).
Proof.
  unfold play. revert s. induction events as [|ev events IH]; intros s Hs; simpl.
  - exact Hs.
  - apply IH. now apply handle_keeps.
Qed.

Lemma initial_kept : kept (initial currentUser).
Proof. unfold kept. simpl. repeat split; auto. Qed.

(** X14. However the user clicks and types on the profile page, edit mode
    and password mode are never on together, and whenever password mode is
    off the three password fields are empty: typed passwords do not outlive
    the mode they were typed in. *)
Theorem profile_modes_exclusive (events : list Event) :
  let s := play currentUser onUserUpdate events (initial currentUser) in
  (isEditing s && isChangingPassword s = false) /\
  (isChangingPassword s = false -> passwordData s = blankPasswords).
Proof.
  destruct (play_keeps events _ initial_kept) as (Hmodes & Hblank & _).
  split; assumption.
Qed.

(** X15. Whatever the sequence of clicks and keystrokes, the parent's update
    callback is only ever called with data that passed validation (full name
    and username not blank, username of at least 3 characters); when the
    parent passes no callback, as the application root does, nothing is ever
    handed on. *)
Theorem profile_updates_are_validated (events : list Event) :
  let s := play currentUser onUserUpdate events (initial currentUser) in
  Forall acceptableProfile (userUpdates s) /\
  (onUserUpdate = false -> userUpdates s = []).
Proof.
  destruct (play_keeps events _ initial_kept) as (_ & _ & Hvalid & Hnone).
  split; assumption.
Qed.

End ProfileStates.

(** ** The login form *)

Lemma wordChar_not_space (c : ascii) :
  Login.isWordChar c = true -> is_space c = false.
Proof.
  destruct c as [[|] [|] [|] [|] [|] [|] [|] [|]];
    intros H; try discriminate H; reflexivity.
Qed.

Lemma trim_nonblank_head (c : ascii) (r : string) :
  is_space c = false -> trim (String c r) <> "".
Proof.
  intros Hc. unfold trim. rewrite (trimStart_fixed _ _ Hc), (trimEnd_head _ _ Hc).
  discriminate.
Qed.

Lemma validate_username_none (value : string) :
  Login.validateField "username" value = ∅ <->
  (3 <= String.length value)%nat /\ Login.allWordChars value = true.
Proof.
  unfold Login.validateField, Login.matchesWord. simpl String.eqb. cbv iota.
  destruct (String.eqb_spec (trim value) "") as [Eb|Eb].
  { split.
    - intros H. exfalso. apply (f_equal (fun m => m !! "username")) in H.
      by simplify_map_eq.
    - intros [Hlen Hword]. destruct value as [|c r]; [simpl in Hlen; lia|].
      simpl in Hword. apply andb_true_iff in Hword as [Hc _].
      exfalso. exact (trim_nonblank_head c r (wordChar_not_space c Hc) Eb). }
  destruct (Nat.ltb_spec (String.length value) 3) as [Hlt|Hge].
  { split.
    - intros H. exfalso. apply (f_equal (fun m => m !! "username")) in H.
      by simplify_map_eq.
    - intros [Hlen _]. lia. }
  destruct (String.eqb_spec value "") as [->|Hne]; [simpl in Hge; lia|]. simpl.
  destruct (Login.allWordChars value) eqn:Hw; simpl.
  - split; [intros _; split; [exact Hge | reflexivity] | reflexivity].
  - split.
    + intros H. exfalso. apply (f_equal (fun m => m !! "username")) in H.
      by simplify_map_eq.
    + intros [_ H]. discriminate H.
Qed.

Lemma validate_password_none (value : string) :
  Login.validateField "password" value = ∅ <-> (6 <= String.length value)%nat.
Proof.
  unfold Login.validateField. simpl String.eqb. cbv iota.
  destruct (String.eqb_spec value "") as [->|Hne].
  { split.
    - intros H. exfalso. apply (f_equal (fun m => m !! "password")) in H.
      by simplify_map_eq.
    - simpl. lia. }
  destruct (Nat.ltb_spec (String.length value) 6) as [Hlt|Hge].
  - split.
    + intros H. exfalso. apply (f_equal (fun m => m !! "password")) in H.
      by simplify_map_eq.
    + lia.
  - split; [intros _; exact Hge | reflexivity].
Qed.

Lemma allErrors_none (c : Login.Credentials) :
  Login.allErrors c = ∅ <-> Login.acceptable c.
Proof.
  unfold Login.allErrors, Login.acceptable.
  pose proof (validate_username_none (Login.username c)) as Hu.
  pose proof (validate_password_none (Login.password c)) as Hp.
  split.
  - intros H. pose proof (map_positive_l _ _ H) as H1. rewrite H1 in H.
    rewrite (left_id ∅ (∪)) in H. apply Hu in H. apply Hp in H1. tauto.
  - intros (Hlen & Hword & Hpw).
    assert (Login.validateField "username" (Login.username c) = ∅) as ->
      by (apply Hu; tauto).
    assert (Login.validateField "password" (Login.password c) = ∅) as ->
      by (apply Hp; tauto).
    apply (left_id ∅ (∪)).
Qed.

Lemma validateField_cases (f : Login.Field) (value : string) :
  Login.validateField (Login.fieldName f) value = ∅ \/
  exists msg, msg <> "" /\
    Login.validateField (Login.fieldName f) value = {[ Login.fieldName f := msg ]}.
Proof.
  unfold Login.validateField.
  destruct f; simpl String.eqb; cbv iota;
    repeat match goal with
           | |- context [if ?b then _ else _] => destruct b
           end;
    first [ now left | right; eexists; split; [|reflexivity]; discriminate ].
Qed.

Lemma fieldName_inj (f g : Login.Field) :
  Login.fieldName f = Login.fieldName g -> f = g.
Proof. destruct f, g; simpl; intros H; try discriminate H; reflexivity. Qed.

Lemma shown_validated (f g : Login.Field) (value : string)
    (m : gmap string string) :
  Login.shown (Login.validateField (Login.fieldName f) value ∪ m) (Login.fieldName g)
  = if decide (f = g) then
      if decide (Login.validateField (Login.fieldName f) value = ∅)
      then Login.shown m (Login.fieldName g)
      else Login.shown (Login.validateField (Login.fieldName f) value)
             (Login.fieldName f)
    else Login.shown m (Login.fieldName g).
Proof.
  unfold Login.shown.
  destruct (validateField_cases f value) as [->|(msg & Hmsg & ->)].
  - rewrite (left_id ∅ (∪)). destruct (decide (f = g)); [|reflexivity].
    now destruct (decide (∅ = ∅)).
  - destruct (decide (f = g)) as [->|Hfg].
    + rewrite lookup_union, !lookup_singleton_eq.
      destruct (decide (_ = ∅)) as [E|_].
      * exfalso. apply (f_equal (fun m => m !! Login.fieldName g)) in E.
        by simplify_map_eq.
      * now destruct (m !! Login.fieldName g).
    + rewrite lookup_union, lookup_singleton_ne
        by (intros E; apply Hfg; now apply fieldName_inj).
      now destruct (m !! Login.fieldName g).
Qed.

Lemma expected_empty (f : Login.Field) (c : Login.Credentials) :
  Login.validateField (Login.fieldName f) (Login.fieldValue f c) = ∅ ->
  Login.expected f c = "".
Proof. unfold Login.expected. now intros ->. Qed.

Lemma expected_message (f : Login.Field) (c : Login.Credentials) :
  Login.validateField (Login.fieldName f) (Login.fieldValue f c) <> ∅ ->
  Login.expected f c <> "".
Proof.
  unfold Login.expected, Login.shown. intros Hne.
  destruct (validateField_cases f (Login.fieldValue f c)) as [E|(msg & Hmsg & ->)];
    [contradiction|].
  now rewrite lookup_singleton_eq.
Qed.

Lemma fieldValue_setField (f g : Login.Field) (value : string)
    (c : Login.Credentials) :
  Login.fieldValue g (Login.setField f value c)
  = if decide (f = g) then value else Login.fieldValue g c.
Proof. destruct f, g, c; reflexivity. Qed.

Lemma shown_cleared (f g : Login.Field) (m : gmap string string) :
  Login.shown (<[ Login.fieldName f := "" ]> m) (Login.fieldName g)
  = if decide (f = g) then "" else Login.shown m (Login.fieldName g).
Proof.
  unfold Login.shown. destruct (decide (f = g)) as [->|Hfg].
  - now rewrite lookup_insert_eq.
  - rewrite lookup_insert_ne; [reflexivity|].
    intros E. apply Hfg. now apply fieldName_inj.
Qed.

Lemma isTouched_insert (f g : Login.Field) (t : gmap string bool) :
  Login.isTouched (<[ Login.fieldName f := true ]> t) (Login.fieldName g)
  = if decide (f = g) then true else Login.isTouched t (Login.fieldName g).
Proof.
  unfold Login.isTouched. destruct (decide (f = g)) as [->|Hfg].
  - now rewrite lookup_insert_eq.
  - rewrite lookup_insert_ne; [reflexivity|].
    intros E. apply Hfg. now apply fieldName_inj.
Qed.

Lemma handleChange_inSync (f : Login.Field) (value : string) (s : Login.State) :
  Login.inSync s -> Login.inSync (Login.handleChange f value s).
Proof.
  intros Hs g. destruct (Hs g) as [Hshown Htouched].
  unfold Login.handleChange, Login.expected. simpl.
  rewrite fieldValue_setField.
  destruct (decide (f = g)) as [->|Hfg].
  - destruct (Login.isTouched (Login.touched s) (Login.fieldName g)) eqn:Ht.
    + rewrite shown_validated. destruct (decide (g = g)) as [_|]; [|contradiction].
      assert (Hcleared :
                Login.shown
                  (if negb (String.eqb (Login.shown (Login.formErrors s)
                                          (Login.fieldName g)) "")
                   then <[ Login.fieldName g := "" ]> (Login.formErrors s)
                   else Login.formErrors s) (Login.fieldName g) = "").
      { destruct (String.eqb_spec (Login.shown (Login.formErrors s)
                                     (Login.fieldName g)) "") as [E|E]; simpl.
        - exact E.
        - rewrite shown_cleared. now destruct (decide (g = g)). }
      destruct (decide (Login.validateField (Login.fieldName g) value = ∅)) as [E|E].
      * rewrite Hcleared, E. split; [congruence | reflexivity].
      * split; [reflexivity | reflexivity].
    + assert (Hnone : Login.shown (Login.formErrors s) (Login.fieldName g) = "").
      { destruct (String.eqb_spec (Login.shown (Login.formErrors s)
                                     (Login.fieldName g)) "") as [E|E];
          [exact E|]. specialize (Hshown E). discriminate. }
      rewrite Hnone. simpl. split; [congruence | discriminate].
  - assert (Hsame :
              Login.shown
                (if Login.isTouched (Login.touched s) (Login.fieldName f)
                 then Login.validateField (Login.fieldName f) value
                      ∪ (if negb (String.eqb (Login.shown (Login.formErrors s)
                                                (Login.fieldName f)) "")
                         then <[ Login.fieldName f := "" ]> (Login.formErrors s)
                         else Login.formErrors s)
                 else (if negb (String.eqb (Login.shown (Login.formErrors s)
                                              (Login.fieldName f)) "")
                       then <[ Login.fieldName f := "" ]> (Login.formErrors s)
                       else Login.formErrors s))
                (Login.fieldName g)
              = Login.shown (Login.formErrors s) (Login.fieldName g)).
    { assert (Hc : Login.shown
                     (if negb (String.eqb (Login.shown (Login.formErrors s)
                                             (Login.fieldName f)) "")
                      then <[ Login.fieldName f := "" ]> (Login.formErrors s)
                      else Login.formErrors s) (Login.fieldName g)
                   = Login.shown (Login.formErrors s) (Login.fieldName g)).
      { destruct (negb _); [|reflexivity]. rewrite shown_cleared.
        now destruct (decide (f = g)). }
      destruct (Login.isTouched (Login.touched s) (Login.fieldName f));
        [|exact Hc].
      rewrite shown_validated. now destruct (decide (f = g)). }
    rewrite Hsame. exact (conj Hshown Htouched).
Qed.

Lemma handleBlur_inSync (f : Login.Field) (s : Login.State) :
  Login.inSync s ->
  Login.inSync
    (Login.handleBlur f (Login.fieldValue f (Login.credentials s)) s).
Proof.
  intros Hs g. destruct (Hs g) as [Hshown Htouched].
  unfold Login.handleBlur. simpl.
  rewrite shown_validated, isTouched_insert.
  destruct (decide (f = g)) as [->|Hfg]; [|exact (conj Hshown Htouched)].
  destruct (decide (Login.validateField (Login.fieldName g)
                      (Login.fieldValue g (Login.credentials s)) = ∅)) as [E|E].
  - split; [reflexivity|]. intros _.
    rewrite (expected_empty _ _ E).
    destruct (String.eqb_spec (Login.shown (Login.formErrors s)
                                 (Login.fieldName g)) "") as [Eb|Eb]; [exact Eb|].
    rewrite (Htouched (Hshown Eb)). now apply expected_empty.
  - split; reflexivity.
Qed.

Lemma demoAccount_valid (account : Login.Credentials) (f : Login.Field) :
  Login.isDemoAccount account = true ->
  Login.validateField (Login.fieldName f) (Login.fieldValue f account) = ∅.
Proof.
  unfold Login.isDemoAccount. rewrite existsb_exists.
  intros (a & Hin & Ha). apply andb_true_iff in Ha as [Hu Hp].
  apply String.eqb_eq in Hu, Hp. destruct account as [u p]. simpl in Hu, Hp.
  subst u p. simpl in Hin.
  destruct Hin as [<-|[<-|[<-|[<-|[]]]]]; destruct f; reflexivity.
Qed.

Lemma handleDemoAccount_inSync (account : Login.Credentials) (s : Login.State) :
  Login.isDemoAccount account = true ->
  Login.inSync (Login.handleDemoAccount account s).
Proof.
  intros Hdemo g. unfold Login.handleDemoAccount. simpl. split.
  - intros H. now contradiction H.
  - intros _. symmetry. apply expected_empty.
    destruct account. now apply demoAccount_valid.
Qed.

Lemma shown_allErrors (g : Login.Field) (c : Login.Credentials) :
  Login.shown (Login.allErrors c) (Login.fieldName g) = Login.expected g c.
Proof.
  unfold Login.allErrors, Login.expected, Login.shown.
  pose proof (validateField_cases Login.Password (Login.password c)) as Hp.
  pose proof (validateField_cases Login.Username (Login.username c)) as Hu.
  simpl Login.fieldName in Hp, Hu.
  destruct g; simpl Login.fieldName; simpl Login.fieldValue;
    destruct Hp as [->|(mp & _ & ->)], Hu as [->|(mu & _ & ->)];
    rewrite lookup_union; by simplify_map_eq.
Qed.

Lemma handleSubmit_inSync
    (answer : Login.Credentials -> AuthService.promise (Response object))
    (st : AuthService.Storage) (s : Login.State) :
  Login.inSync (Login.after (Login.handleSubmit answer st s)).
Proof.
  unfold Login.handleSubmit.
  destruct (decide (Login.allErrors (Login.credentials s) = ∅)) as [E|E].
  - rewrite bool_decide_eq_true_2 by exact E. simpl negb. cbv iota.
    assert (Hsync : forall err,
               Login.inSync (Login.mkState (Login.credentials s) false err ∅
                               (Login.touched s))).
    { intros err g. simpl. split; [intros H; now contradiction H|].
      intros _. rewrite <- shown_allErrors, E. reflexivity. }
    destruct (AuthService.login (answer (Login.credentials s)) st) as [[d|e] st'];
      apply Hsync.
  - rewrite bool_decide_eq_false_2 by exact E. simpl.
    intros g. simpl. rewrite shown_allErrors. split; [|reflexivity].
    intros _. destruct g; reflexivity.
Qed.

Lemma initial_inSync : Login.inSync Login.initial.
Proof.
  intros g. simpl. split; [intros H; now contradiction H | discriminate].
Qed.

(** ** The application and its session *)

Section AppStates.
Import App.

(** What the login page keeps true, whatever the storage holds. *)
Let pageOk (w : World) : Prop :=
  Login.inSync (login w) /\
  Forall Login.acceptable (posts w) /\
  Login.isLoading (login w) = false.


Lemma handle_pageOk (ev : Event) (w : World) : pageOk w -> pageOk (handle ev w).
Proof.
  unfold pageOk, handle. intros (Hsync & Hposts & Hload).
  destruct (offered w ev) eqn:Hoff; simpl negb; cbv iota; [|tauto].
  destruct ev as [f val|f|account|answer| |error]; simpl.
  - split; [now apply handleChange_inSync | tauto].
  - split; [now apply handleBlur_inSync | tauto].
  - simpl in Hoff. apply andb_true_iff in Hoff as [_ Hdemo].
    split; [now apply handleDemoAccount_inSync | tauto].
  - split; [apply handleSubmit_inSync|].
    unfold Login.handleSubmit.
    destruct (decide (Login.allErrors (Login.credentials (login w)) = ∅)) as [E|E].
    + rewrite bool_decide_eq_true_2 by exact E. simpl negb. cbv iota.
      assert (Hok : Forall Login.acceptable
                      (posts w ++ [Login.credentials (login w)])).
      { apply Forall_app. split; [exact Hposts|].
        constructor; [now apply allErrors_none | constructor]. }
      destruct (AuthService.login (answer (Login.credentials (login w)))
                  (storage w)) as [[d|e] st']; simpl; split; auto.
    + rewrite bool_decide_eq_false_2 by exact E. simpl. tauto.
  - split; [apply initial_inSync | tauto].
  - unfold AuthService.responseInterceptor.
    destruct (strict_eq (AuthService.status error) (VNum 401)); simpl.
    + split; [apply initial_inSync | tauto].
    + tauto.
Qed.


Lemma play_pageOk (events : list Event) (w : World) :
  pageOk w -> pageOk (play events w).
Proof.
  unfold play. revert w. induction events as [|ev events IH]; intros w Hw; simpl;
    [exact Hw | apply IH; now apply handle_pageOk].
Qed.


Lemma start_pageOk (st : AuthService.Storage) : pageOk (start st).
Proof.
  unfold pageOk. simpl. split; [apply initial_inSync|]. split; [constructor|].
  reflexivity.
Qed.

(** X16. Whatever is typed, blurred, clicked and answered on the login page,
    a field the user has visited shows exactly the validation message of its
    current content (none when the content is valid), and a field not yet
    visited shows no message. *)
Theorem login_errors_in_sync (st : AuthService.Storage) (events : list Event)
    (f : Login.Field) :
  let s := login (play events (start st)) in
  (Login.shown (Login.formErrors s) (Login.fieldName f) <> "" ->
   Login.isTouched (Login.touched s) (Login.fieldName f) = true) /\
  (Login.isTouched (Login.touched s) (Login.fieldName f) = true ->
   Login.shown (Login.formErrors s) (Login.fieldName f)
   = Login.shown
       (Login.validateField (Login.fieldName f)
          (Login.fieldValue f (Login.credentials s)))
       (Login.fieldName f)).
Proof.
  destruct (play_pageOk events _ (start_pageOk st)) as (Hsync & _).
  exact (Hsync f).
Qed.

(** X17. Every pair of credentials the login page ever posts has a username
    of at least 3 characters, all of them letters, digits or underscores,
    and a password of at least 6 characters. *)
Theorem posted_credentials_are_valid (st : AuthService.Storage)
    (events : list Event) :
  Forall
    (fun c =>
       (3 <= String.length (Login.username c))%nat /\
       Login.allWordChars (Login.username c) = true /\
       (6 <= String.length (Login.password c))%nat)
    (posts (play events (start st))).
Proof.
  destruct (play_pageOk events _ (start_pageOk st)) as (_ & Hposts & _).
  exact Hposts.
Qed.


End AppStates.





(** X20. While the dashboard is shown: logging out empties the storage,
    clears the current user and brings back a blank login page; a task
    request rejected with status 401 does the same and reloads the page; a
    task request rejected with any other status leaves storage, current user
    and page as they are. *)
Theorem session_ends_on_logout_or_401 (w : App.World) (user : object)
    (error : AuthService.HttpError) :
  App.currentUser (App.app w) = Some user ->
  (let w' := App.handle App.ClickLogout w in
   App.storage w' = None /\ App.currentUser (App.app w') = None /\
   App.login w' = Login.initial /\ App.reloads w' = App.reloads w /\
   AuthService.getAuthHeader (App.storage w') = ∅) /\
  (let w' := App.handle (App.TaskRequestFails error) w in
   if decide (AuthService.status error = VNum 401)
   then App.storage w' = None /\ App.currentUser (App.app w') = None /\
        App.login w' = Login.initial /\ App.reloads w' = S (App.reloads w) /\
        AuthService.getAuthHeader (App.storage w') = ∅
   else w' = w).
Proof.
  intros Huser. unfold App.handle. simpl App.offered. rewrite Huser.
  rewrite bool_decide_eq_true_2 by (now exists user). simpl negb. cbv iota.
  split; [repeat split|].
  unfold AuthService.responseInterceptor, strict_eq.
  destruct (decide (AuthService.status error = VNum 401)) as [E|E].
  - rewrite bool_decide_eq_true_2 by exact E. repeat split.
  - rewrite bool_decide_eq_false_2 by exact E. now destruct w.
Qed.

Lemma session_ends_on_logout_or_401_witness :
  App.storage
    (App.handle
       (App.TaskRequestFails
          (AuthService.mkHttpError (VNum 401) VUndefined (VStr "Unauthorized")))
       (App.start (Some Samples.signedIn)))
  = None.
Proof.
  destruct (session_ends_on_logout_or_401 (App.start (Some Samples.signedIn))
              Samples.signedIn
              (AuthService.mkHttpError (VNum 401) VUndefined (VStr "Unauthorized"))
              eq_refl) as (_ & Hfail).
  simpl in Hfail. exact (proj1 Hfail).
Defined.
